(* ===== verification/_CoqProject ===== *)
-Q . S2P
Prelude.v
JsValue.v
Courts.v
State.v
Async.v
Backend.v
World.v
Handlers.v
Lts.v
EventLoop.v
Sorting.v
SortSpec.v
Cards.v
Drawer.v
Page.v
Workflow.v
Clicks.v
Controller.v
Registry.v
Scenarios.v
