(* ===== verification/Prelude.v ===== *)
(** * Verification of the pickleball admin dashboard (src/AdminDashboard.js)

    ** The program

    The repository is one React component, [AdminDashboard].  It keeps ten
    pieces of hook state ([useState]), loads a list of courts
    ([fetchCourts], which stores the constant [mockData]), shows the time
    slots of the selected court as cards, and lets an administrator start
    the video analysis of a past booking.  The handler
    [handleAnalyzeBooking] refuses a slot without a session id and a
    session whose analysis is in progress, opens a drawer, POSTs
    [/analyze_booking/<id>], then GETs [/analysis_results/<id>], and stores
    the results or a normalised error message; its [finally] block clears
    the loading flag and the in-flight flag of the session.
    [handleCardClick] expands and collapses a card, [handleDrawerClose]
    closes the drawer.  The drawer shows a spinner, a failure, the results
    or a placeholder.  All of it is in [src/src/AdminDashboard.js].

    ** The files, in dependency order

    - [Prelude] (this file): the libraries every file loads (stdpp), the
      tactic and the hint database [dash] of the development, lemmas on
      lists and strings that several components share.
    - [JsValue]: the JavaScript values the program handles dynamically
      (responses, thrown errors, the contents of [analysisData] and
      [analysisError]) and the operators the source applies to them:
      truthiness, [||], [&&], a property read with its [TypeError],
      optional chaining, conversion to a string.
    - [Courts]: [COURTS], [mockData] and [selectedCourtData]; the object
      literals as records.
    - [State]: the ten hooks as the record [state], a setter call as an
      [update], the read [isAnalyzing[id]] of the in-flight table with the
      properties the table inherits ([analyzing],
      [object_prototype_keys]), the coherence of the display focus
      ([focus_ok]) and of the stored error ([error_ok]).
    - [Async]: programs with effects, exceptions and [await], as a free
      monad ([prog]) with [bind], [try_catch] and [finally]; [run] executes
      a program up to its next [await], [drive] feeds it the outcomes of
      its requests.  The operations a program needs from the world are the
      class [World].  Laws of the combinators up to the equivalence
      [prog_eq], and the two measures the handlers are analysed with: how
      often a program can suspend ([awaits_le]) and what it can do
      ([all_acts]).
    - [Backend]: the two requests, the message of the success toast
      ([triggerMessage], line 103) and the normalisation of a thrown error
      ([errorMessage], line 113).  The shapes of the service's answers come
      from the interface section of the specification.
    - [World]: the instance of [World] for the dashboard: the hook state
      and a log of toasts, console lines and requests; the setters and
      toast functions of the source as one-effect programs.
    - [Handlers]: [fetchCourts], [handleAnalyzeBooking], [handleCardClick],
      [handleDrawerClose], statement by statement, and what [run] makes of
      each on every branch.  [after_trigger] and [after_fetch] are the rest
      of [handleAnalyzeBooking] from its first and second [await] on; they
      are what [run] leaves pending ([analysis_pipeline_suspends]).
    - [Lts]: labelled transition systems, runs, invariants, simulation.
    - [EventLoop]: the component between two events as a configuration
      (hook state, log, suspended handlers), the events (a tab selected, a
      card or the button clicked, the drawer closed, a request settled) and
      [dispatch], one turn of the event loop.
    - [Sorting]: the comparator of line 167 and [Array.prototype.sort] as
      a stable insertion sort; the in-place effect of the sort on the
      array the [courts] hook holds ([render_courts]).
    - [SortSpec]: what ECMAScript promises of every engine's [sort], as
      the class [ArraySort]; [Sorting.sort_slots] and a second sort,
      [sort_backward], as its instances; the promise determines the
      result when the comparator is consistent, and the two sorts differ
      on a listing where it is not ([sort_engine_dependent]).
    - [Cards]: the callback of [map], lines 168 to 229: every value a card
      shows of its slot, and the unused [isElapsed] whose computation can
      throw.
    - [Drawer]: the drawer, lines 238 to 286: whether it is open and which
      of its four contents it shows; what React mounts of the values the
      contents use as children ([drawer_texts]).
    - [Page]: one render of the component ([render]): the tab bar, the
      cards or the placeholder, the drawer; or the exception of a
      callback.  [mount] is the render followed by React mounting the
      children of the drawer.
    - [Workflow]: one call of [handleAnalyzeBooking] followed from the
      click to the drawer: termination, release of the session, the
      requests and their order, what the drawer shows on success and on
      each failure.
    - [Clicks]: which events the page of a state can raise ([offered]),
      and what the handlers do on the events that are offered.
    - [Controller]: the state machine of the specification
      ([controller_step]) and the proof that a call of
      [handleAnalyzeBooking] goes through its states
      ([handler_refines_controller]).
    - [Registry]: the controller of the specification as a table of
      sessions and a display focus ([controller], [command_step],
      [getSnapshot]); the operations of the component run one after the
      other ([run_operation]); the relation between the hooks and the
      controller ([agrees]).
    - [Scenarios]: sequences of events ([dispatch_all]): two clicks on
      one booking, two bookings analysed at the same time.

    ** How the model corresponds to the code

    A handler is a closure of the render that created it: it reads the
    state of that render (the parameter [snap] of [handleAnalyzeBooking]
    and [handleCardClick]) and writes through the setters.  A setter call
    is applied to the state at once; the event loop hands the current
    state to the handlers it starts, which is what React does when it has
    rendered between two events.  [Workflow.stale_render_double_submission]
    shows what happens when it has not.

    A render is a function of the hook state and of the time.  It returns
    two things: the array of courts as it leaves it, because [sort] works
    in place on the array that the state and [mockData] share, and the
    page or the exception.  An exception of a callback of [map] is the
    result of the whole render.

    Numbers are integers, plain objects are association lists, and a
    property read of a primitive value is [undefined].  The properties
    the source reads by a fixed name ([response], [data], [error],
    [message], [total_shots], [heatmap_data], [video_dimensions]) are on
    no built-in prototype, so a read of a value that has none of its own
    is [undefined] in the model as in JavaScript.  One read has a computed
    name: [isAnalyzing[slot.session_id]] (lines 84, 214 and 216), on an
    object literal.  A session id such as [constructor] or [toString]
    finds there what [Object.prototype] holds, a function, which is truthy;
    [State.analyzing] reads the flag of the table and, where the table has
    none, answers [true] for the names of [State.object_prototype_keys].
    The text of a [TypeError] is V8's.

    A slot is a record.  [session_id] is a string or [None], which stands
    for [null] and for an absent property alike: the source tests its
    truthiness, and uses it as a key, in a path and as a child only when
    it is truthy; the comparison [analysisSessionId === slot.session_id]
    of line 132 tells [null] from [undefined], but only while no session
    is selected, and then the drawer is closed and the two setters it
    guards change nothing.  [cost] and [startHour] are
    integers or absent, [is_past] is a boolean; a listing with values of
    other types is outside the model.  The [onChange] of the tab bar and
    the effect of lines 72 to 75, which loads the courts again when the
    key has changed, are one operation, [onTabChange]; the effect also
    depends on [selectedDate], which no code sets since the calendar is
    commented out.

    [Array.prototype.sort] is the stable insertion sort
    [Sorting.sort_slots].  On a listing where the comparator is consistent
    (every slot has a start hour, or none has) every sort that meets
    ECMAScript's contract returns the same list
    ([SortSpec.array_sort_unique]), so the choice of the algorithm does
    not show on the page ([Page.render_any_sort]), and what the theorems
    say of the order of the cards holds of every engine.  On other
    listings the order is the engine's choice: [sort_slots] and
    [sort_backward] differ on a free slot between two bookings out of
    order ([SortSpec.sort_engine_dependent]), and there the theorems on
    the order of the cards are about [sort_slots].  A card without a
    start hour makes the render throw, so such an order is never on the
    page; it shows in the array the render leaves ([render_courts]).

    A closed drawer mounts no children: the source passes
    [destroyOnClose] to antd's [Drawer] (line 244), and a drawer that was
    never opened has not rendered its content.  [Drawer.drawer_texts] are
    the children this file hands to React itself; what [HeatmapDisplay]
    does with its props is not part of it, so "the mount throws exactly
    when" is said of those children.  A date is a number of
    milliseconds of local time, in a zone without daylight saving.  Of
    [dayjs] the model uses one fact: [hour(x)] reads the hour when [x] is
    [undefined] and returns a number.  Of React it uses one rule: a string
    or a number used as a child is rendered as text, [null], [undefined]
    and booleans as nothing, an array as its elements, and a plain object
    makes React throw ([Drawer.child_text]).  The component returns its
    JSX whatever the children are; the exception is raised when React
    mounts them, and it unmounts the page like an exception of the
    render.

    ** What the theorems show

    - The analysis ([Workflow], [Controller]): a call of
      [handleAnalyzeBooking] that passes its guards ends after two
      answers, whatever they are, with the session released; it sends the
      POST and then at most the GET of the same session; the drawer shows
      the results, or the normalised message of the failure; the call
      goes through the states of the controller of the specification.  A
      refused call changes nothing.  When what was thrown is [undefined]
      or [null] the failure is not reported at all; when the service's
      [error] is an object it is stored as it is and the drawer cannot be
      mounted ([Drawer.drawer_texts_throws] says exactly when that is).
    - The component against the controller ([Registry]): with the
      operations run one after the other and the backend answering as
      documented, the selected session is the controller's focus and the
      drawer shows the snapshot of that session in the controller's
      table and can be mounted, and the in-flight table [isAnalyzing] has
      the sessions of the controller's table: an entry is added by the
      first analysis of a session and never removed.  The slots that can
      be analysed are those whose session id is not empty and names no
      property of [Object.prototype]: a session called [constructor] is
      answered "already in progress" from the first render on, and the
      controller is sent no command for it.  The two differ in
      what they keep: after the drawer is
      closed the hooks are the same whatever the results were, and no
      operation opens the drawer without sending a new trigger.
    - The handlers and the state ([Handlers], [Workflow]): each handler
      keeps the drawer open exactly when a session is selected, and the
      stored error [null] or a truthy message; a click on a card toggles
      it.
    - The page ([Sorting], [Cards], [Drawer], [Page]): the cards are the
      slots of the selected court, sorted and in stable order; what each
      card shows; at most one footer and one framed card; distinct keys;
      when the render throws; the in-place sort does not show on the next
      render; the page is the same for every sort that meets the
      contract of [Array.prototype.sort] ([SortSpec]).  [Page.mount_throws]
      gives the two cases in which a mounted render throws, and no
      other: a card without a start hour, or a child of the drawer that
      is an object.  The shot count the service reports is the one on
      screen ([Controller.analysis_shows_shots]).
    - The page and the handlers ([Clicks]): the button is offered only
      for a slot that passes the first guard; the analysis of a listed
      past booking can be started in two clicks; while it is in flight
      the page shows the spinner and the loading button.
    - Sequences of events ([Scenarios]): a second click on a booking in
      flight sends nothing; two bookings analysed at once show the results
      of one under the id of the other.
    - The mock listing ([Courts], [Cards], [Page]): its statuses are not
      the ones the page tests for, and its available slots make the render
      throw.

    ** Bounds and fuel

    How a request settles is a parameter of the theorems: any value can
    fulfil or reject it, not only the answers the service documents.
    [handleAnalyzeBooking] awaits at most twice, so two outcomes are always
    enough for [drive] to reach the end of the handler
    ([Handlers.analysis_terminates]); no other fuel is used.  Every
    function of the page is structurally recursive.  [Registry] runs
    each analysis to its end before the next operation starts, with
    answers of the shapes the specification documents and failures that
    carry a message; sequences of operations are of any length.

    ** What is not modelled

    Tag names and the constants of the styling; the unused [currentHour]
    (line 77); the calendar (commented out in the source); non-integer
    costs and hours; the component [HeatmapDisplay] (not in the
    repository); the libraries (React, antd, sonner, dayjs, axios) beyond
    the calls the source makes; the analysis service.  After a render has
    thrown React unmounts the component; the event loop does not model
    that, and its events are not restricted to the ones [Clicks.offered]
    allows.  The controller object of the specification does not exist
    in the source: its table, its focus and [getSnapshot] are modelled
    from the specification to compare the hooks with; [subscribe] and the
    listeners are not, the component has nothing in their place but
    React's own re-rendering.  [Registry] does not interleave handlers:
    an analysis that is still in flight when the next operation starts
    is the subject of [EventLoop] and [Scenarios].  The
    bookkeeping invariant of the analyses in flight
    ([EventLoop.flight_ok]) and the invariants and simulations of [Lts]
    are stated; they are not proved of every reachable configuration.

    Every definition that models code names the lines it translates in
    the manifest that accompanies the development. *)

From stdpp Require Export base tactics option list gmap strings pretty sorting.

(** ** Tactics *)

(** The hint database of the development: each component adds the
    equations and invariance lemmas that automate its common cases. *)
Create HintDb dash discriminated.
Create Rewrite HintDb dash.

(** Normalise with the rewrite rules of the database, then close the goal
    with its resolution hints. *)
Ltac dash :=
  repeat (progress (autorewrite with dash; simpl)); eauto with dash.

#[export] Hint Rewrite @app_nil_r : dash.

(** ** Options and booleans *)

Lemma negb_bool_decide_eq `{EqDecision A} (x y : A) :
  negb (bool_decide (x = y)) = true ↔ x ≠ y.
Proof. rewrite negb_true_iff, bool_decide_eq_false. done. Qed.

(** ** Lists *)

Section lists.
Context {A : Type}.
Implicit Types (l : list A) (x : A) (i : nat).

(** Nothing passes a filter that every element fails. *)
Lemma filter_none (P : A → Prop) `{∀ x, Decision (P x)} l :
  Forall (λ x, ¬ P x) l → filter P l = [].
Proof. induction 1; [done|]. by rewrite filter_cons_False. Qed.

(** In a list sorted pair by pair, an earlier element is below a later
    one. *)
Lemma StronglySorted_lookup (R : relation A) l i j x y :
  StronglySorted R l → l !! i = Some x → l !! j = Some y → (i < j)%nat → R x y.
Proof.
  intros Hl. revert i j. induction Hl as [|a l Hl IH Ha]; intros i j Hi Hj Hij.
  - done.
  - destruct j as [|j]; [lia|]. destruct i as [|i]; simplify_eq/=.
    + rewrite Forall_forall in Ha. by eapply Ha, list_elem_of_lookup_2.
    + eapply IH; [done..|lia].
Qed.

End lists.

(** ** Strings *)

Lemma string_length_app (s t : string) :
  String.length (s +:+ t) = String.length s + String.length t.
Proof. induction s as [|a s IH]; simpl; [done|]. by rewrite IH. Qed.

(** A text that ends in at least one character is not empty. *)
Lemma string_app_nonempty (s t : string) : t ≠ "" → s +:+ t ≠ "".
Proof.
  intros Ht H%(f_equal String.length). rewrite string_length_app in H.
  destruct t; simplify_eq/=. lia.
Qed.

(** ** Filters *)

(** Two predicates that agree on the elements of a list filter it alike. *)
Lemma filter_ext_Forall {A} (P Q : A → Prop)
    `{!∀ x, Decision (P x), !∀ x, Decision (Q x)} (l : list A) :
  Forall (λ x, P x ↔ Q x) l → filter P l = filter Q l.
Proof.
  induction 1 as [|x l Hx _ IH]; [done|].
  rewrite !filter_cons, IH. by repeat case_decide; naive_solver.
Qed.
