(* ===== verification/JsValue.v ===== *)
(** * JavaScript values

    The dashboard handles two kinds of data dynamically: what the backend
    answers (the [data] of an axios response) and what a failed [await]
    throws.  Both are arbitrary JavaScript values as far as the source is
    concerned, and the source inspects them with [||], [?.] and plain
    property reads.  This file models those operators.

    Numbers are integers or [NaN]; objects are plain data objects, an
    ordered list of own properties (the first binding of a key is the one
    read).  Prototype properties ([length], methods) are not modelled
    here: the names the source reads of these values are fixed and on no
    built-in prototype.  The one read by a computed name,
    [isAnalyzing[slot.session_id]], is [State.analyzing].  Values nest;
    [jsval_ind_nested] is the induction principle that goes through
    arrays and objects. *)

From S2P Require Import Prelude.

Inductive jsval : Type :=
| JUndefined
| JNull
| JBool (b : bool)
| JNum (n : Z)
| JNaN
| JStr (s : string)
| JArr (elems : list jsval)
| JObj (fields : list (string * jsval)).

(** [ToBoolean]: [undefined], [null], [false], [0], [NaN] and the empty
    string are falsy, everything else is truthy. *)
Definition truthy (v : jsval) : bool :=
  match v with
  | JUndefined | JNull | JNaN => false
  | JBool b => b
  | JNum n => negb (bool_decide (n = 0%Z))
  | JStr s => negb (bool_decide (s = ""))
  | JArr _ | JObj _ => true
  end.

(** [a || b] and [a && b], on values that are already evaluated. *)
Definition js_or (a b : jsval) : jsval := if truthy a then a else b.
Definition js_and (a b : jsval) : jsval := if truthy a then b else a.

Definition nullish (v : jsval) : bool :=
  match v with
  | JUndefined | JNull => true
  | _ => false
  end.

(** The own property [k] of a list of fields, [undefined] when absent. *)
Fixpoint lookup_field (k : string) (fs : list (string * jsval)) : jsval :=
  match fs with
  | [] => JUndefined
  | (k', v) :: fs' => if bool_decide (k' = k) then v else lookup_field k fs'
  end.

(** The [TypeError] a property read of [undefined] or [null] throws; the
    message is V8's. *)
Definition type_error (what k : string) : jsval :=
  JObj [("name", JStr "TypeError");
        ("message",
         JStr ("Cannot read properties of " +:+ what +:+
               " (reading '" +:+ k +:+ "')"))].

(** [v.k]: the value read, or the exception thrown. *)
Definition get_prop (v : jsval) (k : string) : jsval + jsval :=
  match v with
  | JUndefined => inr (type_error "undefined" k)
  | JNull => inr (type_error "null" k)
  | JObj fs => inl (lookup_field k fs)
  | _ => inl JUndefined
  end.

(** [v?.k]: [undefined] when [v] is nullish, [v.k] otherwise. *)
Definition get_opt (v : jsval) (k : string) : jsval :=
  match get_prop v k with
  | inl x => x
  | inr _ => JUndefined
  end.

(** [ToString], as a template literal applies it. *)
Fixpoint to_string (v : jsval) : string :=
  match v with
  | JUndefined => "undefined"
  | JNull => "null"
  | JBool true => "true"
  | JBool false => "false"
  | JNum n => pretty n
  | JNaN => "NaN"
  | JStr s => s
  | JArr elems =>
      (fix join (l : list jsval) : string :=
         match l with
         | [] => ""
         | [x] => if nullish x then "" else to_string x
         | x :: l' => (if nullish x then "" else to_string x) +:+ "," +:+ join l'
         end) elems
  | JObj _ => "[object Object]"
  end.

(** The property key a value of type [string | null] denotes
    ([ToPropertyKey]), also what a template literal makes of it. *)
Definition prop_key (o : option string) : string :=
  match o with
  | Some s => s
  | None => "null"
  end.

(** Truthiness of a value of type [string | null]. *)
Definition truthy_str (o : option string) : bool :=
  match o with
  | Some s => negb (bool_decide (s = ""))
  | None => false
  end.

(** ** Induction on values *)

(** Induction through the elements of an array and the values of an
    object's properties. *)
Lemma jsval_ind_nested (P : jsval → Prop) :
  P JUndefined → P JNull → (∀ b, P (JBool b)) → (∀ n, P (JNum n)) → P JNaN →
  (∀ s, P (JStr s)) →
  (∀ elems, Forall P elems → P (JArr elems)) →
  (∀ fields, Forall (λ kv, P kv.2) fields → P (JObj fields)) →
  ∀ v, P v.
Proof.
  intros H1 H2 H3 H4 H5 H6 Harr Hobj. fix IH 1.
  intros [| |b|n| |s|elems|fields];
    [exact H1|exact H2|apply H3|apply H4|exact H5|apply H6| |].
  - apply Harr. induction elems as [|x l IHl]; constructor; [apply IH|apply IHl].
  - apply Hobj.
    induction fields as [|[k x] l IHl]; constructor; [apply IH|apply IHl].
Qed.

(** ** Truthiness and the logical operators *)

Lemma truthy_not_nullish v : truthy v = true → nullish v = false.
Proof. by destruct v. Qed.

Lemma js_or_truthy_l a b : truthy a = true → js_or a b = a.
Proof. unfold js_or. by intros ->. Qed.

Lemma js_or_falsy_l a b : truthy a = false → js_or a b = b.
Proof. unfold js_or. by intros ->. Qed.

(** [a || b] is truthy as soon as its fallback is. *)
Lemma truthy_js_or_r a b : truthy b = true → truthy (js_or a b) = true.
Proof. unfold js_or. by destruct (truthy a) eqn:?. Qed.

Lemma truthy_js_or a b : truthy (js_or a b) = truthy a || truthy b.
Proof. unfold js_or. by destruct (truthy a) eqn:Ha; rewrite ?Ha. Qed.

Lemma truthy_js_and a b : truthy (js_and a b) = truthy a && truthy b.
Proof. unfold js_and. by destruct (truthy a) eqn:Ha; rewrite ?Ha. Qed.

Lemma js_or_assoc a b c : js_or (js_or a b) c = js_or a (js_or b c).
Proof. unfold js_or. by destruct (truthy a) eqn:Ha; rewrite ?Ha. Qed.

Lemma truthy_JStr s : truthy (JStr s) = true ↔ s ≠ "".
Proof. apply negb_bool_decide_eq. Qed.

Lemma truthy_str_Some o : truthy_str o = true ↔ ∃ s, o = Some s ∧ s ≠ "".
Proof.
  destruct o as [s|]; simpl.
  - rewrite negb_bool_decide_eq. naive_solver.
  - naive_solver.
Qed.

Lemma prop_key_truthy o s : o = Some s → prop_key o = s.
Proof. by intros ->. Qed.

(** ** Property reads *)

(** A property read throws exactly on [undefined] and [null]. *)
Lemma get_prop_throws v k : (∃ e, get_prop v k = inr e) ↔ nullish v = true.
Proof. destruct v; simpl; naive_solver. Qed.

Lemma get_prop_ok v k : nullish v = false → get_prop v k = inl (get_opt v k).
Proof. by destruct v. Qed.

Lemma get_opt_nullish v k : nullish v = true → get_opt v k = JUndefined.
Proof. by destruct v. Qed.

(** Optional chaining agrees with the plain read wherever that succeeds. *)
Lemma get_opt_get_prop v k x : get_prop v k = inl x → get_opt v k = x.
Proof. unfold get_opt. by intros ->. Qed.

Lemma lookup_field_cons_eq k v fs : lookup_field k ((k, v) :: fs) = v.
Proof. simpl. by rewrite bool_decide_eq_true_2. Qed.

Lemma lookup_field_cons_ne k k' v fs :
  k' ≠ k → lookup_field k ((k', v) :: fs) = lookup_field k fs.
Proof. intros. simpl. by rewrite bool_decide_eq_false_2. Qed.

(** A chain [v?.a?.b] is [undefined] as soon as a link is missing. *)
Lemma get_opt_chain_undefined v a b :
  get_opt v a = JUndefined → get_opt (get_opt v a) b = JUndefined.
Proof. by intros ->. Qed.

#[export] Hint Rewrite js_or_truthy_l js_or_falsy_l using done : dash.
#[export] Hint Rewrite lookup_field_cons_eq : dash.
#[export] Hint Rewrite lookup_field_cons_ne using done : dash.
