(* ===== verification/Courts.v ===== *)
(** * Courts and time slots

    The data the dashboard lists: the court names of the tab bar, the
    records of the mock court listing ([mockData]) and the lookup of the
    selected court.  A slot is the object literal of the source with its
    optional properties as options: [session_id] is a string or [null], and
    [bookedBy], [cost] and [startHour] are absent from the available
    slots. *)

From S2P Require Import Prelude.

Record slot : Type := Slot {
  slot_id : string;
  time : string;
  status : string;
  session_id : option string;
  is_past : bool;
  bookedBy : option string;
  cost : option Z;
  startHour : option Z
}.

Record court : Type := Court {
  court_id : string;
  name : string;
  time_slots : list slot
}.

#[export] Instance slot_eq_dec : EqDecision slot.
Proof. solve_decision. Defined.

#[export] Instance court_eq_dec : EqDecision court.
Proof. solve_decision. Defined.

Definition COURTS : list string := ["Court 1"; "Court 2"].

(** The first two bookings of the mock listing. *)
Definition slot_c1_9am : slot :=
  Slot "slot_c1_9am" "09:00" "booked" (Some "sess_xyz_mock_court1_9am")
       true (Some "John Doe") (Some 10%Z) (Some 9%Z).

Definition slot_c1_10am : slot :=
  Slot "slot_c1_10am" "10:00" "booked" (Some "sess_abc_mock_court1_10am")
       true (Some "Jane Smith") (Some 10%Z) (Some 10%Z).

Definition court_1 : court :=
  Court "court_1" "Court 1"
    [ slot_c1_9am;
      slot_c1_10am;
      Slot "slot_c1_11am" "11:00" "booked" (Some "sess_def_mock_court1_11am")
           false (Some "Alice King") (Some 10%Z) (Some 11%Z);
      Slot "slot_c1_12pm" "12:00" "available" None false None None None;
      Slot "slot_c1_8am" "08:00" "available" None false None None None ].

Definition court_2 : court :=
  Court "court_2" "Court 2"
    [ Slot "slot_c2_9am" "09:00" "booked" (Some "sess_ghi_mock_court2_9am")
           true (Some "Bob Lee") (Some 10%Z) (Some 9%Z);
      Slot "slot_c2_10am" "10:00" "available" None false None None None ].

Definition mockData : list court := [court_1; court_2].

(** [courts.find(court => court.name === selectedCourtKey)]: the first
    court of that name, [None] for [undefined]. *)
Definition selectedCourtData (courts : list court) (selectedCourtKey : string)
    : option court :=
  list_find (λ c, name c = selectedCourtKey) courts ≫= λ '(_, c), Some c.

(** Every slot of a listing, court by court. *)
Definition all_slots (courts : list court) : list slot :=
  courts ≫= time_slots.

(** ** The lookup *)

Lemma selectedCourtData_Some courts key c :
  selectedCourtData courts key = Some c → c ∈ courts ∧ name c = key.
Proof.
  unfold selectedCourtData. intros H.
  destruct (list_find _ courts) as [[i c']|] eqn:Hf; simplify_eq/=.
  apply list_find_Some in Hf as (Hi & Hn & _).
  split; [by eapply list_elem_of_lookup_2 | done].
Qed.

Lemma selectedCourtData_None courts key :
  selectedCourtData courts key = None ↔ ∀ c, c ∈ courts → name c ≠ key.
Proof.
  unfold selectedCourtData.
  destruct (list_find _ courts) as [[i c']|] eqn:Hf; simpl.
  - apply list_find_Some in Hf as (Hi & Hn & _). split; [done|].
    intros H. destruct (H c'); [by eapply list_elem_of_lookup_2 | done].
  - split; [|done]. intros _. apply list_find_None in Hf.
    by rewrite Forall_forall in Hf.
Qed.

(** The lookup returns the first court of the name: an earlier court has
    another name. *)
Lemma selectedCourtData_first courts key c :
  selectedCourtData courts key = Some c →
  ∃ i, courts !! i = Some c ∧ ∀ j c', courts !! j = Some c' → j < i → name c' ≠ key.
Proof.
  unfold selectedCourtData. intros H.
  destruct (list_find _ courts) as [[i c']|] eqn:Hf; simplify_eq/=.
  apply list_find_Some in Hf as (Hi & _ & Hlt). eauto.
Qed.

(** Every tab of [COURTS] finds its court in the mock listing, and no two
    courts of the listing share a name. *)
Lemma mockData_courts :
  Forall (λ key, is_Some (selectedCourtData mockData key)) COURTS ∧
  NoDup (name <$> mockData).
Proof.
  split.
  - repeat constructor; by eexists.
  - compute_done.
Qed.

(** The session ids of the mock listing are pairwise distinct and none is
    empty. *)
Lemma mockData_session_ids :
  NoDup (omap session_id (all_slots mockData)) ∧
  Forall (λ s, s ≠ "") (omap session_id (all_slots mockData)).
Proof. split; compute_done. Qed.

(** The second tab of the mock listing. *)
Lemma selectedCourtData_first_witness :
  ∃ i, mockData !! i =
         Some (Court "court_2" "Court 2"
                 [Slot "slot_c2_9am" "09:00" "booked" (Some "sess_ghi_mock_court2_9am")
                       true (Some "Bob Lee") (Some 10%Z) (Some 9%Z);
                  Slot "slot_c2_10am" "10:00" "available" None false None None None]) ∧
       ∀ j c', mockData !! j = Some c' → j < i → name c' ≠ "Court 2".
Proof. apply (selectedCourtData_first mockData "Court 2"). by vm_compute. Defined.
