(* ===== verification/State.v ===== *)
(** * The component's state

    The ten [useState] hooks of [AdminDashboard] as one record, the value
    each starts with, and the setters.  A setter call is data ([update]):
    a handler produces updates and React applies them, in the order of the
    calls, to the state it holds ([apply_update]).  [setIsAnalyzing] is the
    one setter the source calls with an updater function, so its update
    carries the function and is applied to the state current at that time,
    not to the state the handler was created with.

    [selectedDate] is a [dayjs] object in the source, a number of
    milliseconds here.  [isAnalyzing] is an object literal used as a
    table; [analyzing] is the read [isAnalyzing[id]], which finds the
    properties of [Object.prototype] where the table has no flag.  Two
    predicates say when the state is coherent:
    [focus_ok] for the drawer and the session it shows, [error_ok] for
    the stored error. *)

From S2P Require Import Prelude JsValue Courts.

Record state : Type := State {
  courts : list court;
  selectedCourtKey : string;
  selectedDate : Z;
  expandedSlotIndex : option nat;
  analysisDrawerOpen : bool;
  analysisSessionId : option string;
  analysisLoading : bool;
  analysisData : jsval;
  analysisError : jsval;
  isAnalyzing : gmap string bool
}.

(** The arguments of the [useState] calls; [now] is what [dayjs()] returns
    at the first render. *)
Definition initial_state (now : Z) : state :=
  {| courts := [];
     selectedCourtKey := "Court 1";
     selectedDate := now;
     expandedSlotIndex := None;
     analysisDrawerOpen := false;
     analysisSessionId := None;
     analysisLoading := false;
     analysisData := JNull;
     analysisError := JNull;
     isAnalyzing := ∅ |}.

Inductive update : Type :=
| SetCourts (v : list court)
| SetSelectedCourtKey (v : string)
| SetSelectedDate (v : Z)
| SetExpandedSlotIndex (v : option nat)
| SetAnalysisDrawerOpen (v : bool)
| SetAnalysisSessionId (v : option string)
| SetAnalysisLoading (v : bool)
| SetAnalysisData (v : jsval)
| SetAnalysisError (v : jsval)
| SetIsAnalyzing (f : gmap string bool → gmap string bool).

Definition apply_update (u : update) (st : state) : state :=
  match u with
  | SetCourts v =>
      State v (selectedCourtKey st) (selectedDate st) (expandedSlotIndex st)
        (analysisDrawerOpen st) (analysisSessionId st) (analysisLoading st)
        (analysisData st) (analysisError st) (isAnalyzing st)
  | SetSelectedCourtKey v =>
      State (courts st) v (selectedDate st) (expandedSlotIndex st)
        (analysisDrawerOpen st) (analysisSessionId st) (analysisLoading st)
        (analysisData st) (analysisError st) (isAnalyzing st)
  | SetSelectedDate v =>
      State (courts st) (selectedCourtKey st) v (expandedSlotIndex st)
        (analysisDrawerOpen st) (analysisSessionId st) (analysisLoading st)
        (analysisData st) (analysisError st) (isAnalyzing st)
  | SetExpandedSlotIndex v =>
      State (courts st) (selectedCourtKey st) (selectedDate st) v
        (analysisDrawerOpen st) (analysisSessionId st) (analysisLoading st)
        (analysisData st) (analysisError st) (isAnalyzing st)
  | SetAnalysisDrawerOpen v =>
      State (courts st) (selectedCourtKey st) (selectedDate st)
        (expandedSlotIndex st) v (analysisSessionId st) (analysisLoading st)
        (analysisData st) (analysisError st) (isAnalyzing st)
  | SetAnalysisSessionId v =>
      State (courts st) (selectedCourtKey st) (selectedDate st)
        (expandedSlotIndex st) (analysisDrawerOpen st) v (analysisLoading st)
        (analysisData st) (analysisError st) (isAnalyzing st)
  | SetAnalysisLoading v =>
      State (courts st) (selectedCourtKey st) (selectedDate st)
        (expandedSlotIndex st) (analysisDrawerOpen st) (analysisSessionId st) v
        (analysisData st) (analysisError st) (isAnalyzing st)
  | SetAnalysisData v =>
      State (courts st) (selectedCourtKey st) (selectedDate st)
        (expandedSlotIndex st) (analysisDrawerOpen st) (analysisSessionId st)
        (analysisLoading st) v (analysisError st) (isAnalyzing st)
  | SetAnalysisError v =>
      State (courts st) (selectedCourtKey st) (selectedDate st)
        (expandedSlotIndex st) (analysisDrawerOpen st) (analysisSessionId st)
        (analysisLoading st) (analysisData st) v (isAnalyzing st)
  | SetIsAnalyzing f =>
      State (courts st) (selectedCourtKey st) (selectedDate st)
        (expandedSlotIndex st) (analysisDrawerOpen st) (analysisSessionId st)
        (analysisLoading st) (analysisData st) (analysisError st)
        (f (isAnalyzing st))
  end.

(** A batch of setter calls, applied in the order of the calls. *)
Definition apply_updates (us : list update) (st : state) : state :=
  foldl (λ s u, apply_update u s) st us.

(** The properties every object literal inherits from [Object.prototype]:
    read on an object that has no property of its own of that name, each
    gives a function (or, for [__proto__], the prototype itself), which is
    truthy. *)
Definition object_prototype_keys : list string :=
  ["constructor"; "hasOwnProperty"; "isPrototypeOf"; "propertyIsEnumerable";
   "toLocaleString"; "toString"; "valueOf"; "__proto__";
   "__defineGetter__"; "__defineSetter__";
   "__lookupGetter__"; "__lookupSetter__"].

Definition inherited (id : string) : bool :=
  bool_decide (id ∈ object_prototype_keys).

(** [isAnalyzing[id]] as a condition.  The table is an object literal
    ([{}], then [{...prevState, [id]: flag}]): the read gives the flag the
    table holds for [id], and what [Object.prototype] holds when the table
    has none. *)
Definition analyzing (st : state) (id : string) : bool :=
  match isAnalyzing st !! id with
  | Some flag => flag
  | None => inherited id
  end.

Arguments inherited : simpl never.

(** Whether an update leaves the display focus (the drawer and the
    session it shows) alone. *)
Definition touches_focus (u : update) : bool :=
  match u with
  | SetAnalysisDrawerOpen _ | SetAnalysisSessionId _ => true
  | _ => false
  end.

(** Whether an update writes the bookkeeping of the analyses in flight:
    the in-flight table or the loading flag. *)
Definition touches_flight (u : update) : bool :=
  match u with
  | SetIsAnalyzing _ | SetAnalysisLoading _ => true
  | _ => false
  end.

(** The display focus is coherent when the drawer is open exactly when a
    session is selected, and the selected session id is not empty. *)
Definition focus_ok (st : state) : Prop :=
  (analysisDrawerOpen st = true ↔ is_Some (analysisSessionId st)) ∧
  (analysisSessionId st ≠ Some "").

#[export] Instance focus_ok_dec st : Decision (focus_ok st).
Proof. unfold focus_ok. apply _. Defined.

(** A proper content of [analysisError]: [null], or a message the drawer
    shows (a truthy value). *)
Definition proper_error (v : jsval) : bool :=
  match v with
  | JNull => true
  | _ => truthy v
  end.

Definition error_ok (st : state) : Prop := proper_error (analysisError st) = true.

(** Whether an update stores a proper error, if it stores one. *)
Definition stores_error (u : update) : Prop :=
  match u with
  | SetAnalysisError v => proper_error v = true
  | _ => True
  end.

(** ** Frame properties of the setters *)

Lemma apply_updates_app us vs st :
  apply_updates (us ++ vs) st = apply_updates vs (apply_updates us st).
Proof. apply foldl_app. Qed.

Lemma apply_update_flight u st :
  touches_flight u = false →
  isAnalyzing (apply_update u st) = isAnalyzing st ∧
  analysisLoading (apply_update u st) = analysisLoading st.
Proof. by destruct u. Qed.

Lemma apply_update_focus u st :
  touches_focus u = false →
  analysisDrawerOpen (apply_update u st) = analysisDrawerOpen st ∧
  analysisSessionId (apply_update u st) = analysisSessionId st.
Proof. by destruct u. Qed.

Lemma apply_updates_flight us st :
  forallb (λ u, negb (touches_flight u)) us = true →
  isAnalyzing (apply_updates us st) = isAnalyzing st ∧
  analysisLoading (apply_updates us st) = analysisLoading st.
Proof.
  unfold apply_updates. revert st.
  induction us as [|u us IH]; intros st; simpl; [done|].
  rewrite andb_true_iff, negb_true_iff. intros [Hu Hus].
  destruct (IH (apply_update u st) Hus) as [-> ->].
  by apply apply_update_flight.
Qed.

Lemma focus_ok_frame u st :
  touches_focus u = false → focus_ok st → focus_ok (apply_update u st).
Proof.
  intros Hu. unfold focus_ok.
  by destruct (apply_update_focus u st Hu) as [-> ->].
Qed.

Lemma error_ok_update u st :
  stores_error u → error_ok st → error_ok (apply_update u st).
Proof. by destruct u. Qed.

(** With a proper error stored, "there is an error" and "the error is
    truthy" are the same test. *)
Lemma error_ok_truthy st :
  error_ok st → truthy (analysisError st) = true ↔ analysisError st ≠ JNull.
Proof.
  unfold error_ok. destruct (analysisError st); simpl; intros H; by rewrite ?H.
Qed.

Lemma initial_focus_ok now : focus_ok (initial_state now).
Proof. split; [|done]. simpl. split; [done|]. by intros [? ?]. Qed.

(** ** Reading the in-flight table *)

(** A flag of the table shadows the prototype. *)
Lemma analyzing_own st id flag :
  isAnalyzing st !! id = Some flag → analyzing st id = flag.
Proof. unfold analyzing. by intros ->. Qed.

Lemma analyzing_true st id : isAnalyzing st !! id = Some true → analyzing st id = true.
Proof. apply analyzing_own. Qed.

Lemma analyzing_false st id : isAnalyzing st !! id = Some false → analyzing st id = false.
Proof. apply analyzing_own. Qed.

(** Without a flag of its own, a session reads as in flight exactly when
    its id names a property of the prototype. *)
Lemma analyzing_absent st id :
  isAnalyzing st !! id = None → analyzing st id = inherited id.
Proof. unfold analyzing. by intros ->. Qed.

(** The read depends on the table only. *)
Lemma analyzing_ext st st' id :
  isAnalyzing st' = isAnalyzing st → analyzing st' id = analyzing st id.
Proof. unfold analyzing. by intros ->. Qed.

(** On a session that reads as idle, a flag set and then reset leaves
    every session reading as before. *)
Lemma analyzing_released st st' id id' :
  analyzing st id = false →
  isAnalyzing st' = <[id := false]> (<[id := true]> (isAnalyzing st)) →
  analyzing st' id' = analyzing st id'.
Proof.
  intros Hid Hst. unfold analyzing in *. rewrite Hst, lookup_insert.
  case_decide as Heq; [by subst id'|by rewrite lookup_insert_ne].
Qed.

(** Where nothing has been analysed only the prototype answers. *)
Lemma analyzing_initial now id : analyzing (initial_state now) id = inherited id.
Proof. by apply analyzing_absent. Qed.

#[export] Hint Resolve initial_focus_ok focus_ok_frame : dash.
