(* ===== verification/Async.v ===== *)
(** * Asynchronous handlers

    A JavaScript [async] function runs until its next [await], hands a
    request to the environment, and is resumed later with the value the
    promise settled with: the value it was fulfilled with, or the one it
    was rejected with, which the [await] then throws.  Between two awaits
    nothing else runs.

    [prog Act Req A] is the type of such functions, as finite trees: [Act]
    are the synchronous effects (setter calls, toasts), [Req] the requests
    an [await] waits on, [A] the result.  [try_catch] and [finally] are the
    statements of the same name, [run] is execution up to the next
    suspension in a world that interprets the effects ([World]).

    Continuations are functions, so programs are compared up to [prog_eq],
    equality that looks through them pointwise. *)

From S2P Require Import Prelude JsValue.

(** How a promise settled. *)
Inductive settled : Type :=
| Fulfilled (v : jsval)
| Rejected (e : jsval).

Inductive prog (Act Req A : Type) : Type :=
| Ret (a : A)
| Throw (e : jsval)
| Do (a : Act) (k : prog Act Req A)
| Await (r : Req) (k : settled → prog Act Req A).

Arguments Ret {Act Req A} a.
Arguments Throw {Act Req A} e.
Arguments Do {Act Req A} a k.
Arguments Await {Act Req A} r k.

(** What a run ends with: the function returned, threw out of its body (the
    promise it returned is rejected), or is suspended on a request. *)
Inductive outcome (Act Req A : Type) : Type :=
| Finished (a : A)
| Uncaught (e : jsval)
| Suspended (r : Req) (k : settled → prog Act Req A).

Arguments Finished {Act Req A} a.
Arguments Uncaught {Act Req A} e.
Arguments Suspended {Act Req A} r k.

(** What a program needs from the world it runs in: the meaning of a
    synchronous effect, and of handing a request to the environment. *)
Class World (Act Req W : Type) : Type := {
  perform : Act → W → W;
  issue : Req → W → W
}.

Section prog.
Context {Act Req : Type}.
Notation prog := (prog Act Req).
Notation outcome := (outcome Act Req).

Fixpoint bind {A B : Type} (p : prog A) (f : A → prog B) : prog B :=
  match p with
  | Ret a => f a
  | Throw e => Throw e
  | Do a k => Do a (bind k f)
  | Await r k => Await r (λ s, bind (k s) f)
  end.

(** [try { p } catch (e) { h e }] *)
Fixpoint try_catch {A : Type} (p : prog A) (h : jsval → prog A) : prog A :=
  match p with
  | Ret a => Ret a
  | Throw e => h e
  | Do a k => Do a (try_catch k h)
  | Await r k => Await r (λ s, try_catch (k s) h)
  end.

(** [try { p } finally { c }]: [c] runs on the way out, whether [p]
    returned or threw, and the result or the exception of [p] is kept
    unless [c] throws. *)
Fixpoint finally {A : Type} (p : prog A) (c : prog unit) : prog A :=
  match p with
  | Ret a => bind c (λ _, Ret a)
  | Throw e => bind c (λ _, Throw e)
  | Do a k => Do a (finally k c)
  | Await r k => Await r (λ s, finally (k s) c)
  end.

(** One synchronous effect. *)
Definition act (a : Act) : prog unit := Do a (Ret tt).

(** What an [await] makes of a settled promise. *)
Definition resume (s : settled) : prog jsval :=
  match s with
  | Fulfilled v => Ret v
  | Rejected e => Throw e
  end.

(** [await r] *)
Definition await (r : Req) : prog jsval := Await r resume.

(** An expression that evaluates to a value or throws. *)
Definition eval (x : jsval + jsval) : prog jsval :=
  match x with
  | inl v => Ret v
  | inr e => Throw e
  end.

(** The largest number of awaits on a path of the program is at most [n]. *)
Fixpoint awaits_le {A : Type} (n : nat) (p : prog A) : Prop :=
  match p with
  | Ret _ | Throw _ => True
  | Do _ k => awaits_le n k
  | Await _ k => match n with
                 | 0 => False
                 | S n' => ∀ s, awaits_le n' (k s)
                 end
  end.

(** Every synchronous effect on every path of the program satisfies [P]. *)
Fixpoint all_acts {A : Type} (P : Act → Prop) (p : prog A) : Prop :=
  match p with
  | Ret _ | Throw _ => True
  | Do a k => P a ∧ all_acts P k
  | Await _ k => ∀ s, all_acts P (k s)
  end.

(** Equality up to the continuations' extension. *)
Inductive prog_eq {A : Type} : prog A → prog A → Prop :=
| prog_eq_Ret a : prog_eq (Ret a) (Ret a)
| prog_eq_Throw e : prog_eq (Throw e) (Throw e)
| prog_eq_Do a k k' : prog_eq k k' → prog_eq (Do a k) (Do a k')
| prog_eq_Await r k k' :
    (∀ s, prog_eq (k s) (k' s)) → prog_eq (Await r k) (Await r k').

Section run.
Context {W : Type} `{!World Act Req W}.

(** Execution up to the next suspension. *)
Fixpoint run {A : Type} (p : prog A) (w : W) : W * outcome A :=
  match p with
  | Ret a => (w, Finished a)
  | Throw e => (w, Uncaught e)
  | Do a k => run k (perform a w)
  | Await r k => (issue r w, Suspended r k)
  end.

(** The effects of a program that does not suspend. *)
Definition exec {A : Type} (p : prog A) (w : W) : W := (run p w).1.

(** A handler on its own: run it, and each time it suspends resume it with
    the next of the given answers, until it ends or the answers run out. *)
Fixpoint drive {A : Type} (answers : list settled) (p : prog A) (w : W)
    : W * outcome A :=
  match answers with
  | [] => run p w
  | s :: answers' =>
      match run p w with
      | (w', Suspended _ k) => drive answers' (k s) w'
      | done => done
      end
  end.

(** Outcomes up to the continuation's extension. *)
Definition outcome_eq {A : Type} (o o' : outcome A) : Prop :=
  match o, o' with
  | Finished a, Finished a' => a = a'
  | Uncaught e, Uncaught e' => e = e'
  | Suspended r k, Suspended r' k' => r = r' ∧ ∀ s, prog_eq (k s) (k' s)
  | _, _ => False
  end.

(** The outcome is final: the program is not waiting for anything. *)
Definition settled_outcome {A : Type} (o : outcome A) : Prop :=
  match o with
  | Suspended _ _ => False
  | _ => True
  end.

End run.
End prog.

#[export] Instance prog_bind {Act Req} : MBind (prog Act Req) :=
  λ A B f p, bind p f.
#[export] Instance prog_ret {Act Req} : MRet (prog Act Req) := λ A a, Ret a.

Infix "≡ₐ" := prog_eq (at level 70, no associativity) : stdpp_scope.

(** ** Programs up to their continuations *)

Section prog_eq.
Context {Act Req : Type}.
Notation prog := (prog Act Req).

#[export] Instance prog_eq_refl {A} : Reflexive (@prog_eq Act Req A).
Proof. intros p. induction p; constructor; auto. Qed.

#[export] Instance prog_eq_sym {A} : Symmetric (@prog_eq Act Req A).
Proof. intros p q H. induction H; constructor; auto. Qed.

#[export] Instance prog_eq_trans {A} : Transitive (@prog_eq Act Req A).
Proof.
  intros p q r H. revert r.
  induction H as [| | a k k' _ IH | x k k' _ IH]; intros r Hr;
    inv Hr; constructor; auto.
Qed.

#[export] Instance prog_eq_equiv {A} : Equivalence (@prog_eq Act Req A).
Proof. split; apply _. Qed.

#[export] Instance bind_proper {A B} :
  Proper (prog_eq ==> pointwise_relation A prog_eq ==> prog_eq) (@bind Act Req A B).
Proof.
  intros p q H f g Hfg. induction H; simpl; try constructor; auto.
Qed.

#[export] Instance try_catch_proper {A} :
  Proper (prog_eq ==> pointwise_relation jsval prog_eq ==> prog_eq)
    (@try_catch Act Req A).
Proof.
  intros p q H f g Hfg. induction H; simpl; try constructor; auto.
Qed.

#[export] Instance finally_proper {A} :
  Proper (prog_eq ==> prog_eq ==> prog_eq) (@finally Act Req A).
Proof.
  intros p q H c d Hcd. induction H; simpl; try constructor; auto;
    by apply bind_proper.
Qed.

(** The monad laws; the left unit law holds by computation. *)
Lemma bind_ret_r {A} (p : prog A) : bind p Ret ≡ₐ p.
Proof. induction p; simpl; constructor; auto. Qed.

Lemma bind_assoc {A B C} (p : prog A) (f : A → prog B) (g : B → prog C) :
  bind (bind p f) g ≡ₐ bind p (λ a, bind (f a) g).
Proof. induction p; simpl; try constructor; auto. reflexivity. Qed.

(** A handler that rethrows catches nothing. *)
Lemma try_catch_rethrow {A} (p : prog A) : try_catch p Throw ≡ₐ p.
Proof. induction p; simpl; constructor; auto. Qed.

(** The handler of an inner [try] sees the exception first; what it throws
    goes to the outer one. *)
Lemma try_catch_nest {A} (p : prog A) (h h' : jsval → prog A) :
  try_catch (try_catch p h) h' ≡ₐ try_catch p (λ e, try_catch (h e) h').
Proof. induction p; simpl; try constructor; auto. reflexivity. Qed.

(** An empty [finally] block changes nothing. *)
Lemma finally_skip {A} (p : prog A) : finally p (Ret tt) ≡ₐ p.
Proof. induction p; simpl; constructor; auto. Qed.

End prog_eq.

(** ** Running composed programs *)

Section run_lemmas.
Context {Act Req W : Type} `{!World Act Req W}.
Notation prog := (prog Act Req).
Notation outcome := (outcome Act Req).

Lemma run_proper {A} (p q : prog A) (w : W) :
  p ≡ₐ q → (run p w).1 = (run q w).1 ∧ outcome_eq (run p w).2 (run q w).2.
Proof. intros H. revert w. induction H; intros w; simpl; auto. Qed.

Lemma run_bind {A B} (p : prog A) (f : A → prog B) (w : W) :
  run (bind p f) w =
  match run p w with
  | (w', Finished a) => run (f a) w'
  | (w', Uncaught e) => (w', Uncaught e)
  | (w', Suspended r k) => (w', Suspended r (λ s, bind (k s) f))
  end.
Proof. revert w. induction p; intros w; simpl; auto. Qed.

Lemma run_try_catch {A} (p : prog A) (h : jsval → prog A) (w : W) :
  run (try_catch p h) w =
  match run p w with
  | (w', Finished a) => (w', Finished a)
  | (w', Uncaught e) => run (h e) w'
  | (w', Suspended r k) => (w', Suspended r (λ s, try_catch (k s) h))
  end.
Proof. revert w. induction p; intros w; simpl; auto. Qed.

Lemma run_finally {A} (p : prog A) (c : prog unit) (w : W) :
  run (finally p c) w =
  match run p w with
  | (w', Finished a) => run (bind c (λ _, Ret a)) w'
  | (w', Uncaught e) => run (bind c (λ _, Throw e)) w'
  | (w', Suspended r k) => (w', Suspended r (λ s, finally (k s) c))
  end.
Proof. revert w. induction p; intros w; simpl; auto. Qed.

(** A cleanup made of synchronous effects that neither throws nor suspends
    is performed on both exits of the body, and the exit is kept. *)
Lemma run_finally_sync {A} (p : prog A) (c : prog unit) (w w' : W) o :
  run p w = (w', o) →
  (∀ v, run c v = (exec c v, Finished tt)) →
  run (finally p c) w =
  match o with
  | Finished a => (exec c w', Finished a)
  | Uncaught e => (exec c w', Uncaught e)
  | Suspended r k => (w', Suspended r (λ s, finally (k s) c))
  end.
Proof.
  intros Hp Hc. rewrite run_finally, Hp.
  destruct o; [| |done]; by rewrite run_bind, Hc.
Qed.

(** A program with no await left does not suspend. *)
Lemma awaits_le_0_run {A} (p : prog A) (w : W) :
  awaits_le 0 p → ∀ r k, (run p w).2 ≠ Suspended r k.
Proof. revert w. induction p; intros w Hp r' k'; simpl in *; auto. Qed.

(** A program with at most [S n] awaits left that suspends has at most [n]
    left when it is resumed. *)
Lemma awaits_le_S_run {A} n (p : prog A) (w : W) r k :
  awaits_le (S n) p → (run p w).2 = Suspended r k → ∀ s, awaits_le n (k s).
Proof.
  revert w. induction p; intros w Hp Hrun; simpl in *; try done; eauto.
  by simplify_eq.
Qed.

Lemma settled_outcome_iff {A} (o : outcome A) :
  settled_outcome o ↔ ∀ r k, o ≠ Suspended r k.
Proof. destruct o; simpl; naive_solver. Qed.

(** A handler that is not suspended ignores the answers. *)
Lemma drive_settled {A} answers (p : prog A) (w : W) :
  settled_outcome (run p w).2 → drive answers p w = run p w.
Proof.
  destruct answers as [|s answers]; simpl; [done|].
  by destruct (run p w) as [w' []].
Qed.

(** Termination: a handler with at most [n] awaits has ended after [n]
    answers, whatever they are. *)
Lemma drive_terminates {A} answers (p : prog A) (w : W) :
  awaits_le (length answers) p → settled_outcome (drive answers p w).2.
Proof.
  revert p w. induction answers as [|s answers IH]; intros p w Hp; simpl in *.
  - apply settled_outcome_iff, awaits_le_0_run, Hp.
  - destruct (run p w) as [w' o] eqn:Hrun. destruct o as [| |r k]; try done.
    apply IH. eapply (awaits_le_S_run _ p w); [done|by rewrite Hrun].
Qed.

(** Answers beyond the last await are not consumed. *)
Lemma drive_app {A} answers more (p : prog A) (w : W) :
  awaits_le (length answers) p → drive (answers ++ more) p w = drive answers p w.
Proof.
  revert p w. induction answers as [|s answers IH]; intros p w Hp; simpl in *.
  - apply drive_settled, settled_outcome_iff, awaits_le_0_run, Hp.
  - destruct (run p w) as [w' o] eqn:Hrun. destruct o as [| |r k]; try done.
    apply IH. eapply (awaits_le_S_run _ p w); [done|by rewrite Hrun].
Qed.

End run_lemmas.

(** ** Counting awaits *)

Section awaits.
Context {Act Req : Type}.
Notation prog := (prog Act Req).

Lemma awaits_le_mono {A} (n m : nat) (p : prog A) :
  n ≤ m → awaits_le n p → awaits_le m p.
Proof.
  revert n m. induction p as [| |a k IH|r k IH]; intros n m Hnm; simpl; eauto.
  destruct n as [|n]; [done|]. destruct m as [|m]; [lia|].
  intros Hk s. eapply IH; [|apply Hk]. lia.
Qed.

Lemma awaits_le_bind {A B} (n m : nat) (p : prog A) (f : A → prog B) :
  awaits_le n p → (∀ a, awaits_le m (f a)) → awaits_le (n + m) (bind p f).
Proof.
  revert n. induction p as [| |a k IH|r k IH]; intros n Hp Hf; simpl in *; eauto.
  - eapply awaits_le_mono; [|apply Hf]. lia.
  - destruct n as [|n]; [done|]. simpl. intros s. by apply IH.
Qed.

Lemma awaits_le_try_catch {A} (n m : nat) (p : prog A) (h : jsval → prog A) :
  awaits_le n p → (∀ e, awaits_le m (h e)) → awaits_le (n + m) (try_catch p h).
Proof.
  revert n. induction p as [| |a k IH|r k IH]; intros n Hp Hh; simpl in *; eauto.
  - eapply awaits_le_mono; [|apply Hh]. lia.
  - destruct n as [|n]; [done|]. simpl. intros s. by apply IH.
Qed.

Lemma awaits_le_finally {A} (n m : nat) (p : prog A) (c : prog unit) :
  awaits_le n p → awaits_le m c → awaits_le (n + m) (finally p c).
Proof.
  revert n. induction p as [| |a k IH|r k IH]; intros n Hp Hc; simpl in *; eauto.
  - eapply awaits_le_mono; [|by apply (awaits_le_bind m 0)]. lia.
  - eapply awaits_le_mono; [|by apply (awaits_le_bind m 0)]. lia.
  - destruct n as [|n]; [done|]. simpl. intros s. by apply IH.
Qed.

Lemma awaits_le_await (n : nat) (r : Req) :
  awaits_le (S n) (await r : prog jsval).
Proof. intros []; done. Qed.

Lemma awaits_le_proper {A} (n : nat) (p q : prog A) : p ≡ₐ q → awaits_le n p → awaits_le n q.
Proof.
  intros H. revert n. induction H; intros n; simpl; auto.
  destruct n; [done|]. eauto.
Qed.

End awaits.

(** ** The effects of a program *)

Section all_acts.
Context {Act Req : Type}.
Notation prog := (prog Act Req).
Implicit Types P Q : Act → Prop.

Lemma all_acts_mono {A} P Q (p : prog A) :
  (∀ a, P a → Q a) → all_acts P p → all_acts Q p.
Proof. intros HPQ. induction p; simpl; naive_solver. Qed.

Lemma all_acts_bind {A B} P (p : prog A) (f : A → prog B) :
  all_acts P p → (∀ a, all_acts P (f a)) → all_acts P (bind p f).
Proof. intros Hp Hf. induction p; simpl in *; naive_solver. Qed.

Lemma all_acts_try_catch {A} P (p : prog A) (h : jsval → prog A) :
  all_acts P p → (∀ e, all_acts P (h e)) → all_acts P (try_catch p h).
Proof. intros Hp Hh. induction p; simpl in *; naive_solver. Qed.

Lemma all_acts_finally {A} P (p : prog A) (c : prog unit) :
  all_acts P p → all_acts P c → all_acts P (finally p c).
Proof.
  intros Hp Hc. induction p; simpl in *; try naive_solver;
    by apply all_acts_bind.
Qed.

Lemma all_acts_act P (a : Act) : P a → all_acts P (act a : prog unit).
Proof. by split. Qed.

Lemma all_acts_eval P x : all_acts P (eval x : prog jsval).
Proof. by destruct x. Qed.

Lemma all_acts_resume P s : all_acts P (resume s : prog jsval).
Proof. by destruct s. Qed.

Lemma all_acts_await P (r : Req) : all_acts P (await r : prog jsval).
Proof. intros s. apply all_acts_resume. Qed.

Section run.
Context {W : Type} `{!World Act Req W}.

(** A property of the world that every effect of the program and every
    request preserve holds after the run. *)
Lemma run_all_acts {A} P (I : W → Prop) (p : prog A) (w : W) :
  (∀ a v, P a → I v → I (perform a v)) →
  (∀ r v, I v → I (issue r v)) →
  all_acts P p → I w → I (run p w).1.
Proof.
  intros Ha Hr. revert w.
  induction p; intros w Hp Hw; simpl in *; naive_solver.
Qed.

(** What is left of the program after a suspension has the effects of the
    program. *)
Lemma all_acts_suspended {A} P (p : prog A) (w : W) r k :
  all_acts P p → (run p w).2 = Suspended r k → ∀ s, all_acts P (k s).
Proof.
  revert w. induction p; intros w Hp Hrun; simpl in *; try done.
  - naive_solver.
  - by simplify_eq.
Qed.

End run.
End all_acts.

#[export] Hint Resolve awaits_le_bind awaits_le_try_catch awaits_le_finally
  awaits_le_await : dash.
#[export] Hint Resolve all_acts_bind all_acts_try_catch all_acts_finally
  all_acts_act all_acts_eval all_acts_resume all_acts_await : dash.
