(* ===== verification/Backend.v ===== *)
(** * The analysis backend, as the dashboard sees it

    The source talks to the backend through two axios calls: a POST that
    triggers the analysis of a session and a GET that fetches its results.
    This file holds the requests ([analyze_booking], [analysis_results]),
    the normalisation of whatever a failed call throws into the message the
    drawer shows ([errorMessage]), and the message of the success toast
    ([triggerMessage]).

    The shapes of the backend's answers and of axios's errors ([trigger_ok],
    [results_ok], [job_error], [transport_error]) are not code of the
    repository: they follow the interface section of the specification and
    serve as inputs of the theorems. *)

From S2P Require Import Prelude JsValue.

Inductive http_method : Type := GET | POST.

Record request : Type := Request {
  method : http_method;
  url : string
}.

#[export] Instance http_method_eq_dec : EqDecision http_method.
Proof. solve_decision. Defined.

#[export] Instance request_eq_dec : EqDecision request.
Proof. solve_decision. Defined.

Definition API_BASE_URL : string := "http://127.0.0.1:5000/api".

(** [axios.post(`${API_BASE_URL}/analyze_booking/${slot.session_id}`)] *)
Definition analyze_booking (session_id : option string) : request :=
  Request POST (API_BASE_URL +:+ "/analyze_booking/" +:+ prop_key session_id).

(** [axios.get(`${API_BASE_URL}/analysis_results/${slot.session_id}`)] *)
Definition analysis_results (session_id : option string) : request :=
  Request GET (API_BASE_URL +:+ "/analysis_results/" +:+ prop_key session_id).

(** [triggerResponse.data.message || "Analysis triggered successfully."]:
    the message, or the [TypeError] of reading a property of a missing
    [data]. *)
Definition triggerMessage (triggerResponse : jsval) : jsval + jsval :=
  match get_prop triggerResponse "data" with
  | inr e => inr e
  | inl data =>
      match get_prop data "message" with
      | inr e => inr e
      | inl m => inl (js_or m (JStr "Analysis triggered successfully."))
      end
  end.

(** [err.response?.data?.error || err.message || "An unknown error ..."]:
    the message, or the [TypeError] of reading a property of a thrown
    [undefined] or [null].  [err.message] is read only when the first
    operand is falsy. *)
Definition errorMessage (err : jsval) : jsval + jsval :=
  match get_prop err "response" with
  | inr e => inr e
  | inl response =>
      let error := get_opt (get_opt response "data") "error" in
      if truthy error then inl error
      else
        match get_prop err "message" with
        | inr e => inr e
        | inl message =>
            inl (js_or message
                   (JStr "An unknown error occurred during analysis."))
        end
  end.

(** ** Answers of the backend, from the specification's interface *)

(** [200 {message}] *)
Definition trigger_ok (message : string) : jsval :=
  JObj [("status", JNum 200); ("data", JObj [("message", JStr message)])].

(** [200 {total_shots, heatmap_data?, video_dimensions?}] *)
Definition results_ok (total_shots : Z) (heatmap_data video_dimensions : jsval)
    : jsval :=
  JObj [("status", JNum 200);
        ("data", JObj [("total_shots", JNum total_shots);
                       ("heatmap_data", heatmap_data);
                       ("video_dimensions", video_dimensions)])].

(** What axios rejects with when the service answers a non-2xx status
    with the body [{error}]. *)
Definition job_error (status : Z) (error : string) : jsval :=
  JObj [("name", JStr "AxiosError");
        ("message", JStr ("Request failed with status code " +:+ pretty status));
        ("response", JObj [("status", JNum status);
                           ("data", JObj [("error", JStr error)])])].

(** What axios rejects with when no answer arrives. *)
Definition transport_error (message : string) : jsval :=
  JObj [("name", JStr "AxiosError"); ("message", JStr message)].

(** ** The requests *)

(** Distinct session ids are distinct requests, and a trigger is never a
    fetch.  (A [null] id and the id ["null"] do share their requests: the
    handler sends neither, since it stops at a falsy id.) *)
Lemma analyze_booking_inj s s' :
  analyze_booking (Some s) = analyze_booking (Some s') → s = s'.
Proof. intros H. by simplify_eq/=. Qed.

Lemma analysis_results_inj s s' :
  analysis_results (Some s) = analysis_results (Some s') → s = s'.
Proof. intros H. by simplify_eq/=. Qed.

Lemma analyze_booking_not_results o o' : analyze_booking o ≠ analysis_results o'.
Proof. done. Qed.

Lemma null_id_shares_request : analyze_booking None = analyze_booking (Some "null").
Proof. done. Qed.

(** ** The success message *)

Lemma triggerMessage_truthy r m : triggerMessage r = inl m → truthy m = true.
Proof.
  unfold triggerMessage. intros H. repeat case_match; simplify_eq.
  by apply truthy_js_or_r.
Qed.

(** The message of the service is shown when there is one, the default
    otherwise. *)
Lemma triggerMessage_ok message :
  triggerMessage (trigger_ok message) =
  inl (JStr (if bool_decide (message = "") then "Analysis triggered successfully."
             else message)).
Proof.
  unfold triggerMessage, trigger_ok. simpl. unfold js_or. simpl.
  by case_bool_decide.
Qed.

(** C39: Reading the message throws exactly when the response or its [data] is
    [undefined] or [null]. *)
Lemma triggerMessage_throws r :
  (∃ e, triggerMessage r = inr e) ↔
  nullish r = true ∨ nullish (get_opt r "data") = true.
Proof.
  unfold triggerMessage. destruct (nullish r) eqn:Hr.
  - apply get_prop_throws with (k := "data") in Hr as [e ->]. naive_solver.
  - rewrite (get_prop_ok r) by done.
    destruct (nullish (get_opt r "data")) eqn:Hd.
    + apply get_prop_throws with (k := "message") in Hd as [e ->]. naive_solver.
    + rewrite (get_prop_ok (get_opt r "data")) by done. naive_solver.
Qed.

(** ** The error message *)

(** Whatever is thrown, the normalised message is truthy: the drawer's
    test [analysisError ? ...] sees it. *)
Lemma errorMessage_truthy err m : errorMessage err = inl m → truthy m = true.
Proof.
  unfold errorMessage. intros H. repeat case_match; simplify_eq; [done|].
  by apply truthy_js_or_r.
Qed.

(** Normalisation fails only on a thrown [undefined] or [null]. *)
Lemma errorMessage_throws err :
  (∃ e, errorMessage err = inr e) ↔ nullish err = true.
Proof.
  unfold errorMessage. destruct (nullish err) eqn:Hn.
  - apply get_prop_throws with (k := "response") in Hn as [e ->]. naive_solver.
  - rewrite !(get_prop_ok err) by done. case_match; naive_solver.
Qed.

(** The service's own message has priority over the error's. *)
Lemma errorMessage_service err :
  nullish err = false →
  truthy (get_opt (get_opt (get_opt err "response") "data") "error") = true →
  errorMessage err = inl (get_opt (get_opt (get_opt err "response") "data") "error").
Proof.
  intros Hn Ht. unfold errorMessage. rewrite (get_prop_ok err) by done.
  by rewrite Ht.
Qed.

(** An answer of the service with an [error] in its body: the drawer
    shows the service's text, not axios's "Request failed ...". *)
Lemma errorMessage_job_error status error :
  error ≠ "" → errorMessage (job_error status error) = inl (JStr error).
Proof.
  intros H. rewrite errorMessage_service; [done..|]. by apply truthy_JStr.
Qed.

(** No answer at all: the drawer shows the message of the error, or the
    default text when that is empty. *)
Lemma errorMessage_transport_error message :
  errorMessage (transport_error message) =
  inl (JStr (if bool_decide (message = "")
             then "An unknown error occurred during analysis." else message)).
Proof.
  unfold errorMessage, transport_error. simpl. unfold js_or. simpl.
  by case_bool_decide.
Qed.

#[export] Hint Resolve errorMessage_truthy triggerMessage_truthy : dash.

(** The service's message of the specification's example. *)
Lemma errorMessage_job_error_witness :
  errorMessage (job_error 503 "capacity exceeded") = inl (JStr "capacity exceeded").
Proof. apply (errorMessage_job_error 503 "capacity exceeded"). by vm_compute. Defined.
