(* ===== verification/World.v ===== *)
(** * What a handler does to the world

    The synchronous effects of the handlers: a setter call, a toast of the
    [sonner] library, a line on the console.  The world they act on is the
    component's state and a log of everything observable from outside, in
    order: the toasts, the console lines and the HTTP requests sent.

    The setters and the toast functions carry the names they have in the
    source, as one-effect programs. *)

From S2P Require Import Prelude JsValue Courts State Async Backend.

(** [toast.success], [toast.error] and plain [toast]. *)
Inductive toast_kind : Type := ToastSuccess | ToastError | ToastPlain.

Inductive action : Type :=
| ASet (u : update)
| AToast (kind : toast_kind) (message : jsval)
| AConsoleError (label : string) (v : jsval).

Inductive effect : Type :=
| EToast (kind : toast_kind) (message : jsval)
| EConsoleError (label : string) (v : jsval)
| ERequest (r : request).

Record world : Type := MkWorld {
  w_state : state;
  w_log : list effect
}.

Definition world_perform (a : action) (w : world) : world :=
  match a with
  | ASet u => MkWorld (apply_update u (w_state w)) (w_log w)
  | AToast kind message => MkWorld (w_state w) (w_log w ++ [EToast kind message])
  | AConsoleError label v => MkWorld (w_state w) (w_log w ++ [EConsoleError label v])
  end.

Definition world_issue (r : request) (w : world) : world :=
  MkWorld (w_state w) (w_log w ++ [ERequest r]).

#[export] Instance dashboard_world : World action request world :=
  {| perform := world_perform; issue := world_issue |}.

(** A handler of the dashboard. *)
Notation handler := (prog action request).

Definition setCourts (v : list court) : handler unit := act (ASet (SetCourts v)).
Definition setSelectedCourtKey (v : string) : handler unit :=
  act (ASet (SetSelectedCourtKey v)).
Definition setSelectedDate (v : Z) : handler unit := act (ASet (SetSelectedDate v)).
Definition setExpandedSlotIndex (v : option nat) : handler unit :=
  act (ASet (SetExpandedSlotIndex v)).
Definition setAnalysisDrawerOpen (v : bool) : handler unit :=
  act (ASet (SetAnalysisDrawerOpen v)).
Definition setAnalysisSessionId (v : option string) : handler unit :=
  act (ASet (SetAnalysisSessionId v)).
Definition setAnalysisLoading (v : bool) : handler unit :=
  act (ASet (SetAnalysisLoading v)).
Definition setAnalysisData (v : jsval) : handler unit := act (ASet (SetAnalysisData v)).
Definition setAnalysisError (v : jsval) : handler unit :=
  act (ASet (SetAnalysisError v)).
Definition setIsAnalyzing (f : gmap string bool → gmap string bool) : handler unit :=
  act (ASet (SetIsAnalyzing f)).

Definition toast_success (message : jsval) : handler unit :=
  act (AToast ToastSuccess message).
Definition toast_error (message : jsval) : handler unit :=
  act (AToast ToastError message).
Definition toast (message : jsval) : handler unit := act (AToast ToastPlain message).
Definition console_error (label : string) (v : jsval) : handler unit :=
  act (AConsoleError label v).

(** The requests of a log, in the order they were sent. *)
Definition requests (log : list effect) : list request :=
  omap (λ e, match e with ERequest r => Some r | _ => None end) log.

(** The toasts of a log. *)
Definition toasts (log : list effect) : list (toast_kind * jsval) :=
  omap (λ e, match e with EToast k m => Some (k, m) | _ => None end) log.

(** An effect that, if it is a setter call, is one that satisfies [P]. *)
Definition sets (P : update → Prop) (a : action) : Prop :=
  match a with
  | ASet u => P u
  | _ => True
  end.

(** ** The log only grows *)

Lemma perform_log_prefix a w : w_log w `prefix_of` w_log (world_perform a w).
Proof. destruct a; simpl; [done|..]; by apply prefix_app_r. Qed.

Lemma run_log_prefix {A} (p : handler A) w : w_log w `prefix_of` w_log (run p w).1.
Proof.
  revert w. induction p as [| |a k IH|r k IH]; intros w; simpl; try done.
  - etrans; [apply perform_log_prefix|apply IH].
  - by apply prefix_app_r.
Qed.

Lemma requests_app l l' : requests (l ++ l') = requests l ++ requests l'.
Proof. apply omap_app. Qed.

Lemma toasts_app l l' : toasts (l ++ l') = toasts l ++ toasts l'.
Proof. apply omap_app. Qed.

(** A synchronous effect sends no request. *)
Lemma perform_requests a w : requests (w_log (world_perform a w)) = requests (w_log w).
Proof. destruct a; simpl; rewrite ?requests_app, ?app_nil_r; done. Qed.

(** A run sends a request exactly when it suspends, and then that one. *)
Lemma run_requests {A} (p : handler A) w :
  requests (w_log (run p w).1) =
  requests (w_log w) ++
  match (run p w).2 with
  | Suspended r _ => [r]
  | _ => []
  end.
Proof.
  revert w. induction p as [| |a k IH|r k IH]; intros w; simpl;
    rewrite ?app_nil_r; try done.
  - by rewrite IH, perform_requests.
  - by rewrite requests_app.
Qed.

(** ** State properties across a run *)

(** A property of the state that the setter calls of a handler preserve
    holds after the handler ran. *)
Lemma run_sets {A} (P : update → Prop) (I : state → Prop) (p : handler A) w :
  (∀ u st, P u → I st → I (apply_update u st)) →
  all_acts (sets P) p → I (w_state w) → I (w_state (run p w).1).
Proof.
  intros HP. apply (run_all_acts (sets P) (λ v, I (w_state v))); [|done].
  intros [u| |] x; simpl; auto.
Qed.

(** A handler that stores proper errors only keeps the stored error
    proper. *)
Lemma run_error_ok {A} (p : handler A) w :
  all_acts (sets stores_error) p →
  error_ok (w_state w) → error_ok (w_state (run p w).1).
Proof. apply run_sets, error_ok_update. Qed.

(** The handlers that leave the bookkeeping of the analyses alone leave it
    unchanged, and those that leave the display focus alone keep it. *)
Lemma run_keeps_flight {A} (p : handler A) w :
  all_acts (sets (λ u, touches_flight u = false)) p →
  isAnalyzing (w_state (run p w).1) = isAnalyzing (w_state w) ∧
  analysisLoading (w_state (run p w).1) = analysisLoading (w_state w).
Proof.
  intros Hp.
  apply (run_sets (λ u, touches_flight u = false) (λ st,
    isAnalyzing st = isAnalyzing (w_state w) ∧
    analysisLoading st = analysisLoading (w_state w)) p w); [|done..].
  intros u st Hu [<- <-]. by apply apply_update_flight.
Qed.

Lemma run_keeps_focus {A} (p : handler A) w :
  all_acts (sets (λ u, touches_focus u = false)) p →
  analysisDrawerOpen (w_state (run p w).1) = analysisDrawerOpen (w_state w) ∧
  analysisSessionId (w_state (run p w).1) = analysisSessionId (w_state w).
Proof.
  intros Hp.
  apply (run_sets (λ u, touches_focus u = false) (λ st,
    analysisDrawerOpen st = analysisDrawerOpen (w_state w) ∧
    analysisSessionId st = analysisSessionId (w_state w)) p w); [|done..].
  intros u st Hu [<- <-]. by apply apply_update_focus.
Qed.

#[export] Hint Rewrite @requests_app @toasts_app : dash.
