(* ===== verification/Handlers.v ===== *)
(** * The handlers of the dashboard

    [fetchCourts], [handleAnalyzeBooking], [handleCardClick] and
    [handleDrawerClose], statement by statement.  A handler is a closure
    of the render that created it: it reads the state of that render
    ([snap]) and writes through the setters.  The [try], [catch] and
    [finally] blocks of [handleAnalyzeBooking] are [run_analysis],
    [report_failure] and [finish_analysis].

    The theorems give the result of running a handler up to its next
    suspension, on every branch. *)

From S2P Require Import Prelude JsValue Courts State Async Backend World.

(** [fetchCourts]: the backend call is commented out in the source, the
    mock listing is stored instead. *)
Definition fetchCourts : handler unit :=
  try_catch
    (setCourts mockData ;;
     toast_success (JStr "Court data loaded successfully"))
    (λ err,
       console_error "Error fetching courts:" err ;;
       toast_error (JStr "Failed to load court data")).

(** The [try] block: trigger the analysis, then fetch its results. *)
Definition run_analysis (session_id : option string) : handler unit :=
  triggerResponse ← await (analyze_booking session_id);
  message ← eval (triggerMessage triggerResponse);
  toast_success message ;;
  resultsResponse ← await (analysis_results session_id);
  data ← eval (get_prop resultsResponse "data");
  setAnalysisData data.

(** The [catch] block. *)
Definition report_failure (err : jsval) : handler unit :=
  console_error "Error during analysis process:" err ;;
  message ← eval (errorMessage err);
  setAnalysisError message ;;
  toast_error (JStr ("Analysis failed: " +:+ to_string message)).

(** The [finally] block. *)
Definition finish_analysis (session_id : option string) : handler unit :=
  setAnalysisLoading false ;;
  setIsAnalyzing (λ prevState, <[prop_key session_id := false]> prevState).

(** The [try] statement as a whole. *)
Definition analysis_pipeline (session_id : option string) : handler unit :=
  finally (try_catch (run_analysis session_id) report_failure)
          (finish_analysis session_id).

Definition handleAnalyzeBooking (snap : state) (slot : slot) : handler unit :=
  if negb (truthy_str (session_id slot)) then
    toast_error (JStr "Session ID is missing for this booking.")
  else if analyzing snap (prop_key (session_id slot)) then
    toast (JStr "Analysis is already in progress for this session.")
  else
    setAnalysisSessionId (session_id slot) ;;
    setAnalysisDrawerOpen true ;;
    setAnalysisLoading true ;;
    setAnalysisData JNull ;;
    setAnalysisError JNull ;;
    setIsAnalyzing (λ prevState, <[prop_key (session_id slot) := true]> prevState) ;;
    analysis_pipeline (session_id slot).

Definition handleCardClick (snap : state) (index : nat) (slot : slot)
    : handler unit :=
  let newExpandedIndex :=
    if decide (Some index = expandedSlotIndex snap) then None else Some index in
  setExpandedSlotIndex newExpandedIndex ;;
  if decide (newExpandedIndex = None) then
    if decide (analysisSessionId snap = session_id slot) then
      setAnalysisDrawerOpen false ;;
      setAnalysisSessionId None
    else Ret tt
  else Ret tt.

Definition handleDrawerClose : handler unit :=
  setAnalysisDrawerOpen false ;;
  setAnalysisSessionId None ;;
  setAnalysisData JNull ;;
  setAnalysisError JNull.

(** What the [try] statement does once its body threw [err]: the [catch]
    block, then the [finally] block. *)
Definition fail_analysis (session_id : option string) (err : jsval)
    : handler unit :=
  finally (report_failure err) (finish_analysis session_id).

(** The continuation of [handleAnalyzeBooking] at its first await: what
    runs when the POST settles. *)
Definition after_trigger (session_id : option string) (s : settled)
    : handler unit :=
  finally
    (try_catch
       (triggerResponse ← resume s;
        message ← eval (triggerMessage triggerResponse);
        toast_success message ;;
        resultsResponse ← await (analysis_results session_id);
        data ← eval (get_prop resultsResponse "data");
        setAnalysisData data)
       report_failure)
    (finish_analysis session_id).

(** The continuation at the second await: what runs when the GET settles. *)
Definition after_fetch (session_id : option string) (s : settled)
    : handler unit :=
  finally
    (try_catch
       (resultsResponse ← resume s;
        data ← eval (get_prop resultsResponse "data");
        setAnalysisData data)
       report_failure)
    (finish_analysis session_id).

(** The effects of the blocks, for the theorems' statements. *)
Definition failure_log (err message : jsval) : list effect :=
  [EConsoleError "Error during analysis process:" err;
   EToast ToastError (JStr ("Analysis failed: " +:+ to_string message))].

Definition finish_updates (session_id : option string) : list update :=
  [SetAnalysisLoading false;
   SetIsAnalyzing (λ prevState, <[prop_key session_id := false]> prevState)].

Definition start_updates (session_id : option string) : list update :=
  [SetAnalysisSessionId session_id; SetAnalysisDrawerOpen true;
   SetAnalysisLoading true; SetAnalysisData JNull; SetAnalysisError JNull;
   SetIsAnalyzing (λ prevState, <[prop_key session_id := true]> prevState)].

(** The analysis of a session has settled between two worlds: the session
    is marked not in flight, the loading flag is down, and no request was
    sent. *)
Definition analysis_settled (session_id : option string) (w w' : world) : Prop :=
  isAnalyzing (w_state w') =
    <[prop_key session_id := false]> (isAnalyzing (w_state w)) ∧
  analysisLoading (w_state w') = false ∧
  requests (w_log w') = requests (w_log w).

(** Unfold the monadic notation of a handler down to [bind]. *)
Ltac handler_unfold := unfold mbind, prog_bind in *.

(** ** The control flow of the analysis, await by await *)

Section pipeline.
Implicit Types (sid : option string) (w : world).

Lemma analysis_pipeline_suspends sid w :
  run (analysis_pipeline sid) w =
  (world_issue (analyze_booking sid) w,
   Suspended (analyze_booking sid) (after_trigger sid)).
Proof. done. Qed.

(** A rejected trigger goes to the [catch] block; [fetchResults] is not
    called. *)
Lemma after_trigger_rejected sid e :
  after_trigger sid (Rejected e) = fail_analysis sid e.
Proof. done. Qed.

(** A fulfilled trigger toasts the message and awaits the results, unless
    reading the message throws. *)
Lemma after_trigger_fulfilled sid v :
  after_trigger sid (Fulfilled v) =
  match triggerMessage v with
  | inl message =>
      Do (AToast ToastSuccess message)
         (Await (analysis_results sid) (after_fetch sid))
  | inr e => fail_analysis sid e
  end.
Proof. unfold after_trigger. simpl. handler_unfold. by case_match. Qed.

Lemma after_fetch_rejected sid e :
  after_fetch sid (Rejected e) = fail_analysis sid e.
Proof. done. Qed.

Lemma after_fetch_fulfilled sid v :
  after_fetch sid (Fulfilled v) =
  match get_prop v "data" with
  | inl data => setAnalysisData data ;; finish_analysis sid
  | inr e => fail_analysis sid e
  end.
Proof. unfold after_fetch. simpl. handler_unfold. by case_match. Qed.

(** The failure path: the message is stored and toasted when normalising
    it succeeds; the [finally] block runs in both cases, and the exception
    of the [catch] block, if any, leaves the handler. *)
Lemma fail_analysis_run sid err w :
  run (fail_analysis sid err) w =
  match errorMessage err with
  | inl message =>
      (MkWorld (apply_updates (SetAnalysisError message :: finish_updates sid)
                  (w_state w))
               (w_log w ++ failure_log err message),
       Finished tt)
  | inr e =>
      (MkWorld (apply_updates (finish_updates sid) (w_state w))
               (w_log w ++ [EConsoleError "Error during analysis process:" err]),
       Uncaught e)
  end.
Proof.
  unfold fail_analysis, report_failure. simpl. handler_unfold.
  case_match; simpl; [|done]. by rewrite <- app_assoc.
Qed.

End pipeline.

(** ** [handleAnalyzeBooking], branch by branch *)

Section analyze.
Implicit Types (snap : state) (sl : slot) (w : world).

(** A slot without a usable session id is refused with an error toast;
    nothing else happens. *)
Lemma handleAnalyzeBooking_missing_id snap sl w :
  truthy_str (session_id sl) = false →
  run (handleAnalyzeBooking snap sl) w =
  (MkWorld (w_state w)
     (w_log w ++ [EToast ToastError (JStr "Session ID is missing for this booking.")]),
   Finished tt).
Proof. intros H. unfold handleAnalyzeBooking. by rewrite H. Qed.

(** A session that the rendered state shows as in progress is not
    submitted again: a notice, no state change, no request. *)
Lemma handleAnalyzeBooking_in_progress snap sl w :
  truthy_str (session_id sl) = true →
  analyzing snap (prop_key (session_id sl)) = true →
  run (handleAnalyzeBooking snap sl) w =
  (MkWorld (w_state w)
     (w_log w ++
      [EToast ToastPlain (JStr "Analysis is already in progress for this session.")]),
   Finished tt).
Proof. intros H1 H2. unfold handleAnalyzeBooking. by rewrite H1, H2. Qed.

(** Otherwise the handler focuses the drawer on the session, clears the
    previous result, marks the session in flight, sends the trigger and
    suspends. *)
Lemma handleAnalyzeBooking_starts snap sl w :
  truthy_str (session_id sl) = true →
  analyzing snap (prop_key (session_id sl)) = false →
  run (handleAnalyzeBooking snap sl) w =
  (MkWorld (apply_updates (start_updates (session_id sl)) (w_state w))
     (w_log w ++ [ERequest (analyze_booking (session_id sl))]),
   Suspended (analyze_booking (session_id sl)) (after_trigger (session_id sl))).
Proof. intros H1 H2. unfold handleAnalyzeBooking. by rewrite H1, H2. Qed.

(** The handler suspends only on the trigger of its own slot. *)
Lemma handleAnalyzeBooking_suspended snap sl w r k :
  (run (handleAnalyzeBooking snap sl) w).2 = Suspended r k →
  truthy_str (session_id sl) = true ∧
  analyzing snap (prop_key (session_id sl)) = false ∧
  r = analyze_booking (session_id sl) ∧ k = after_trigger (session_id sl).
Proof.
  destruct (truthy_str (session_id sl)) eqn:H1.
  - destruct (analyzing snap (prop_key (session_id sl))) eqn:H2.
    + by rewrite handleAnalyzeBooking_in_progress.
    + rewrite handleAnalyzeBooking_starts by done. naive_solver.
  - by rewrite handleAnalyzeBooking_missing_id.
Qed.

End analyze.

(** ** The continuations, run *)

Section continuations.
Implicit Types (sid : option string) (w : world).

(** The results arrived: their [data] is stored and the session is no
    longer in flight. *)
Lemma after_fetch_run_ok sid v data w :
  get_prop v "data" = inl data →
  run (after_fetch sid (Fulfilled v)) w =
  (MkWorld (apply_updates (SetAnalysisData data :: finish_updates sid) (w_state w))
     (w_log w),
   Finished tt).
Proof. intros H. by rewrite after_fetch_fulfilled, H. Qed.

(** The trigger succeeded: a success toast, the fetch is sent, the state
    is untouched. *)
Lemma after_trigger_run_ok sid v message w :
  triggerMessage v = inl message →
  run (after_trigger sid (Fulfilled v)) w =
  (MkWorld (w_state w)
     (w_log w ++ [EToast ToastSuccess message; ERequest (analysis_results sid)]),
   Suspended (analysis_results sid) (after_fetch sid)).
Proof.
  intros H. rewrite after_trigger_fulfilled, H. simpl.
  unfold world_issue. simpl. by rewrite <- app_assoc.
Qed.

(** Every way the continuation of the fetch can go is a failure of the
    analysis or the success above. *)
Lemma after_fetch_cases sid s :
  (∃ v data, s = Fulfilled v ∧ get_prop v "data" = inl data ∧
     after_fetch sid s = (setAnalysisData data ;; finish_analysis sid)) ∨
  (∃ err, after_fetch sid s = fail_analysis sid err).
Proof.
  destruct s as [v|e]; [|right; by eexists].
  rewrite after_fetch_fulfilled. destruct (get_prop v "data") eqn:E; eauto 10.
Qed.

Lemma after_trigger_cases sid s :
  (∃ v message, s = Fulfilled v ∧ triggerMessage v = inl message ∧
     after_trigger sid s =
     Do (AToast ToastSuccess message)
        (Await (analysis_results sid) (after_fetch sid))) ∨
  (∃ err, after_trigger sid s = fail_analysis sid err).
Proof.
  destruct s as [v|e]; [|right; by eexists].
  rewrite after_trigger_fulfilled. destruct (triggerMessage v) eqn:E; eauto 10.
Qed.

(** The [finally] block runs on every exit: however the fetch settles, the
    handler ends and the session is no longer in flight. *)
Lemma fail_analysis_settles sid err w :
  analysis_settled sid w (run (fail_analysis sid err) w).1 ∧
  ∀ r k, (run (fail_analysis sid err) w).2 ≠ Suspended r k.
Proof.
  rewrite fail_analysis_run. unfold analysis_settled.
  destruct (errorMessage err); simpl; by dash.
Qed.

Lemma after_fetch_settles sid s w :
  analysis_settled sid w (run (after_fetch sid s) w).1 ∧
  ∀ r k, (run (after_fetch sid s) w).2 ≠ Suspended r k.
Proof.
  destruct (after_fetch_cases sid s) as [(v & d & _ & _ & ->)|[err ->]];
    [done|apply fail_analysis_settles].
Qed.

(** However the trigger settles, the handler either moves on to the fetch
    of the same session, with the state untouched, or ends with the
    session no longer in flight and no fetch sent. *)
Lemma after_trigger_step sid s w :
  ((∃ v message, s = Fulfilled v ∧ triggerMessage v = inl message) ∧
   (run (after_trigger sid s) w).2 =
     Suspended (analysis_results sid) (after_fetch sid) ∧
   w_state (run (after_trigger sid s) w).1 = w_state w ∧
   requests (w_log (run (after_trigger sid s) w).1) =
     requests (w_log w) ++ [analysis_results sid]) ∨
  (analysis_settled sid w (run (after_trigger sid s) w).1 ∧
   ∀ r k, (run (after_trigger sid s) w).2 ≠ Suspended r k).
Proof.
  destruct (after_trigger_cases sid s) as [(v & m & ? & ? & ->)|[err ->]];
    [left|right; apply fail_analysis_settles].
  split; [by eauto|]. simpl. by dash.
Qed.

End continuations.

(** ** The handlers that do not suspend *)

Section sync.
Implicit Types (snap : state) (w : world).

(** [fetchCourts] stores the mock listing and reports success; its
    [catch] block is never entered. *)
Lemma fetchCourts_run w :
  run fetchCourts w =
  (MkWorld (apply_update (SetCourts mockData) (w_state w))
     (w_log w ++ [EToast ToastSuccess (JStr "Court data loaded successfully")]),
   Finished tt).
Proof. done. Qed.

(** Closing the drawer drops the focus and the displayed result. *)
Lemma handleDrawerClose_run w :
  run handleDrawerClose w =
  (MkWorld
     (apply_updates
        [SetAnalysisDrawerOpen false; SetAnalysisSessionId None;
         SetAnalysisData JNull; SetAnalysisError JNull] (w_state w))
     (w_log w),
   Finished tt).
Proof. done. Qed.

(** A click on a card expands it, or collapses it when it was the expanded
    one; no other hook changes unless the collapsed card is the one whose
    session the drawer shows, in which case the drawer closes too. *)
Lemma handleCardClick_run snap index sl w :
  run (handleCardClick snap index sl) w =
  (MkWorld
     (apply_updates
        (if decide (expandedSlotIndex snap = Some index) then
           SetExpandedSlotIndex None ::
           (if decide (analysisSessionId snap = session_id sl)
            then [SetAnalysisDrawerOpen false; SetAnalysisSessionId None]
            else [])
         else [SetExpandedSlotIndex (Some index)])
        (w_state w))
     (w_log w),
   Finished tt).
Proof.
  unfold handleCardClick. repeat (case_decide; simplify_eq/=); done.
Qed.

(** The handlers keep the display focus coherent. *)
Lemma handleDrawerClose_focus_ok w :
  focus_ok (w_state (run handleDrawerClose w).1).
Proof. split; [|done]. simpl. split; [done|]. by intros [? ?]. Qed.

Lemma handleCardClick_focus_ok snap index sl w :
  focus_ok (w_state w) → focus_ok (w_state (run (handleCardClick snap index sl) w).1).
Proof.
  intros Hw. rewrite handleCardClick_run. simpl.
  repeat case_decide; simpl; try done.
  split; [|done]. simpl. split; [done|]. by intros [? ?].
Qed.

Lemma handleAnalyzeBooking_focus_ok snap sl w :
  focus_ok (w_state w) →
  focus_ok (w_state (run (handleAnalyzeBooking snap sl) w).1).
Proof.
  intros Hw. destruct (truthy_str (session_id sl)) eqn:H1.
  - destruct (analyzing snap (prop_key (session_id sl))) eqn:H2.
    + by rewrite handleAnalyzeBooking_in_progress.
    + rewrite handleAnalyzeBooking_starts by done.
      apply truthy_str_Some in H1 as (s & Hs & Hne). rewrite Hs.
      split; simpl; [|congruence]. split; [by eexists|done].
  - by rewrite handleAnalyzeBooking_missing_id.
Qed.

(** Expanding is undone by a second click on the same card when the
    component re-rendered in between. *)
Lemma handleCardClick_toggle snap index sl sl' w :
  expandedSlotIndex snap ≠ Some index →
  let w1 := (run (handleCardClick snap index sl) w).1 in
  expandedSlotIndex (w_state w1) = Some index ∧
  expandedSlotIndex
    (w_state (run (handleCardClick (w_state w1) index sl') w1).1) = None.
Proof.
  intros Hne. cbv zeta. rewrite (handleCardClick_run snap), decide_False by done.
  split; [done|]. rewrite handleCardClick_run. simpl.
  rewrite decide_True by done. by case_decide.
Qed.

End sync.

(** ** What each handler writes *)

Section footprints.
Implicit Types (sid : option string) (snap : state).

(** Prove a footprint by walking the handler's structure. *)
Local Ltac footprint :=
  repeat first
    [ done | progress simpl | progress handler_unfold | split | intros ?
    | apply all_acts_finally | apply all_acts_bind | apply all_acts_try_catch
    | apply all_acts_eval | apply all_acts_resume | case_match ].

(** Once started, the analysis never moves the display focus. *)
Lemma fail_analysis_keeps_focus sid err :
  all_acts (sets (λ u, touches_focus u = false)) (fail_analysis sid err).
Proof.
  unfold fail_analysis, report_failure, finish_analysis. footprint.
Qed.

Lemma after_fetch_keeps_focus sid s :
  all_acts (sets (λ u, touches_focus u = false)) (after_fetch sid s).
Proof.
  destruct (after_fetch_cases sid s) as [(v & d & _ & _ & ->)|[err ->]];
    [by footprint|apply fail_analysis_keeps_focus].
Qed.

Lemma after_trigger_keeps_focus sid s :
  all_acts (sets (λ u, touches_focus u = false)) (after_trigger sid s).
Proof.
  destruct (after_trigger_cases sid s) as [(v & d & _ & _ & ->)|[err ->]];
    [|apply fail_analysis_keeps_focus].
  split; [done|]. intros s'. apply after_fetch_keeps_focus.
Qed.

(** What the handlers store in [analysisError] is [null] or the message
    [errorMessage] computed, which is truthy. *)
Lemma fail_analysis_stores_error sid err :
  all_acts (sets stores_error) (fail_analysis sid err).
Proof.
  unfold fail_analysis, report_failure, finish_analysis. simpl. handler_unfold.
  split; [done|]. destruct (errorMessage err) as [m|e] eqn:He; [|done].
  simpl. split_and!; try done.
  apply errorMessage_truthy in He. by destruct m.
Qed.

Lemma after_fetch_stores_error sid s :
  all_acts (sets stores_error) (after_fetch sid s).
Proof.
  destruct (after_fetch_cases sid s) as [(v & d & _ & _ & ->)|[err ->]];
    [by footprint|apply fail_analysis_stores_error].
Qed.

Lemma after_trigger_stores_error sid s :
  all_acts (sets stores_error) (after_trigger sid s).
Proof.
  destruct (after_trigger_cases sid s) as [(v & d & _ & _ & ->)|[err ->]];
    [|apply fail_analysis_stores_error].
  split; [done|]. intros s'. apply after_fetch_stores_error.
Qed.

Lemma handleAnalyzeBooking_stores_error snap sl :
  all_acts (sets stores_error) (handleAnalyzeBooking snap sl).
Proof.
  unfold handleAnalyzeBooking. repeat case_match; try done.
  simpl. split_and!; try done. intros s. apply after_trigger_stores_error.
Qed.

Lemma sync_handlers_store_error snap index sl :
  all_acts (sets stores_error) (handleCardClick snap index sl) ∧
  all_acts (sets stores_error) handleDrawerClose ∧
  all_acts (sets stores_error) fetchCourts.
Proof. unfold handleCardClick, handleDrawerClose, fetchCourts. footprint. Qed.

(** The card and the drawer handlers and [fetchCourts] never write the
    bookkeeping of the analyses. *)
Lemma handleCardClick_keeps_flight snap index sl :
  all_acts (sets (λ u, touches_flight u = false)) (handleCardClick snap index sl).
Proof. unfold handleCardClick. footprint. Qed.

Lemma handleDrawerClose_keeps_flight :
  all_acts (sets (λ u, touches_flight u = false)) handleDrawerClose.
Proof. unfold handleDrawerClose. footprint. Qed.

Lemma fetchCourts_keeps_flight :
  all_acts (sets (λ u, touches_flight u = false)) fetchCourts.
Proof. unfold fetchCourts. footprint. Qed.

Lemma fetchCourts_keeps_focus :
  all_acts (sets (λ u, touches_focus u = false)) fetchCourts.
Proof. unfold fetchCourts. footprint. Qed.

End footprints.

(** ** How often a handler suspends *)

(** [handleAnalyzeBooking] awaits at most twice, its continuations once
    and not at all; the other handlers never suspend. *)
Lemma fail_analysis_awaits sid err : awaits_le 0 (fail_analysis sid err).
Proof.
  unfold fail_analysis, report_failure. simpl. handler_unfold.
  by destruct (errorMessage err).
Qed.

Lemma after_fetch_awaits sid s : awaits_le 0 (after_fetch sid s).
Proof.
  destruct (after_fetch_cases sid s) as [(v & d & _ & _ & ->)|[err ->]];
    [done|apply fail_analysis_awaits].
Qed.

Lemma after_trigger_awaits sid s : awaits_le 1 (after_trigger sid s).
Proof.
  destruct (after_trigger_cases sid s) as [(v & d & _ & _ & ->)|[err ->]].
  - intros s'. apply after_fetch_awaits.
  - eapply awaits_le_mono; [|apply fail_analysis_awaits]. lia.
Qed.

Lemma handleAnalyzeBooking_awaits snap sl : awaits_le 2 (handleAnalyzeBooking snap sl).
Proof.
  unfold handleAnalyzeBooking. repeat case_match; try done.
  intros s. apply after_trigger_awaits.
Qed.

Lemma handleCardClick_awaits snap index sl :
  awaits_le 0 (handleCardClick snap index sl).
Proof. unfold handleCardClick. by repeat case_decide. Qed.

Lemma handleDrawerClose_awaits : awaits_le 0 handleDrawerClose.
Proof. done. Qed.

Lemma fetchCourts_awaits : awaits_le 0 fetchCourts.
Proof. done. Qed.

(** C4: The handler ends after at most two answers, whatever the slot, the
    state and the answers are. *)
Lemma analysis_terminates snap sl w s1 s2 :
  settled_outcome (drive [s1; s2] (handleAnalyzeBooking snap sl) w).2.
Proof. apply drive_terminates, handleAnalyzeBooking_awaits. Qed.

(** ** The theorems on the first booking of the mock listing *)

Lemma handleCardClick_toggle_witness :
  let w := MkWorld (initial_state 0) [] in
  let w1 := (run (handleCardClick (initial_state 0) 0 slot_c1_9am) w).1 in
  expandedSlotIndex (w_state w1) = Some 0 ∧
  expandedSlotIndex
    (w_state (run (handleCardClick (w_state w1) 0 slot_c1_9am) w1).1) = None.
Proof.
  apply (handleCardClick_toggle (initial_state 0) 0 slot_c1_9am slot_c1_9am
           (MkWorld (initial_state 0) [])).
  by vm_compute.
Defined.

Lemma handleAnalyzeBooking_suspended_witness :
  truthy_str (session_id slot_c1_9am) = true ∧
  analyzing (initial_state 0) (prop_key (session_id slot_c1_9am)) = false ∧
  analyze_booking (Some "sess_xyz_mock_court1_9am") =
    analyze_booking (session_id slot_c1_9am) ∧
  after_trigger (Some "sess_xyz_mock_court1_9am") =
    after_trigger (session_id slot_c1_9am).
Proof.
  apply (handleAnalyzeBooking_suspended (initial_state 0) slot_c1_9am
           (MkWorld (initial_state 0) [])).
  reflexivity.
Defined.
