(* ===== verification/Lts.v ===== *)
(** * Labelled transition systems

    The vocabulary the state machines of the development share: runs,
    reachable configurations, invariants and how to establish them by
    induction on the run, and forward simulation between two systems with
    the inclusion of traces it gives.  The event loop of the dashboard is
    one such system. *)

From S2P Require Import Prelude.

Record lts : Type := Lts {
  conf : Type;
  label : Type;
  initial : conf → Prop;
  step : conf → label → conf → Prop
}.

Arguments initial _ _ : assert.
Arguments step _ _ _ _ : assert.

Section lts.
Context (M : lts).
Implicit Types (c : conf M) (l : label M) (tr : list (label M)).
Implicit Types (I J : conf M → Prop).

(** A run from one configuration to another, with the labels it takes. *)
Inductive steps : conf M → list (label M) → conf M → Prop :=
| steps_nil c : steps c [] c
| steps_cons c l c' tr c'' : step M c l c' → steps c' tr c'' → steps c (l :: tr) c''.

Definition reachable (c : conf M) : Prop :=
  ∃ c0 tr, initial M c0 ∧ steps c0 tr c.

(** [I] holds in every reachable configuration. *)
Definition invariant (I : conf M → Prop) : Prop :=
  ∀ c, reachable c → I c.

(** [I] holds initially and every step from a reachable configuration that
    satisfies [J] and [I] keeps it: [I] is inductive relative to [J]. *)
Definition inductive_under (J I : conf M → Prop) : Prop :=
  (∀ c, initial M c → I c) ∧
  (∀ c l c', J c → I c → step M c l c' → I c').

Lemma steps_app c tr c' tr' c'' :
  steps c tr c' → steps c' tr' c'' → steps c (tr ++ tr') c''.
Proof. induction 1; simpl; eauto using steps. Qed.

Lemma steps_snoc c tr c' l c'' :
  steps c tr c' → step M c' l c'' → steps c (tr ++ [l]) c''.
Proof. intros H Hs. eapply steps_app; eauto using steps. Qed.

Lemma steps_app_inv c tr tr' c'' :
  steps c (tr ++ tr') c'' → ∃ c', steps c tr c' ∧ steps c' tr' c''.
Proof.
  revert c. induction tr as [|l tr IH]; intros c H; simpl in *.
  - eauto using steps.
  - inv H. edestruct IH as (c1 & ? & ?); eauto using steps.
Qed.

Lemma reachable_initial c : initial M c → reachable c.
Proof. intros. exists c, []. eauto using steps. Qed.

Lemma reachable_step c l c' : reachable c → step M c l c' → reachable c'.
Proof. intros (c0 & tr & ? & ?) ?. exists c0, (tr ++ [l]). eauto using steps_snoc. Qed.

Lemma reachable_steps c tr c' : reachable c → steps c tr c' → reachable c'.
Proof. intros Hc H. induction H; eauto using reachable_step. Qed.

(** Induction on the run, at its end: the principle behind every
    invariant. *)
Lemma reachable_ind_r (P : conf M → Prop) :
  (∀ c, initial M c → P c) →
  (∀ c l c', reachable c → P c → step M c l c' → P c') →
  ∀ c, reachable c → P c.
Proof.
  intros Hinit Hstep c (c0 & tr & H0 & Hsteps).
  revert c Hsteps. induction tr as [|l tr IH] using rev_ind; intros c Hsteps.
  - inv Hsteps. auto.
  - apply steps_app_inv in Hsteps as (c' & H1 & H2).
    inversion H2 as [|? ? c1 ? ? Hs Hnil]; subst. inversion Hnil; subst.
    apply (Hstep c' l c); [by exists c0, tr|by apply IH|done].
Qed.

Lemma inductive_invariant J I :
  invariant J → inductive_under J I → invariant I.
Proof.
  intros HJ [Hinit Hstep] c Hc. induction Hc using reachable_ind_r; eauto.
Qed.

Lemma invariant_and I J : invariant I → invariant J → invariant (λ c, I c ∧ J c).
Proof. intros HI HJ c Hc. split; auto. Qed.

Lemma invariant_impl I J : (∀ c, I c → J c) → invariant I → invariant J.
Proof. intros HIJ HI c Hc. auto. Qed.

Lemma invariant_True : invariant (λ _, True).
Proof. done. Qed.

End lts.

Arguments steps {M}.
Arguments reachable M c : assert.
Arguments invariant M I : assert.
Arguments inductive_under M J I : assert.

(** ** Forward simulation *)

Section simulation.
Context (M1 M2 : lts).
Context (R : conf M1 → conf M2 → Prop).
Context (obs : label M1 → option (label M2)).

(** Every initial configuration of [M1] is related to one of [M2], and
    every step of [M1] from related configurations is matched by the step
    of [M2] its label maps to, or by no step when the label is internal. *)
Record simulation : Prop := Simulation {
  sim_init : ∀ c1, initial M1 c1 → ∃ c2, initial M2 c2 ∧ R c1 c2;
  sim_step : ∀ c1 l c1' c2,
    reachable M1 c1 → R c1 c2 → step M1 c1 l c1' →
    match obs l with
    | Some l2 => ∃ c2', step M2 c2 l2 c2' ∧ R c1' c2'
    | None => R c1' c2
    end
}.

(** A simulated system has, up to internal steps, only traces of the
    system that simulates it. *)
Lemma simulation_steps c1 tr c1' c2 :
  simulation → reachable M1 c1 → R c1 c2 → steps c1 tr c1' →
  ∃ c2', steps c2 (omap obs tr) c2' ∧ R c1' c2'.
Proof.
  intros Hsim Hc1 HR Hsteps. revert c2 HR Hc1.
  induction Hsteps as [c|c l c' tr c'' Hstep _ IH]; intros c2 HR Hc1; simpl.
  - eauto using @steps.
  - pose proof (sim_step Hsim _ _ _ _ Hc1 HR Hstep) as Hm.
    assert (reachable M1 c') by eauto using reachable_step.
    destruct (obs l) as [l2|].
    + destruct Hm as (c2' & Hs2 & HR'). destruct (IH c2' HR') as (c2'' & ? & ?);
        eauto using @steps.
    + eauto.
Qed.

Lemma simulation_reachable c1 :
  simulation → reachable M1 c1 → ∃ c2, reachable M2 c2 ∧ R c1 c2.
Proof.
  intros Hsim (c0 & tr & H0 & Hsteps).
  destruct (sim_init Hsim c0 H0) as (d0 & Hd0 & HR0).
  destruct (simulation_steps c0 tr c1 d0) as (c2 & Hs & HR);
    eauto using reachable_initial.
  exists c2. split; [|done]. exists d0, (omap obs tr). eauto.
Qed.

End simulation.
