(* ===== verification/EventLoop.v ===== *)
(** * The event loop of the dashboard

    The component as a transition system.  A configuration is the world
    (the state React holds and the log) and the handlers suspended on a
    request.  An event is something the user does (select a tab, click a
    card, click "Analyze Booking", close the drawer) or the settling of a
    pending request.  An event runs one handler up to its next suspension;
    nothing else runs in between, as in JavaScript's event loop.

    A handler is a closure of the last render, so it reads the state of
    the configuration it is dispatched in ([rendered]): React has
    re-rendered by the time the next event is handled.  The events are
    not restricted to what the rendered page offers (any slot can be
    clicked, the drawer can be closed when it is not open), so what holds
    of every reachable configuration here holds of the page.

    [flight_ok] states what the guard of [handleAnalyzeBooking] is meant
    to maintain: every suspended handler is a continuation of
    [handleAnalyzeBooking] for its own session, no session has two
    handlers in flight, and the in-flight table [isAnalyzing] says exactly
    which sessions have one. *)

From S2P Require Import Prelude JsValue Courts State Async Backend World.
From S2P Require Import Handlers Lts.

(** A suspended handler: the session of the slot its closure holds, the
    request it waits on, and what it does when that settles. *)
Record task : Type := Task {
  t_owner : option string;
  t_request : request;
  t_resume : settled → handler unit
}.

Record config : Type := Config {
  c_world : world;
  c_pending : list task
}.

Inductive event : Type :=
| SelectTab (key : string)
| ClickCard (index : nat) (sl : slot)
| ClickAnalyze (sl : slot)
| CloseDrawer
| Settle (i : nat) (s : settled).

(** The state of the last render, which the handlers close over. *)
Definition rendered (c : config) : state := w_state (c_world c).

(** Run a handler in a configuration; if it suspends, it joins the pending
    ones. *)
Definition spawn (owner : option string) (p : handler unit) (c : config)
    : config :=
  let r := run p (c_world c) in
  Config r.1
    (c_pending c ++
     match r.2 with
     | Suspended rq k => [Task owner rq k]
     | _ => []
     end).

(** The tab bar's [onChange] is [setSelectedCourtKey]; the effect hook
    calls [fetchCourts] again when the key changed. *)
Definition onTabChange (snap : state) (key : string) : handler unit :=
  setSelectedCourtKey key ;;
  if decide (key = selectedCourtKey snap) then Ret tt else fetchCourts.

(** The first render, after its effect ran. *)
Definition initial_config (now : Z) : config :=
  spawn None fetchCourts (Config (MkWorld (initial_state now) []) []).

(** One turn of the event loop; [None] when the event names a pending
    request that does not exist. *)
Definition dispatch (e : event) (c : config) : option config :=
  match e with
  | SelectTab key => Some (spawn None (onTabChange (rendered c) key) c)
  | ClickCard index sl =>
      Some (spawn None (handleCardClick (rendered c) index sl) c)
  | ClickAnalyze sl =>
      Some (spawn (session_id sl) (handleAnalyzeBooking (rendered c) sl) c)
  | CloseDrawer => Some (spawn None handleDrawerClose c)
  | Settle i s =>
      t ← c_pending c !! i;
      Some (spawn (t_owner t) (t_resume t s)
              (Config (c_world c) (delete i (c_pending c))))
  end.

Inductive step : config → event → config → Prop :=
| step_select_tab c key :
    step c (SelectTab key) (spawn None (onTabChange (rendered c) key) c)
| step_click_card c index sl :
    step c (ClickCard index sl)
      (spawn None (handleCardClick (rendered c) index sl) c)
| step_click_analyze c sl :
    step c (ClickAnalyze sl)
      (spawn (session_id sl) (handleAnalyzeBooking (rendered c) sl) c)
| step_close_drawer c :
    step c CloseDrawer (spawn None handleDrawerClose c)
| step_settle c i t s :
    c_pending c !! i = Some t →
    step c (Settle i s)
      (spawn (t_owner t) (t_resume t s)
         (Config (c_world c) (delete i (c_pending c)))).

Definition dashboard : lts :=
  Lts config event (λ c, ∃ now, c = initial_config now) step.

(** The sessions with a handler in flight, one entry per handler. *)
Definition owners (c : config) : list (option string) :=
  t_owner <$> c_pending c.

Definition in_flight (c : config) (id : string) : Prop := Some id ∈ owners c.

(** The pending handler of a session that awaits its trigger, and the one
    that awaits its results. *)
Definition trigger_task (session_id : option string) : task :=
  Task session_id (analyze_booking session_id) (after_trigger session_id).

Definition fetch_task (session_id : option string) : task :=
  Task session_id (analysis_results session_id) (after_fetch session_id).

(** A pending handler is a continuation of [handleAnalyzeBooking], at one
    of its two awaits, for a session with a proper id. *)
Definition task_ok (t : task) : Prop :=
  ∃ id, id ≠ "" ∧ (t = trigger_task (Some id) ∨ t = fetch_task (Some id)).

(** The bookkeeping of the analyses in flight is exact. *)
Record flight_ok (c : config) : Prop := FlightOk {
  flight_tasks : Forall task_ok (c_pending c);
  flight_nodup : NoDup (owners c);
  flight_table : ∀ id, isAnalyzing (rendered c) !! id = Some true ↔ in_flight c id;
  flight_loading : analysisLoading (rendered c) = true → c_pending c ≠ []
}.
