(* ===== verification/Sorting.v ===== *)
(** * The order of the cards

    The page sorts the time slots of the selected court with
    [time_slots.sort((a, b) => a.startHour - b.startHour)].  This file
    holds the comparator of the source ([compare_slots]) and
    [Array.prototype.sort], a library function, as the stable insertion
    sort that ECMAScript prescribes for a consistent comparator
    ([sort_slots]).  A slot without [startHour] makes the comparator
    return [NaN], which [sort] reads as "equal"; the comparator is then no
    longer consistent and an engine may order such a listing differently.

    [sort] works in place: [render_courts] is what a render leaves in the
    array the [courts] hook holds.

    The theorems: the sort permutes, sorts and is stable, whatever the
    slots hold; sorting twice is sorting once, so the in-place sort of one
    render is invisible to the next. *)

From S2P Require Import Prelude JsValue Courts State.

(** [(a, b) => a.startHour - b.startHour]: the sign of the difference;
    [None] is [NaN], the difference with a missing [startHour]. *)
Definition startHour_diff (a b : slot) : option Z :=
  match startHour a, startHour b with
  | Some x, Some y => Some (x - y)%Z
  | _, _ => None
  end.

(** How [sort] reads the comparator's result: negative, zero or positive,
    and [NaN] as zero. *)
Definition compare_slots (a b : slot) : comparison :=
  match startHour_diff a b with
  | Some d => (d ?= 0)%Z
  | None => Eq
  end.

(** Stable insertion: [x] goes before the first element it is strictly
    smaller than. *)
Fixpoint insert_slot (x : slot) (l : list slot) : list slot :=
  match l with
  | [] => [x]
  | y :: l' =>
      match compare_slots x y with
      | Lt => x :: y :: l'
      | _ => y :: insert_slot x l'
      end
  end.

(** [time_slots.sort(cmp)], for the elements in their original order. *)
Definition sort_slots (l : list slot) : list slot :=
  foldl (λ acc x, insert_slot x acc) [] l.

(** The comparator orders the elements of a list consistently: it is
    transitive on them, in both of its outcomes. *)
Definition consistent_on (l : list slot) : Prop :=
  ∀ a b c, a ∈ l → b ∈ l → c ∈ l →
    (compare_slots a b = Eq → compare_slots b c = Eq → compare_slots a c = Eq) ∧
    (compare_slots a b = Lt → compare_slots b c = Lt → compare_slots a c = Lt).

(** The comparator does not put [a] after [b]. *)
Definition not_after (a b : slot) : Prop := compare_slots a b ≠ Gt.

(** Sorted by the comparator: no card is after a later one. *)
Definition hours_sorted (l : list slot) : Prop := StronglySorted not_after l.

Definition has_hour (sl : slot) : Prop := is_Some (startHour sl).

#[export] Instance has_hour_dec sl : Decision (has_hour sl).
Proof. unfold has_hour. apply _. Defined.

(** [sort] works in place: rendering writes the sorted slots into the
    court object that [courts] holds (and, through it, into [mockData]). *)
Definition sorted_court (c : court) : court :=
  Court (court_id c) (name c) (sort_slots (time_slots c)).

Definition render_courts (courts : list court) (key : string) : list court :=
  match list_find (λ c, name c = key) courts with
  | Some (i, c) => <[i := sorted_court c]> courts
  | None => courts
  end.

(** ** Sorting the cards *)

Section sorting.
Implicit Types (x a b : slot) (l acc : list slot).

(** Where [insert_slot] puts [x]: after the slots it is not smaller than,
    before the first one it is smaller than. *)
Lemma insert_slot_split x l :
  ∃ l1 l2, l = l1 ++ l2 ∧ insert_slot x l = l1 ++ x :: l2 ∧
    Forall (λ y, compare_slots x y ≠ Lt) l1 ∧
    ∀ y, head l2 = Some y → compare_slots x y = Lt.
Proof.
  induction l as [|y l (l1 & l2 & -> & Hins & Hl1 & Hl2)]; simpl.
  - by exists [], [].
  - destruct (compare_slots x y) eqn:Hxy.
    + exists (y :: l1), l2. rewrite Hins. repeat split; [|done].
      constructor; [congruence|done].
    + exists [], (y :: l1 ++ l2). repeat split; [done|]. by intros ? [= <-].
    + exists (y :: l1), l2. rewrite Hins. repeat split; [|done].
      constructor; [congruence|done].
Qed.

Lemma insert_slot_Permutation x l : insert_slot x l ≡ₚ x :: l.
Proof.
  destruct (insert_slot_split x l) as (l1 & l2 & -> & -> & _).
  by rewrite Permutation_middle.
Qed.

Lemma foldl_insert_Permutation l acc :
  foldl (λ acc x, insert_slot x acc) acc l ≡ₚ acc ++ l.
Proof.
  revert acc. induction l as [|x l IH]; intros acc; simpl.
  - by rewrite app_nil_r.
  - rewrite IH, insert_slot_Permutation. apply Permutation_middle.
Qed.

(** Sorting neither loses nor invents a card. *)
Lemma sort_slots_Permutation l : sort_slots l ≡ₚ l.
Proof. apply (foldl_insert_Permutation l []). Qed.

Lemma elem_of_sort_slots x l : x ∈ sort_slots l ↔ x ∈ l.
Proof. by rewrite sort_slots_Permutation. Qed.

(** With both hours known, the comparator compares the hours. *)
Lemma compare_slots_hours a b (h k : Z) :
  startHour a = Some h → startHour b = Some k →
  compare_slots a b = (h ?= k)%Z.
Proof.
  intros Ha Hb. unfold compare_slots, startHour_diff. rewrite Ha, Hb.
  symmetry. apply Z.compare_sub.
Qed.

(** Swapping the arguments swaps the outcome, with or without hours. *)
Lemma compare_slots_antisym a b :
  compare_slots b a = CompOpp (compare_slots a b).
Proof.
  unfold compare_slots, startHour_diff.
  destruct (startHour a) as [h|], (startHour b) as [k|]; simpl; try done.
  rewrite <- !Z.compare_sub. apply Z.compare_antisym.
Qed.

Lemma not_after_flip a b : compare_slots a b ≠ Lt → not_after b a.
Proof.
  unfold not_after. rewrite (compare_slots_antisym a b).
  by destruct (compare_slots a b).
Qed.

Lemma not_after_hours a b (h k : Z) :
  startHour a = Some h → startHour b = Some k → not_after a b ↔ (h ≤ k)%Z.
Proof.
  intros Ha Hb. unfold not_after. rewrite (compare_slots_hours a b h k) by done.
  apply Z.compare_le_iff.
Qed.

(** Among slots that all have a start hour the comparator is the order of
    the hours, and so is consistent. *)
Lemma consistent_on_hours l : Forall has_hour l → consistent_on l.
Proof.
  rewrite Forall_forall. intros Hl a b c Ha Hb Hc.
  destruct (Hl a Ha) as [h Hh], (Hl b Hb) as [k Hk], (Hl c Hc) as [m Hm].
  rewrite (compare_slots_hours a b h k), (compare_slots_hours b c k m),
    (compare_slots_hours a c h m) by done.
  rewrite !Z.compare_eq_iff, !Z.compare_lt_iff. lia.
Qed.

(** What is left of transitivity when hours are missing: a slot smaller
    than [b] is not after anything [b] is not after, and has another hour
    than it. *)
Lemma lt_not_after a b c :
  compare_slots a b = Lt → not_after b c →
  not_after a c ∧ startHour c ≠ startHour a.
Proof.
  unfold not_after, compare_slots, startHour_diff.
  destruct (startHour a) as [h|], (startHour b) as [k|], (startHour c) as [m|];
    simpl; try done.
  rewrite <- !Z.compare_sub, Z.compare_lt_iff, !Z.compare_le_iff.
  intros ??. split; [lia|]. intros [= ->]. lia.
Qed.

Lemma not_after_refl a : not_after a a.
Proof.
  unfold not_after. pose proof (compare_slots_antisym a a).
  by destruct (compare_slots a a).
Qed.

(** The slots from the first one [x] is smaller than. *)
Lemma insert_slot_tail x l2 :
  hours_sorted l2 → (∀ y, head l2 = Some y → compare_slots x y = Lt) →
  Forall (λ z, not_after x z ∧ startHour z ≠ startHour x) l2.
Proof.
  intros Hl2 Hhd. destruct Hl2 as [|y l2 _ Hy]; [constructor|].
  specialize (Hhd y eq_refl). constructor.
  - eapply lt_not_after; [done|apply not_after_refl].
  - eapply Forall_impl; [done|]. intros z Hz. by eapply lt_not_after.
Qed.

(** Inserting keeps the list sorted, whatever the slots hold. *)
Lemma insert_slot_sorted x l : hours_sorted l → hours_sorted (insert_slot x l).
Proof.
  unfold hours_sorted.
  destruct (insert_slot_split x l) as (l1 & l2 & -> & -> & Hl1 & Hl2).
  rewrite !StronglySorted_app. intros (H12 & H1 & H2).
  pose proof (insert_slot_tail x l2 H2 Hl2) as Ht.
  rewrite Forall_forall in Hl1. split_and!; [|done|].
  - intros x1 x2 Hx1 [->|Hx2]%elem_of_cons; [|by apply H12].
    by apply not_after_flip, Hl1.
  - constructor; [done|]. eapply Forall_impl; [done|]. by intros z [? _].
Qed.

Lemma foldl_insert_sorted l acc :
  hours_sorted acc → hours_sorted (foldl (λ acc x, insert_slot x acc) acc l).
Proof.
  revert acc. induction l as [|x l IH]; intros acc Hacc; simpl; [done|].
  by apply IH, insert_slot_sorted.
Qed.

(** The sorted list is sorted: no card is after a later one. *)
Lemma sort_slots_sorted l : hours_sorted (sort_slots l).
Proof. apply foldl_insert_sorted. constructor. Qed.

(** A slot that is not smaller than any slot of the list goes to its
    end. *)
Lemma insert_slot_last x l :
  Forall (λ y, not_after y x) l → insert_slot x l = l ++ [x].
Proof.
  induction 1 as [|y l Hy _ IH]; simpl; [done|].
  unfold not_after in Hy. rewrite (compare_slots_antisym x y) in Hy.
  destruct (compare_slots x y); by rewrite ?IH.
Qed.

Lemma foldl_insert_fixed l acc :
  hours_sorted (acc ++ l) →
  foldl (λ acc x, insert_slot x acc) acc l = acc ++ l.
Proof.
  revert acc. induction l as [|x l IH]; intros acc Hs; simpl.
  - by rewrite app_nil_r.
  - rewrite insert_slot_last.
    + rewrite IH; by rewrite <- app_assoc.
    + apply StronglySorted_app in Hs as (Hs & _ & _).
      apply Forall_forall. intros y Hy. apply Hs; [done|left].
Qed.

(** Sorting a sorted list changes nothing. *)
Lemma sort_slots_fixed l : hours_sorted l → sort_slots l = l.
Proof. apply (foldl_insert_fixed l []). Qed.

(** Inserting puts a slot behind the slots of its own start hour. *)
Lemma insert_slot_filter (o : option Z) x l :
  hours_sorted l →
  filter (λ sl, startHour sl = o) (insert_slot x l) =
  filter (λ sl, startHour sl = o) l ++
  (if decide (startHour x = o) then [x] else []).
Proof.
  destruct (insert_slot_split x l) as (l1 & l2 & -> & -> & _ & Hl2).
  intros (_ & _ & H2)%StronglySorted_app.
  rewrite !filter_app, filter_cons. case_decide as Hx; [|by rewrite app_nil_r].
  rewrite (filter_none _ l2); [by rewrite app_nil_r|].
  eapply Forall_impl; [by apply insert_slot_tail|].
  intros z [_ Hz]. congruence.
Qed.

Lemma foldl_insert_filter (o : option Z) l acc :
  hours_sorted acc →
  filter (λ sl, startHour sl = o) (foldl (λ acc x, insert_slot x acc) acc l) =
  filter (λ sl, startHour sl = o) (acc ++ l).
Proof.
  revert acc. induction l as [|x l IH]; intros acc Hacc; simpl.
  - by rewrite app_nil_r.
  - rewrite IH by (by apply insert_slot_sorted).
    rewrite !filter_app, insert_slot_filter, filter_cons by done.
    rewrite <- app_assoc. by case_decide.
Qed.

(** [sort] is stable: the slots of one start hour keep their order, and
    so do the slots without one. *)
Lemma sort_slots_stable (o : option Z) l :
  filter (λ sl, startHour sl = o) (sort_slots l) =
  filter (λ sl, startHour sl = o) l.
Proof. apply (foldl_insert_filter o l []). constructor. Qed.

(** Sorting twice is sorting once. *)
Lemma sort_slots_idempotent l : sort_slots (sort_slots l) = sort_slots l.
Proof. apply sort_slots_fixed, sort_slots_sorted. Qed.

(** The court the in-place sort wrote is found where the unsorted one
    was. *)
Lemma list_find_render courts key i c :
  list_find (λ c, name c = key) courts = Some (i, c) →
  list_find (λ c, name c = key) (<[i := sorted_court c]> courts) =
  Some (i, sorted_court c).
Proof.
  intros (Hi & Hc & Hlt)%list_find_Some.
  apply (list_find_insert_Some _ courts i i (sorted_court c) (sorted_court c)).
  right; left. split_and!; [done..|by eapply lookup_lt_Some|done|done].
Qed.

(** After the in-place sort the lookup finds the same court, sorted. *)
Lemma selectedCourtData_render courts key :
  selectedCourtData (render_courts courts key) key =
  sorted_court <$> selectedCourtData courts key.
Proof.
  unfold selectedCourtData, render_courts.
  destruct (list_find _ courts) as [[i c]|] eqn:Hf; simpl; [|by rewrite Hf].
  by rewrite (list_find_render courts key i c).
Qed.

(** The in-place sort keeps the names of the courts, and sorting in place
    a second time changes nothing. *)
Lemma render_courts_names courts key :
  name <$> render_courts courts key = name <$> courts.
Proof.
  unfold render_courts.
  destruct (list_find _ courts) as [[i c]|] eqn:Hf; [|done].
  apply list_find_Some in Hf as (Hi & _ & _).
  rewrite list_fmap_insert. apply list_insert_id. by rewrite list_lookup_fmap, Hi.
Qed.

Lemma render_courts_idempotent courts key :
  render_courts (render_courts courts key) key = render_courts courts key.
Proof.
  unfold render_courts at 2 3.
  destruct (list_find _ courts) as [[i c]|] eqn:Hf.
  - unfold render_courts. rewrite (list_find_render courts key i c) by done.
    unfold sorted_court at 1. simpl.
    by rewrite sort_slots_idempotent, list_insert_insert_eq.
  - unfold render_courts. by rewrite Hf.
Qed.

(** The mock listing is in the order the sort gives: rendering never
    changes it, whichever tab is selected. *)
Lemma mockData_render key : render_courts mockData key = mockData.
Proof.
  unfold render_courts.
  destruct (list_find _ mockData) as [[i c]|] eqn:Hf; [|done].
  apply list_find_Some in Hf as (Hi & _ & _).
  apply list_insert_id. rewrite Hi. f_equal.
  apply list_elem_of_lookup_2 in Hi.
  assert (Forall (λ c, sorted_court c = c) mockData) as Hall
    by (repeat constructor).
  rewrite Forall_forall in Hall. symmetry. by apply Hall.
Qed.

End sorting.
