(* ===== verification/SortSpec.v ===== *)
(** * What the page may assume of [Array.prototype.sort]

    [Array.prototype.sort] is a library function; ECMAScript says what
    every engine's [sort] does when it is called with a comparator: the
    result is a permutation of the array; when the comparator is
    consistent on the elements, the result is in the order of the
    comparator and elements the comparator takes for equal keep their
    order (the sort is stable).  [ArraySort] is that contract, for the
    comparator of the page.

    Two sorts implement it: [Sorting.sort_slots], which the development
    uses, and [sort_backward], which inserts from the last element on.
    The theorems: the contract determines the result on a consistent
    listing, so every engine orders such a listing as [sort_slots] does;
    on a listing with a free slot between two bookings out of order the
    two sorts return different arrays. *)

From S2P Require Import Prelude JsValue Courts State Sorting.

(** The comparator takes two slots for equal. *)
Definition same_rank (a b : slot) : Prop := compare_slots a b = Eq.

#[export] Instance same_rank_dec a b : Decision (same_rank a b).
Proof. unfold same_rank. apply _. Defined.

Class ArraySort (sort : list slot → list slot) : Prop := {
  array_sort_Permutation l : sort l ≡ₚ l;
  array_sort_sorted l : consistent_on l → hours_sorted (sort l);
  array_sort_stable l x :
    consistent_on l → x ∈ l →
    filter (same_rank x) (sort l) = filter (same_rank x) l
}.

(** Insertion from the right: [x] goes before the first element that is
    not strictly smaller than it. *)
Fixpoint insert_before (x : slot) (l : list slot) : list slot :=
  match l with
  | [] => [x]
  | y :: l' =>
      match compare_slots x y with
      | Gt => y :: insert_before x l'
      | _ => x :: y :: l'
      end
  end.

Definition sort_backward (l : list slot) : list slot := foldr insert_before [] l.

(** ** Consistent listings *)

Section consistent.
Implicit Types (l k : list slot) (x y : slot).

Lemma same_rank_no_hour x y : startHour y = None → same_rank x y ∧ same_rank y x.
Proof.
  unfold same_rank, compare_slots, startHour_diff. intros ->.
  by destruct (startHour x).
Qed.

(** A consistent listing has a start hour on every slot, or the comparator
    takes all its slots for equal. *)
Lemma consistent_on_cases l :
  consistent_on l →
  Forall has_hour l ∨ ∀ x y, x ∈ l → y ∈ l → same_rank x y.
Proof.
  intros Hl. destruct (decide (Forall has_hour l)) as [|Hn]; [by left|right].
  apply not_Forall_Exists in Hn; [|apply _].
  apply Exists_exists in Hn as (n & Hn & Hh%eq_None_not_Some).
  intros x y Hx Hy. destruct (Hl x n y Hx Hn Hy) as [Heq _].
  apply Heq; [apply (same_rank_no_hour x n Hh)|apply (same_rank_no_hour y n Hh)].
Qed.

(** Slots that are all of one rank are sorted, in any order. *)
Lemma hours_sorted_same_rank k :
  (∀ x y, x ∈ k → y ∈ k → same_rank x y) → hours_sorted k.
Proof.
  induction k as [|x k IH]; intros Hk; constructor.
  - apply IH. intros ????. apply Hk; by right.
  - apply Forall_forall. intros y Hy. unfold not_after.
    rewrite (Hk x y); [done|left|by right].
Qed.

(** Among slots with a start hour the rank is the hour. *)
Lemma same_rank_hours x k :
  has_hour x → Forall has_hour k →
  filter (same_rank x) k = filter (λ y, startHour y = startHour x) k.
Proof.
  intros [h Hx] Hk. apply filter_ext_Forall.
  eapply Forall_impl; [done|]. intros y [m Hy]. unfold same_rank.
  rewrite (compare_slots_hours x y h m), Z.compare_eq_iff, Hx, Hy by done.
  naive_solver.
Qed.

(** A sort that permutes and keeps the order within each start hour keeps
    the order within each rank. *)
Lemma stable_by_hours (sort : list slot → list slot) l x :
  sort l ≡ₚ l →
  (∀ o : option Z, filter (λ y, startHour y = o) (sort l) =
                   filter (λ y, startHour y = o) l) →
  Forall has_hour l → x ∈ l →
  filter (same_rank x) (sort l) = filter (same_rank x) l.
Proof.
  intros Hp Hs Hl Hx.
  assert (has_hour x) as Hhx by (by rewrite Forall_forall in Hl; apply Hl).
  rewrite !same_rank_hours; [done..|by rewrite Hp].
Qed.

End consistent.

(** ** The contract determines the result *)

Section unique.
Implicit Types (l k : list slot) (x y : slot).

Lemma same_rank_refl x : same_rank x x.
Proof.
  unfold same_rank. pose proof (compare_slots_antisym x x).
  by destruct (compare_slots x x).
Qed.

Lemma same_rank_not_after x y : not_after x y → not_after y x → same_rank x y.
Proof.
  unfold not_after, same_rank. rewrite (compare_slots_antisym x y).
  by destruct (compare_slots x y).
Qed.

(** Two sorted lists with the same first elements up to order start with
    slots of the same rank. *)
Lemma sorted_heads_same_rank x y l k :
  x :: l ≡ₚ y :: k → hours_sorted (x :: l) → hours_sorted (y :: k) →
  same_rank x y.
Proof.
  intros Hp Hx Hy.
  apply StronglySorted_inv in Hx as [_ Hx], Hy as [_ Hy].
  rewrite Forall_forall in Hx, Hy.
  assert (x ∈ y :: k) as [->|Hxk]%elem_of_cons by (rewrite <- Hp; left);
    [apply same_rank_refl|].
  assert (y ∈ x :: l) as [->|Hyl]%elem_of_cons by (rewrite Hp; left);
    [apply same_rank_refl|].
  apply same_rank_not_after; auto.
Qed.

(** Two sorted lists with the same elements, in which the slots of each
    rank come in the same order, are equal. *)
Lemma sorted_stable_unique l k :
  l ≡ₚ k → hours_sorted l → hours_sorted k →
  (∀ x, x ∈ l → filter (same_rank x) l = filter (same_rank x) k) →
  l = k.
Proof.
  intros Hp Hl. revert k Hp.
  induction l as [|x l IH]; intros k Hp Hk Hf.
  { by apply Permutation_nil_l in Hp. }
  destruct k as [|y k]; [by apply Permutation_nil_r in Hp|].
  pose proof (sorted_heads_same_rank x y l k Hp Hl Hk) as Hxy.
  pose proof (Hf x ltac:(left)) as Hfx.
  rewrite !filter_cons_True in Hfx by (done || apply same_rank_refl).
  injection Hfx as <- _. f_equal.
  apply StronglySorted_inv in Hl as [Hl _], Hk as [Hk _].
  apply IH; [done|by eapply Permutation_cons_inv|done|].
  intros z Hz. specialize (Hf z ltac:(by right)).
  rewrite !filter_cons in Hf. case_decide; by simplify_eq.
Qed.

(** Every sort that meets the contract gives the same list on a consistent
    listing. *)
Lemma array_sort_unique (sort1 sort2 : list slot → list slot)
    `{!ArraySort sort1, !ArraySort sort2} l :
  consistent_on l → sort1 l = sort2 l.
Proof.
  intros Hl. apply sorted_stable_unique.
  - by rewrite !array_sort_Permutation.
  - by apply array_sort_sorted.
  - by apply array_sort_sorted.
  - intros x Hx. rewrite array_sort_Permutation in Hx.
    by rewrite !array_sort_stable.
Qed.

End unique.

(** ** The two sorts meet the contract *)

Section instances.
Implicit Types (l k : list slot) (x y : slot) (o : option Z).

#[export] Instance sort_slots_ArraySort : ArraySort sort_slots.
Proof.
  split.
  - apply sort_slots_Permutation.
  - intros l _. apply sort_slots_sorted.
  - intros l x Hl Hx. destruct (consistent_on_cases l Hl) as [Hh|He].
    + apply stable_by_hours;
        [apply sort_slots_Permutation|intros; apply sort_slots_stable|done..].
    + by rewrite sort_slots_fixed by (by apply hours_sorted_same_rank).
Qed.

Lemma insert_before_Permutation x k : insert_before x k ≡ₚ x :: k.
Proof.
  induction k as [|y k IH]; simpl; [done|].
  destruct (compare_slots x y); try done.
  by rewrite IH, Permutation_swap.
Qed.

Lemma sort_backward_Permutation l : sort_backward l ≡ₚ l.
Proof.
  induction l as [|x l IH]; simpl; [done|].
  by rewrite insert_before_Permutation, IH.
Qed.

(** Slots of one rank stay as they are. *)
Lemma sort_backward_same_rank l :
  (∀ x y, x ∈ l → y ∈ l → same_rank x y) → sort_backward l = l.
Proof.
  induction l as [|x l IH]; intros Hl; simpl; [done|].
  rewrite IH by (intros ????; apply Hl; by right).
  destruct l as [|y l]; simpl; [done|].
  by rewrite (Hl x y) by (rewrite !elem_of_cons; auto).
Qed.

Lemma insert_before_sorted x k :
  Forall has_hour (x :: k) → hours_sorted k → hours_sorted (insert_before x k).
Proof.
  intros [[h Hx] Hk]%Forall_cons Hs.
  induction Hs as [|y k Hs IH Hy]; [repeat constructor|].
  apply Forall_cons in Hk as [[m Hm] Hk]. simpl.
  destruct (decide (compare_slots x y = Gt)) as [Hxy|Hxy].
  - rewrite Hxy. constructor; [by apply IH|]. rewrite insert_before_Permutation.
    constructor; [|done]. apply not_after_flip. by rewrite Hxy.
  - assert (hours_sorted (x :: y :: k)) as Hs'; [|by destruct (compare_slots x y)].
    constructor; [by constructor|]. constructor; [done|].
    eapply Forall_impl; [apply Forall_and; split; [exact Hy|exact Hk]|].
    intros z [Hyz [n Hz]]. apply (not_after_hours x z h n); [done..|].
    apply (not_after_hours y z m n) in Hyz; [|done..].
    apply (not_after_hours x y h m) in Hxy; [lia|done..].
Qed.

Lemma sort_backward_sorted l : Forall has_hour l → hours_sorted (sort_backward l).
Proof.
  induction 1 as [|x l Hx Hl IH]; simpl; [constructor|].
  apply insert_before_sorted; [|done].
  constructor; [done|]. by rewrite sort_backward_Permutation.
Qed.

(** Inserting moves a slot only past slots of other start hours. *)
Lemma insert_before_filter o x k :
  Forall has_hour (x :: k) →
  filter (λ y, startHour y = o) (insert_before x k) =
  filter (λ y, startHour y = o) (x :: k).
Proof.
  intros [[h Hx] Hk]%Forall_cons.
  induction Hk as [|y k [m Hy] _ IH]; simpl; [done|].
  destruct (compare_slots x y) eqn:Hxy; [done..|].
  rewrite (compare_slots_hours x y h m), Z.compare_gt_iff in Hxy by done.
  rewrite filter_cons, IH, !filter_cons.
  repeat case_decide; try done. assert (h = m) by congruence. lia.
Qed.

Lemma sort_backward_stable o l :
  Forall has_hour l →
  filter (λ y, startHour y = o) (sort_backward l) = filter (λ y, startHour y = o) l.
Proof.
  induction 1 as [|x l Hx Hl IH]; simpl; [done|].
  rewrite insert_before_filter, !filter_cons, IH; [done|].
  constructor; [done|]. by rewrite sort_backward_Permutation.
Qed.

#[export] Instance sort_backward_ArraySort : ArraySort sort_backward.
Proof.
  split.
  - apply sort_backward_Permutation.
  - intros l Hl. destruct (consistent_on_cases l Hl) as [Hh|He].
    + by apply sort_backward_sorted.
    + by rewrite sort_backward_same_rank; [apply hours_sorted_same_rank|].
  - intros l x Hl Hx. destruct (consistent_on_cases l Hl) as [Hh|He].
    + apply stable_by_hours;
        [apply sort_backward_Permutation
        |intros; by apply sort_backward_stable|done..].
    + by rewrite sort_backward_same_rank.
Qed.

End instances.

(** ** Where the contract is silent *)

Section engine.
Implicit Types (a n b : slot) (ha hb : Z).

(** C38: The order of the cards is left to the engine as soon as a slot
    without a start hour stands between two slots whose hours are out of
    order.  On such a listing the comparator is not consistent, and the
    two sorts, which both meet the contract of [Array.prototype.sort],
    return different arrays: [sort_slots] moves the earlier slot to the
    front, [sort_backward] leaves the array as it was. *)
Theorem sort_engine_dependent a n b ha hb :
  startHour a = Some ha → startHour n = None → startHour b = Some hb →
  (hb < ha)%Z →
  ¬ consistent_on [a; n; b] ∧
  sort_slots [a; n; b] = [b; a; n] ∧
  sort_backward [a; n; b] = [a; n; b].
Proof.
  intros Ha Hn Hb Hlt.
  destruct (same_rank_no_hour a n Hn) as [Han Hna].
  destruct (same_rank_no_hour b n Hn) as [_ Hnb].
  unfold same_rank in *.
  assert (compare_slots b a = Lt) as Hba
    by (by rewrite (compare_slots_hours b a hb ha), Z.compare_lt_iff).
  split_and!.
  - intros Hc. destruct (Hc a n b) as [Heq _]; [set_solver..|].
    specialize (Heq Han Hnb). rewrite (compare_slots_antisym b a), Hba in Heq.
    discriminate.
  - unfold sort_slots. cbn [foldl insert_slot]. rewrite Hna.
    cbn [insert_slot]. by rewrite Hba.
  - unfold sort_backward. cbn [foldr insert_before]. rewrite Hnb.
    cbn [insert_before]. by rewrite Han.
Qed.

End engine.

(** ** The two sorts on a listing with a free slot between two bookings *)

Lemma sort_engine_dependent_witness :
  let free := Slot "slot_c1_12pm" "12:00" "available" None false None None None in
  sort_slots [slot_c1_10am; free; slot_c1_9am] =
    [slot_c1_9am; slot_c1_10am; free] ∧
  sort_backward [slot_c1_10am; free; slot_c1_9am] =
    [slot_c1_10am; free; slot_c1_9am].
Proof.
  intros free.
  by destruct (sort_engine_dependent slot_c1_10am free slot_c1_9am 10 9)
    as (_ & Hf & Hb).
Defined.
