(* ===== verification/Cards.v ===== *)
(** * The cards of the page

    The callback of [time_slots.sort(...).map((slot, index) => ...)]: what
    one card shows of its slot.  Every value the JSX computes is here: the
    React key, the two colours, the border of the expanded card, the
    title, the status, the two lines of a booking and the footers (the
    "Analyze Booking" button with its label and loading flag, or a note).
    Tag names and the style constants that do not depend on the slot are
    left out.

    The callback also computes [isElapsed] with [dayjs] and never uses it.
    [dayjs], like [Array.prototype.sort], is a library the source calls.
    Of its behaviour the model uses that [hour] is a getter when its
    argument is [undefined], so that it returns a number and the chained
    [.minute(0)] is a call of [undefined]: a slot without [startHour]
    makes the callback throw.  Times are milliseconds of local time in a
    zone without daylight saving; a render reads the clock once. *)

From S2P Require Import Prelude JsValue Courts State Sorting.

(** The cards of the page: the slots of the selected court, sorted; none
    when no court has the selected name. *)
Definition cards (st : state) : list slot :=
  match selectedCourtData (courts st) (selectedCourtKey st) with
  | Some c => sort_slots (time_slots c)
  | None => []
  end.

(** [slot.status === "Booked" && slot.is_past && slot.session_id], as the
    condition it is used as. *)
Definition showAnalyzeButton (sl : slot) : bool :=
  bool_decide (status sl = "Booked") && is_past sl && truthy_str (session_id sl).

Definition isExpanded (st : state) (index : nat) : bool :=
  bool_decide (expandedSlotIndex st = Some index).

(** [d.hour(h).minute(0).second(0)]: the time of day is replaced, the
    milliseconds stay. *)
Definition at_hour (d h : Z) : Z :=
  (d - d `mod` 86400000 + h * 3600000 + d `mod` 1000)%Z.

(** The [TypeError] of a call of [undefined]; the message is V8's. *)
Definition not_a_function (what : string) : jsval :=
  JObj [("name", JStr "TypeError");
        ("message", JStr (what +:+ " is not a function"))].

(** [slotStartTime.isBefore(now)], or what computing [slotStartTime]
    throws. *)
Definition isElapsed (selectedDate now : Z) (sl : slot) : bool + jsval :=
  match startHour sl with
  | Some h => inl (bool_decide (at_hour selectedDate h < now)%Z)
  | None => inr (not_a_function "dayjs(...).hour(...).minute")
  end.

(** What a card shows under its summary. *)
Inductive card_footer : Type :=
| AnalyzeButton (loading : bool) (text : string)
| FooterNote (text : string).

#[export] Instance card_footer_eq_dec : EqDecision card_footer.
Proof. solve_decision. Defined.

(** The button: [loading] and the label follow [isAnalyzing]. *)
Definition analyze_button (st : state) (sl : slot) : card_footer :=
  AnalyzeButton (analyzing st (prop_key (session_id sl)))
    (if analyzing st (prop_key (session_id sl)) then "Analyzing..."
     else "Analyze Booking").

(** The three conditional children that end a card, each with its own
    test. *)
Definition card_footers (st : state) (index : nat) (sl : slot) : list card_footer :=
  (if isExpanded st index && showAnalyzeButton sl then [analyze_button st sl]
   else []) ++
  (if isExpanded st index && bool_decide (status sl = "Booked") && is_past sl &&
      negb (showAnalyzeButton sl)
   then [FooterNote "Analysis unavailable or not applicable."] else []) ++
  (if isExpanded st index && bool_decide (status sl = "Booked") &&
      negb (is_past sl)
   then [FooterNote "Ongoing or Upcoming Booking."] else []).

(** The background of a card: the colour of a booking or of a free slot. *)
Definition card_background (sl : slot) : string :=
  if bool_decide (status sl = "Booked") then "#e6fffb" else "#f6ffed".

(** The border: the expanded card has one, the others [undefined]. *)
Definition card_border (st : state) (index : nat) : option string :=
  if isExpanded st index then Some "2px solid #1890ff" else None.

(** [`${slot.startHour}`] and [`${slot.startHour + 1}`]: a missing hour
    prints as [undefined], and one more than it as [NaN]. *)
Definition hour_text (h : option Z) : string :=
  match h with
  | Some n => pretty n
  | None => "undefined"
  end.

Definition next_hour_text (h : option Z) : string :=
  match h with
  | Some n => pretty (n + 1)%Z
  | None => "NaN"
  end.

(** [slot.time || `${slot.startHour}:00 - ${slot.startHour + 1}:00`] *)
Definition card_title (sl : slot) : string :=
  if bool_decide (time sl = "") then
    hour_text (startHour sl) +:+ ":00 - " +:+ next_hour_text (startHour sl) +:+ ":00"
  else time sl.

(** The colour of the status text. *)
Definition status_color (sl : slot) : string :=
  if bool_decide (status sl = "Booked") then "#08979c" else "#73d13d".

(** [slot.bookedBy || "-"] *)
Definition booked_by_text (sl : slot) : string :=
  match bookedBy sl with
  | Some s => if bool_decide (s = "") then "-" else s
  | None => "-"
  end.

(** [n.toFixed(2)] of an integer. *)
Definition toFixed2 (n : Z) : string := pretty n +:+ ".00".

(** [slot.cost ? slot.cost.toFixed(2) : "-"] *)
Definition cost_text (sl : slot) : string :=
  match cost sl with
  | Some n => if bool_decide (n = 0%Z) then "-" else toFixed2 n
  | None => "-"
  end.

(** The two lines a booking adds to its card. *)
Definition card_booking (sl : slot) : option (string * string) :=
  if bool_decide (status sl = "Booked") then
    Some ("Booked by: " +:+ booked_by_text sl, "Cost: Rs. " +:+ cost_text sl)
  else None.

(** A card as it is on screen. *)
Record card_view : Type := CardView {
  view_key : string;
  view_background : string;
  view_border : option string;
  view_title : string;
  view_status : string;
  view_status_color : string;
  view_booking : option (string * string);
  view_footers : list card_footer
}.

(** The JSX the callback of [map] returns. *)
Definition card_view_of (st : state) (index : nat) (sl : slot) : card_view :=
  {| view_key := slot_id sl;
     view_background := card_background sl;
     view_border := card_border st index;
     view_title := card_title sl;
     view_status := status sl;
     view_status_color := status_color sl;
     view_booking := card_booking sl;
     view_footers := card_footers st index sl |}.

(** The callback of [map]: the card of the slot at [index], or what the
    callback throws before it returns. *)
Definition card_of (st : state) (now : Z) (index : nat) (sl : slot)
    : card_view + jsval :=
  match isElapsed (selectedDate st) now sl with
  | inl _ => inl (card_view_of st index sl)
  | inr e => inr e
  end.

(** A card is coherent: it has a title; it looks like a booking (colours,
    status and the two booking lines) or like a free slot, never a mix;
    and only a framed booking has a footer. *)
Definition card_wf (v : card_view) : Prop :=
  view_title v ≠ "" ∧
  (view_footers v ≠ [] → is_Some (view_border v) ∧ is_Some (view_booking v)) ∧
  match view_booking v with
  | Some _ =>
      view_status v = "Booked" ∧ view_background v = "#e6fffb" ∧
      view_status_color v = "#08979c"
  | None =>
      view_status v ≠ "Booked" ∧ view_background v = "#f6ffed" ∧
      view_status_color v = "#73d13d"
  end.

(** ** The texts of a card *)

Section texts.
Implicit Types (sl : slot).

Lemma toFixed2_not_dash n : toFixed2 n ≠ "-".
Proof.
  intros H%(f_equal String.length). unfold toFixed2 in H.
  rewrite string_length_app in H. simpl in H. lia.
Qed.

(** A card always has a title: the time of the slot or, when that is
    empty, the text made of its start hour. *)
Lemma card_title_nonempty sl : card_title sl ≠ "".
Proof.
  unfold card_title. case_bool_decide; [|done].
  by do 3 apply string_app_nonempty.
Qed.

(** C37: The dash of the cost line stands for a booking without a cost and for
    a booking that costs nothing alike: [0] is falsy. *)
Lemma cost_text_dash sl :
  cost_text sl = "-" ↔ cost sl = None ∨ cost sl = Some 0%Z.
Proof.
  unfold cost_text. destruct (cost sl) as [n|]; [|naive_solver].
  case_bool_decide; [naive_solver|].
  split; [by intros ?%toFixed2_not_dash|naive_solver].
Qed.

(** A card shows who booked a slot and at what cost exactly when its
    status is spelled ["Booked"]. *)
Lemma card_booking_Some sl :
  is_Some (card_booking sl) ↔ status sl = "Booked".
Proof.
  unfold card_booking. case_bool_decide; [by split; eauto|].
  split; [by intros [? ?]|done].
Qed.

End texts.

(** ** The cards *)

Section cards.
Implicit Types (st : state) (sl : slot).

(** Computing [isElapsed] throws exactly for a slot without a start
    hour. *)
Lemma isElapsed_throws d now sl e :
  isElapsed d now sl = inr e ↔
  startHour sl = None ∧ e = not_a_function "dayjs(...).hour(...).minute".
Proof. unfold isElapsed. destruct (startHour sl); naive_solver. Qed.

Lemma card_of_has_hour st now index sl :
  has_hour sl → card_of st now index sl = inl (card_view_of st index sl).
Proof. unfold card_of, isElapsed. by intros [h ->]. Qed.

Lemma card_of_no_hour st now index sl :
  startHour sl = None →
  card_of st now index sl = inr (not_a_function "dayjs(...).hour(...).minute").
Proof. unfold card_of, isElapsed. by intros ->. Qed.

(** At most one index is the expanded one. *)
Lemma isExpanded_unique st i j :
  isExpanded st i = true → isExpanded st j = true → i = j.
Proof. unfold isExpanded. rewrite !bool_decide_eq_true. congruence. Qed.

(** A card that is not expanded has neither footer nor border. *)
Lemma card_collapsed st index sl :
  isExpanded st index = false →
  card_footers st index sl = [] ∧ card_border st index = None.
Proof. unfold card_footers, card_border. by intros ->. Qed.

(** The button is offered for a past booking with a usable session id. *)
Lemma showAnalyzeButton_true sl :
  showAnalyzeButton sl = true ↔
  status sl = "Booked" ∧ is_past sl = true ∧ ∃ s, session_id sl = Some s ∧ s ≠ "".
Proof.
  unfold showAnalyzeButton.
  rewrite !andb_true_iff, bool_decide_eq_true, truthy_str_Some. naive_solver.
Qed.

(** A card of the page is a slot of the listing. *)
Lemma elem_of_cards st sl : sl ∈ cards st → sl ∈ all_slots (courts st).
Proof.
  unfold cards, all_slots.
  destruct (selectedCourtData _ _) as [c|] eqn:Hc; [|by rewrite elem_of_nil].
  apply selectedCourtData_Some in Hc as [Hc _].
  rewrite elem_of_sort_slots, list_elem_of_bind. eauto.
Qed.

(** The button of a card: its label follows the in-flight table. *)
(** An expanded card of a past booking with a session id ends with the
    button and nothing else. *)
Lemma card_footers_button st index sl :
  isExpanded st index = true → showAnalyzeButton sl = true →
  card_footers st index sl = [analyze_button st sl].
Proof.
  intros He Hb. unfold card_footers. rewrite He, Hb.
  apply showAnalyzeButton_true in Hb as (Hs & -> & _).
  by rewrite bool_decide_eq_true_2.
Qed.

Lemma elem_of_card_footers_button st index sl loading text :
  AnalyzeButton loading text ∈ card_footers st index sl →
  isExpanded st index = true ∧ showAnalyzeButton sl = true ∧
  loading = analyzing st (prop_key (session_id sl)) ∧
  text = (if loading then "Analyzing..." else "Analyze Booking").
Proof.
  unfold card_footers, analyze_button. rewrite !elem_of_app.
  destruct (isExpanded st index), (showAnalyzeButton sl); simpl;
    repeat case_match; rewrite ?elem_of_cons, ?elem_of_nil; naive_solver.
Qed.

(** A slot whose status is not spelled ["Booked"] gets the colours of a free
    slot, no booking lines and no footer, whatever else it holds. *)
Lemma card_not_Booked st index sl :
  status sl ≠ "Booked" →
  card_footers st index sl = [] ∧ card_background sl = "#f6ffed" ∧
  status_color sl = "#73d13d" ∧ card_booking sl = None.
Proof.
  intros H.
  unfold card_footers, card_background, status_color, card_booking, showAnalyzeButton.
  rewrite !bool_decide_eq_false_2 by done.
  by rewrite !andb_false_r.
Qed.

(** C35: The three tests of the footers exclude each other: a card ends with
    the button, with one note, or with nothing. *)
Lemma card_footers_at_most_one st index sl :
  length (card_footers st index sl) ≤ 1.
Proof.
  unfold card_footers, showAnalyzeButton.
  destruct (isExpanded st index), (bool_decide (status sl = "Booked")),
    (is_past sl), (truthy_str (session_id sl)); simpl; lia.
Qed.

(** An expanded booking always ends with a footer. *)
Lemma card_footers_booking st index sl :
  isExpanded st index = true → status sl = "Booked" →
  length (card_footers st index sl) = 1.
Proof.
  unfold card_footers, showAnalyzeButton. intros -> Hs.
  rewrite !bool_decide_eq_true_2 by done.
  by destruct (is_past sl), (truthy_str (session_id sl)).
Qed.

(** Every card the callback returns is coherent. *)
Lemma card_view_of_wf st index sl : card_wf (card_view_of st index sl).
Proof.
  split_and!; simpl.
  - apply card_title_nonempty.
  - destruct (isExpanded st index) eqn:He;
      [|by rewrite (proj1 (card_collapsed st index sl He))].
    destruct (decide (status sl = "Booked")) as [Hs|Hs];
      [|by rewrite (proj1 (card_not_Booked st index sl Hs))].
    intros _. unfold card_border. rewrite He. split; [done|].
    by apply card_booking_Some.
  - unfold card_booking, card_background, status_color. by case_bool_decide.
Qed.

Lemma mockData_status sl :
  sl ∈ all_slots mockData → status sl = "booked" ∨ status sl = "available".
Proof.
  intros H. assert (Forall (λ sl, status sl = "booked" ∨ status sl = "available")
                      (all_slots mockData)) as Hall by (repeat constructor; auto).
  by rewrite Forall_forall in Hall; apply Hall.
Qed.

End cards.

(** ** The page as a whole *)

Section page.
Implicit Types (st : state) (sl : slot).

(** C32: The cards are the slots of the selected court, each once. *)
Lemma cards_Permutation st c :
  selectedCourtData (courts st) (selectedCourtKey st) = Some c →
  cards st ≡ₚ time_slots c.
Proof. unfold cards. intros ->. apply sort_slots_Permutation. Qed.

(** C31: The cards of the page come in the order of the comparator, whatever
    the slots hold: a card is never after a later one, and of two cards
    with start hours the earlier has the smaller hour. *)
Lemma cards_sorted st i j a b :
  cards st !! i = Some a → cards st !! j = Some b → i < j →
  compare_slots a b ≠ Gt ∧
  ∀ h k : Z, startHour a = Some h → startHour b = Some k → (h ≤ k)%Z.
Proof.
  intros Hi Hj Hij.
  assert (hours_sorted (cards st)) as Hs.
  { unfold cards. case_match; [apply sort_slots_sorted|constructor]. }
  pose proof (StronglySorted_lookup _ _ i j a b Hs Hi Hj Hij) as Hab.
  split; [done|]. intros h k Hh Hk. by apply (not_after_hours a b h k).
Qed.

(** The sort is stable on the page: the cards of one start hour, and the
    cards without one, are in the order of the listing. *)
Lemma cards_stable st c (o : option Z) :
  selectedCourtData (courts st) (selectedCourtKey st) = Some c →
  filter (λ sl, startHour sl = o) (cards st) =
  filter (λ sl, startHour sl = o) (time_slots c).
Proof. unfold cards. intros ->. apply sort_slots_stable. Qed.

(** The page offers the button only for a slot with a usable session id:
    the handler's own test for a missing id never fires from the page. *)
Lemma analyze_button_has_session st index sl loading text :
  AnalyzeButton loading text ∈ card_footers st index sl →
  truthy_str (session_id sl) = true.
Proof.
  intros (_ & Hb & _)%elem_of_card_footers_button.
  apply showAnalyzeButton_true in Hb as (_ & _ & Hs). by apply truthy_str_Some.
Qed.

(** C26: The mock listing spells the status of its bookings ["booked"], the
    page tests for ["Booked"]: a card of the mock listing has the colours
    of a free slot, hides who booked it and at what cost, and offers no
    analysis. *)
Lemma mockData_never_offers_analysis st index sl :
  courts st = mockData → sl ∈ cards st →
  card_footers st index sl = [] ∧ card_background sl = "#f6ffed" ∧
  status_color sl = "#73d13d" ∧ card_booking sl = None.
Proof.
  intros Hc Hsl%elem_of_cards. rewrite Hc in Hsl.
  apply card_not_Booked. by destruct (mockData_status sl Hsl) as [-> | ->].
Qed.

End page.

(** ** The theorems on concrete pages

    The cards of the first court once [fetchCourts] has stored the mock
    listing, and a past booking whose status is spelled ["Booked"]. *)

Lemma cards_Permutation_witness :
  cards (apply_update (SetCourts mockData) (initial_state 0)) ≡ₚ
  [slot_c1_9am; slot_c1_10am;
   Slot "slot_c1_11am" "11:00" "booked" (Some "sess_def_mock_court1_11am")
        false (Some "Alice King") (Some 10%Z) (Some 11%Z);
   Slot "slot_c1_12pm" "12:00" "available" None false None None None;
   Slot "slot_c1_8am" "08:00" "available" None false None None None].
Proof.
  apply (cards_Permutation (apply_update (SetCourts mockData) (initial_state 0))
           (Court "court_1" "Court 1" _)).
  by vm_compute.
Defined.

Lemma cards_sorted_witness :
  compare_slots slot_c1_9am slot_c1_10am ≠ Gt ∧
  ∀ h k : Z, startHour slot_c1_9am = Some h → startHour slot_c1_10am = Some k →
             (h ≤ k)%Z.
Proof.
  apply (cards_sorted (apply_update (SetCourts mockData) (initial_state 0))
           0 1 slot_c1_9am slot_c1_10am); [by vm_compute..|lia].
Defined.

Lemma analyze_button_has_session_witness :
  truthy_str (session_id (Slot "slot_1" "09:00" "Booked" (Some "sess_1") true
                            (Some "John Doe") (Some 10%Z) (Some 9%Z))) = true.
Proof.
  apply (analyze_button_has_session
           (apply_update (SetExpandedSlotIndex (Some 0)) (initial_state 0)) 0
           (Slot "slot_1" "09:00" "Booked" (Some "sess_1") true
              (Some "John Doe") (Some 10%Z) (Some 9%Z))
           false "Analyze Booking").
  apply (bool_decide_unpack _). by vm_compute.
Defined.

Lemma mockData_never_offers_analysis_witness :
  card_footers
    (apply_updates [SetCourts mockData; SetExpandedSlotIndex (Some 0)] (initial_state 0))
    0 slot_c1_9am = [] ∧
  card_background slot_c1_9am = "#f6ffed" ∧
  status_color slot_c1_9am = "#73d13d" ∧ card_booking slot_c1_9am = None.
Proof.
  apply (mockData_never_offers_analysis
           (apply_updates [SetCourts mockData; SetExpandedSlotIndex (Some 0)]
              (initial_state 0)) 0 slot_c1_9am);
    [by vm_compute|].
  apply (bool_decide_unpack _). by vm_compute.
Defined.

Lemma cards_stable_witness :
  filter (λ sl, startHour sl = None)
    (cards (apply_update (SetCourts mockData) (initial_state 0))) =
  [Slot "slot_c1_12pm" "12:00" "available" None false None None None;
   Slot "slot_c1_8am" "08:00" "available" None false None None None].
Proof.
  apply (cards_stable (apply_update (SetCourts mockData) (initial_state 0))
           court_1 None).
  by vm_compute.
Defined.
