(* ===== verification/Drawer.v ===== *)
(** * The analysis drawer

    The [Drawer] of the page: whether it is open and which of its four
    contents it shows, in the order of the tests of the JSX: the spinner
    while [analysisLoading], the failure when [analysisError] is truthy,
    the results when [analysisData] is truthy, the placeholder
    otherwise.

    Three children of these contents are values of the state:
    [{analysisError}], [{analysisSessionId}] and
    [{analysisData.total_shots}].  What React makes of a value used as a
    child is the one rule of React the model uses ([child_text]);
    [drawer_texts] is what is mounted of the drawer, or the exception
    that unmounts the page. *)

From S2P Require Import Prelude JsValue Courts State.

(** What the drawer shows. *)
Inductive drawer_content : Type :=
| DrawerLoading
| DrawerFailed (message : jsval)
| DrawerResults (session : option string) (total_shots : jsval)
    (heatmap : option (jsval * jsval))
| DrawerPlaceholder.

(** The drawer's conditional, in the order of its tests. *)
Definition drawer_content_of (st : state) : drawer_content :=
  if analysisLoading st then DrawerLoading
  else if truthy (analysisError st) then DrawerFailed (analysisError st)
  else if truthy (analysisData st) then
    DrawerResults (analysisSessionId st)
      (get_opt (analysisData st) "total_shots")
      (if truthy (js_and (get_opt (analysisData st) "heatmap_data")
                         (get_opt (analysisData st) "video_dimensions"))
       then Some (get_opt (analysisData st) "heatmap_data",
                  get_opt (analysisData st) "video_dimensions")
       else None)
  else DrawerPlaceholder.

(** What is on screen of the drawer: nothing when it is closed. *)
Definition drawer (st : state) : option drawer_content :=
  if analysisDrawerOpen st then Some (drawer_content_of st) else None.

(** ** What React mounts of the drawer

    The contents of the drawer hand three values of the state to React
    as children: [{analysisError}], [{analysisSessionId}] and
    [{analysisData.total_shots}].  React renders a string or a number as
    text, [null], [undefined] and booleans as nothing, an array as its
    elements, and throws for a plain object. *)

(** The error React throws for a plain object used as a child. *)
Definition invalid_child (fields : list (string * jsval)) : jsval :=
  JObj [("name", JStr "Error");
        ("message",
         JStr ("Objects are not valid as a React child (found: object with keys {"
               +:+ String.concat ", " (fields.*1) +:+
               "}). If you meant to render a collection of children, " +:+
               "use an array instead."))].

(** The text a child renders to, or what React throws. *)
Fixpoint child_text (v : jsval) : string + jsval :=
  match v with
  | JUndefined | JNull | JBool _ => inl ""
  | JNum _ | JNaN | JStr _ => inl (to_string v)
  | JArr elems =>
      (fix texts (l : list jsval) : string + jsval :=
         match l with
         | [] => inl ""
         | x :: l' =>
             match child_text x, texts l' with
             | inl s, inl s' => inl (s +:+ s')
             | inr e, _ => inr e
             | inl _, inr e => inr e
             end
         end) elems
  | JObj fields => inr (invalid_child fields)
  end.

(** A value React can render: no plain object in it. *)
Fixpoint renderable (v : jsval) : bool :=
  match v with
  | JArr elems => forallb renderable elems
  | JObj _ => false
  | _ => true
  end.

(** The children of a content that come from the state, in the order of
    the JSX. *)
Definition drawer_children (c : drawer_content) : list jsval :=
  match c with
  | DrawerFailed message => [message]
  | DrawerResults session total_shots _ =>
      [from_option JStr JNull session; total_shots]
  | DrawerLoading | DrawerPlaceholder => []
  end.

(** The texts of a list of children, or what the first child that is not
    valid makes React throw. *)
Fixpoint children_texts (l : list jsval) : list string + jsval :=
  match l with
  | [] => inl []
  | x :: l' =>
      match child_text x, children_texts l' with
      | inl s, inl ss => inl (s :: ss)
      | inr e, _ => inr e
      | inl _, inr e => inr e
      end
  end.

(** What React mounts of the drawer of a state: the texts of its
    children, none when it is closed, or the exception. *)
Definition drawer_texts (st : state) : list string + jsval :=
  match drawer st with
  | Some c => children_texts (drawer_children c)
  | None => inl []
  end.

(** ** The drawer *)

Section drawer.
Implicit Types (st : state).

(** The spinner has priority over everything: it is shown exactly when
    the loading flag is up. *)
Lemma drawer_content_loading st :
  drawer_content_of st = DrawerLoading ↔ analysisLoading st = true.
Proof. unfold drawer_content_of. repeat case_match; naive_solver. Qed.

(** The failure is shown exactly when nothing is loading and there is an
    error, whatever the results hold; the message shown is the error. *)
Lemma drawer_content_failed st message :
  drawer_content_of st = DrawerFailed message ↔
  analysisLoading st = false ∧ truthy (analysisError st) = true ∧
  message = analysisError st.
Proof. unfold drawer_content_of. repeat case_match; naive_solver. Qed.

(** The placeholder is what is left: nothing loading, no error and no
    results. *)
Lemma drawer_content_placeholder st :
  drawer_content_of st = DrawerPlaceholder ↔
  analysisLoading st = false ∧ truthy (analysisError st) = false ∧
  truthy (analysisData st) = false.
Proof. unfold drawer_content_of. repeat case_match; naive_solver. Qed.

Lemma drawer_content_results st session total_shots heatmap :
  drawer_content_of st = DrawerResults session total_shots heatmap →
  analysisLoading st = false ∧ truthy (analysisError st) = false ∧
  truthy (analysisData st) = true ∧ session = analysisSessionId st ∧
  total_shots = get_opt (analysisData st) "total_shots".
Proof. unfold drawer_content_of. repeat case_match; naive_solver. Qed.

(** The heat map is drawn only when both the positions and the frame
    dimensions are there. *)
Lemma drawer_heatmap st session total_shots positions dimensions :
  drawer_content_of st = DrawerResults session total_shots (Some (positions, dimensions)) →
  truthy positions = true ∧ truthy dimensions = true.
Proof.
  unfold drawer_content_of. intros H. repeat case_match; simplify_eq.
  match goal with H : truthy (js_and _ _) = true |- _ =>
    rewrite truthy_js_and in H; by apply andb_true_iff in H end.
Qed.

(** With a proper error stored, the failure is shown exactly when there
    is an error and nothing is loading. *)
Lemma drawer_failed_error_ok st :
  error_ok st →
  drawer_content_of st = DrawerFailed (analysisError st) ↔
  analysisLoading st = false ∧ analysisError st ≠ JNull.
Proof.
  intros Hst. rewrite drawer_content_failed, (error_ok_truthy st Hst).
  naive_solver.
Qed.

(** A closed drawer shows nothing, whatever the state holds. *)
Lemma drawer_closed st : analysisDrawerOpen st = false → drawer st = None.
Proof. unfold drawer. by intros ->. Qed.

End drawer.

(** ** Mounting the drawer *)

Section mount.
Implicit Types (st : state) (v : jsval) (l : list jsval).

Lemma child_text_JArr_cons x l :
  child_text (JArr (x :: l)) =
  match child_text x, child_text (JArr l) with
  | inl s, inl s' => inl (s +:+ s')
  | inr e, _ => inr e
  | inl _, inr e => inr e
  end.
Proof. reflexivity. Qed.

(** React throws for nothing but a plain object. *)
Lemma child_text_inr v e :
  child_text v = inr e → ∃ fields, e = invalid_child fields.
Proof.
  revert e. induction v as [| | | | | |elems IH|fields _] using jsval_ind_nested;
    intros e; try done; [|intros [= <-]; by eexists].
  induction IH as [|x l Hx _ IHl]; [done|]. rewrite child_text_JArr_cons.
  destruct (child_text x) as [s|e'] eqn:Ex; [|intros [= <-]; by apply Hx].
  destruct (child_text (JArr l)) as [s'|e'] eqn:El; [done|].
  intros [= <-]. by apply IHl.
Qed.

(** A child renders to a text exactly when no plain object is in it. *)
Lemma child_text_renderable v :
  renderable v = true ↔ ∃ s, child_text v = inl s.
Proof.
  induction v as [| | | | | |elems IH|fields _] using jsval_ind_nested;
    try (split; [by eexists|done]); [|split; [done|by intros [s ?]]].
  induction IH as [|x l Hx _ IHl]; [split; [by eexists|done]|].
  rewrite child_text_JArr_cons. change (renderable (JArr (x :: l)))
    with (renderable x && renderable (JArr l)).
  rewrite andb_true_iff, Hx, IHl.
  destruct (child_text x), (child_text (JArr l)); naive_solver.
Qed.

Lemma children_texts_inl l :
  (∃ ss, children_texts l = inl ss) ↔ Forall (λ v, renderable v = true) l.
Proof.
  induction l as [|x l IH]; simpl; [split; [constructor|by eexists]|].
  rewrite Forall_cons, <- IH, child_text_renderable.
  destruct (child_text x), (children_texts l); naive_solver.
Qed.

Lemma children_texts_inr l e :
  children_texts l = inr e → ∃ fields, e = invalid_child fields.
Proof.
  induction l as [|x l IH]; simpl; [done|].
  destruct (child_text x) as [s|e'] eqn:Ex;
    [|intros [= <-]; by eapply child_text_inr].
  destruct (children_texts l); [done|]. intros [= <-]. by apply IH.
Qed.

(** A closed drawer mounts nothing. *)
Lemma drawer_texts_closed st :
  analysisDrawerOpen st = false → drawer_texts st = inl [].
Proof. intros H. unfold drawer_texts. by rewrite drawer_closed. Qed.

(** The failure mounts as the text of the stored error. *)
Lemma drawer_texts_failed st message :
  drawer st = Some (DrawerFailed message) →
  drawer_texts st =
  match child_text message with
  | inl s => inl [s]
  | inr e => inr e
  end.
Proof.
  intros H. unfold drawer_texts. rewrite H. simpl. by destruct (child_text message).
Qed.

End mount.

(** C21: Mounting the drawer throws exactly when the drawer is open, nothing
    is loading, and the child of the content shown is not valid: the
    stored error when there is one, the [total_shots] of the results
    otherwise.  What is thrown is React's error for an object used as a
    child. *)
Theorem drawer_texts_throws st :
  (∃ e, drawer_texts st = inr e) ↔
  analysisDrawerOpen st = true ∧ analysisLoading st = false ∧
  if truthy (analysisError st) then renderable (analysisError st) = false
  else truthy (analysisData st) = true ∧
       renderable (get_opt (analysisData st) "total_shots") = false.
Proof.
  unfold drawer_texts, drawer, drawer_content_of.
  destruct (analysisDrawerOpen st); [|naive_solver].
  destruct (analysisLoading st); [naive_solver|].
  destruct (truthy (analysisError st)); [|destruct (truthy (analysisData st))];
    simpl; [| |naive_solver].
  - pose proof (child_text_renderable (analysisError st)) as Hr.
    destruct (child_text (analysisError st)), (renderable (analysisError st));
      naive_solver.
  - pose proof (child_text_renderable (get_opt (analysisData st) "total_shots")) as Hr.
    destruct (analysisSessionId st); simpl;
      destruct (child_text (get_opt _ _)), (renderable (get_opt _ _));
      naive_solver.
Qed.

(** ** The theorems on a drawer with results *)

Lemma drawer_heatmap_witness :
  truthy (JArr [JObj [("x", JNum 10); ("y", JNum 20); ("conf", JNum 1)]]) = true ∧
  truthy (JObj [("width", JNum 640); ("height", JNum 360)]) = true.
Proof.
  apply (drawer_heatmap
           (apply_update
              (SetAnalysisData
                 (JObj [("total_shots", JNum 5);
                        ("heatmap_data",
                         JArr [JObj [("x", JNum 10); ("y", JNum 20); ("conf", JNum 1)]]);
                        ("video_dimensions",
                         JObj [("width", JNum 640); ("height", JNum 360)])]))
              (initial_state 0))
           None (JNum 5)).
  by vm_compute.
Defined.

Lemma drawer_texts_throws_witness :
  let st := apply_updates
              [SetAnalysisDrawerOpen true;
               SetAnalysisError (JObj [("code", JNum 5); ("reason", JStr "busy")])]
              (initial_state 0) in
  drawer_texts st =
  inr (invalid_child [("code", JNum 5); ("reason", JStr "busy")]) ∧
  renderable (analysisError st) = false.
Proof.
  intros st. split; [reflexivity|].
  by destruct (proj1 (drawer_texts_throws st) ltac:(by eexists)) as (_ & _ & H).
Defined.
