(* ===== verification/Page.v ===== *)
(** * The page

    What one render of [AdminDashboard] returns and what it leaves behind:
    the tab bar, the cards of the selected court or the placeholder, and
    the drawer.  The render evaluates the children of the JSX in order;
    [sort] has rewritten the slots of the selected court by the time the
    callback of [map] runs, and when a callback throws the render throws
    and there is no page.

    The theorems: which page a state renders to; that the render throws
    exactly when the selected court has a slot without a start hour, which
    is the case of both courts of the mock listing; that cards have
    distinct keys when slots have distinct ids; that one card at most is
    framed; that the in-place sort does not show on the next render; that
    the page does not depend on the engine's sorting algorithm; in which
    states mounting the page throws ([mount]). *)

From S2P Require Import Prelude JsValue Courts State Sorting SortSpec Cards Drawer.

(** [l.map((slot, index) => ...)] from [index] on: the cards, or what the
    first callback that throws throws. *)
Fixpoint map_cards (st : state) (now : Z) (index : nat) (l : list slot)
    : list card_view + jsval :=
  match l with
  | [] => inl []
  | sl :: l' =>
      match card_of st now index sl with
      | inl v =>
          match map_cards st now (S index) l' with
          | inl vs => inl (v :: vs)
          | inr e => inr e
          end
      | inr e => inr e
      end
  end.

(** The tab bar: one tab per court, its name as key and as label. *)
Definition tabs (st : state) : list string := name <$> courts st.

(** Under the tab bar: the cards of the selected court, or a text. *)
Inductive court_view : Type :=
| CourtCards (cs : list card_view)
| NoCourt (text : string).

Definition court_view_of (st : state) (now : Z) : court_view + jsval :=
  match selectedCourtData (courts st) (selectedCourtKey st) with
  | Some _ =>
      match map_cards st now 0 (cards st) with
      | inl vs => inl (CourtCards vs)
      | inr e => inr e
      end
  | None => inl (NoCourt "Select a court or no data available.")
  end.

Record page : Type := Page {
  page_tabs : list string;
  page_activeKey : string;
  page_court : court_view;
  page_drawer : option drawer_content
}.

(** One render at time [now]: the array of courts as the in-place sort
    leaves it, and the page or the exception. *)
Definition render (st : state) (now : Z) : list court * (page + jsval) :=
  (render_courts (courts st) (selectedCourtKey st),
   match court_view_of st now with
   | inl v => inl (Page (tabs st) (selectedCourtKey st) v (drawer st))
   | inr e => inr e
   end).

(** The state the next render reads: the hooks, with the array of courts
    as this render left it. *)
Definition rendered_state (st : state) (now : Z) : state :=
  apply_update (SetCourts (render st now).1) st.

(** The render of the state returns a page: no callback of [map] throws. *)
Definition renders (st : state) : Prop := Forall has_hour (cards st).

#[export] Instance renders_dec st : Decision (renders st).
Proof. unfold renders. apply _. Defined.

(** A render and what React mounts of it: the page and the texts of the
    drawer's children, or the exception that takes the page down, thrown
    by the render or by React. *)
Definition mount (st : state) (now : Z) : page * list string + jsval :=
  match (render st now).2 with
  | inl pg =>
      match drawer_texts st with
      | inl texts => inl (pg, texts)
      | inr e => inr e
      end
  | inr e => inr e
  end.

(** ** The cards of a listing *)

Section map_cards.
Implicit Types (st : state) (sl : slot) (l : list slot).

(** When every slot has a start hour there is a card for each, with its
    position as index. *)
Lemma map_cards_has_hour st now index l :
  Forall has_hour l →
  map_cards st now index l = inl (imap (λ i, card_view_of st (index + i)) l).
Proof.
  intros Hl. revert index.
  induction Hl as [|sl l Hsl _ IH]; intros index; simpl; [done|].
  rewrite card_of_has_hour, IH, Nat.add_0_r by done. do 2 f_equal.
  apply imap_ext. intros i x _. simpl. f_equal. lia.
Qed.

(** A slot without a start hour makes the callback throw, and with it the
    whole [map]. *)
Lemma map_cards_no_hour st now index l sl :
  sl ∈ l → startHour sl = None →
  map_cards st now index l = inr (not_a_function "dayjs(...).hour(...).minute").
Proof.
  intros Hsl Hn. revert index.
  induction Hsl as [sl l|sl sl' l _ IH]; intros index; simpl.
  - by rewrite card_of_no_hour.
  - destruct (startHour sl') as [h|] eqn:Hh.
    + rewrite card_of_has_hour by (by eexists). by rewrite IH.
    + by rewrite card_of_no_hour.
Qed.

(** The slots of the listing and the cards have the same start hours. *)
Lemma cards_has_hour st c :
  selectedCourtData (courts st) (selectedCourtKey st) = Some c →
  Forall has_hour (cards st) ↔ Forall has_hour (time_slots c).
Proof. unfold cards. intros ->. by rewrite sort_slots_Permutation. Qed.

Lemma court_view_of_has_hour st now c :
  selectedCourtData (courts st) (selectedCourtKey st) = Some c →
  Forall has_hour (time_slots c) →
  court_view_of st now = inl (CourtCards (imap (card_view_of st) (cards st))).
Proof.
  intros Hc Hl. unfold court_view_of. rewrite Hc.
  by rewrite map_cards_has_hour by (by eapply cards_has_hour).
Qed.

Lemma court_view_of_no_hour st now c sl :
  selectedCourtData (courts st) (selectedCourtKey st) = Some c →
  sl ∈ time_slots c → startHour sl = None →
  court_view_of st now = inr (not_a_function "dayjs(...).hour(...).minute").
Proof.
  intros Hc Hsl Hn. unfold court_view_of. rewrite Hc.
  rewrite (map_cards_no_hour st now 0 (cards st) sl); [done| |done].
  unfold cards. rewrite Hc. by apply elem_of_sort_slots.
Qed.

(** A page with cards comes from a court whose slots all have a start
    hour. *)
Lemma court_view_of_cards st now cs :
  court_view_of st now = inl (CourtCards cs) →
  cs = imap (card_view_of st) (cards st) ∧ Forall has_hour (cards st).
Proof.
  unfold court_view_of.
  destruct (selectedCourtData _ _) as [c|] eqn:Hc; [|done].
  destruct (decide (Forall has_hour (cards st))) as [Hl|Hl].
  - rewrite map_cards_has_hour by done. naive_solver.
  - apply not_Forall_Exists in Hl; [|apply _].
    apply Exists_exists in Hl as (sl & Hsl & Hn).
    rewrite (map_cards_no_hour st now 0 _ sl); [done..|].
    by apply eq_None_not_Some.
Qed.

End map_cards.

(** ** One render *)

Section render.
Implicit Types (st : state) (sl : slot) (pg : page).

Lemma render_inl st now pg :
  (render st now).2 = inl pg →
  court_view_of st now = inl (page_court pg) ∧ page_tabs pg = tabs st ∧
  page_activeKey pg = selectedCourtKey st ∧ page_drawer pg = drawer st.
Proof.
  unfold render. simpl. destruct (court_view_of st now); [|done].
  by intros [= <-].
Qed.

(** The cards of a page are those of the sorted slots, each with its
    position. *)
Lemma render_cards st now pg cs :
  (render st now).2 = inl pg → page_court pg = CourtCards cs →
  cs = imap (card_view_of st) (cards st).
Proof.
  intros (Hv & _)%render_inl Hcs. rewrite Hcs in Hv.
  by apply court_view_of_cards in Hv as [-> _].
Qed.

(** Neither the courts a setter stored nor the clock show on a card. *)
Lemma map_cards_frame st cs now now' index l :
  map_cards (apply_update (SetCourts cs) st) now index l =
  map_cards st now' index l.
Proof.
  revert index. induction l as [|sl l IH]; intros index; simpl; [done|].
  rewrite IH. unfold card_of, isElapsed. by destruct (startHour sl).
Qed.

(** The cards of the next render are those of this one. *)
Lemma cards_render st :
  cards (apply_update (SetCourts (render_courts (courts st) (selectedCourtKey st))) st) =
  cards st.
Proof.
  unfold cards. simpl. rewrite selectedCourtData_render.
  destruct (selectedCourtData _ _) as [c|]; simpl; [|done].
  apply sort_slots_idempotent.
Qed.

(** A state renders to a page exactly when the cards all have a start
    hour. *)
Lemma renders_render st now : renders st ↔ ∃ pg, (render st now).2 = inl pg.
Proof.
  unfold renders. split.
  - intros Hl. unfold render, court_view_of. simpl.
    rewrite map_cards_has_hour by done. destruct (selectedCourtData _ _); eauto.
  - intros [pg (Hv & _)%render_inl].
    destruct (page_court pg) as [cs|text] eqn:Hpg.
    + by apply court_view_of_cards in Hv as [_ ?].
    + unfold court_view_of, cards in *.
      destruct (selectedCourtData _ _); [|constructor].
      by destruct (map_cards _ _ _ _).
Qed.

(** Otherwise the render throws, and what it throws is the [TypeError]
    of the first card without a start hour. *)
Lemma render_not_renders st now :
  ¬ renders st →
  (render st now).2 = inr (not_a_function "dayjs(...).hour(...).minute").
Proof.
  intros Hn. apply not_Forall_Exists in Hn; [|apply _].
  apply Exists_exists in Hn as (sl & Hsl & Hh%eq_None_not_Some).
  unfold render, court_view_of. simpl.
  destruct (selectedCourtData _ _) as [c|] eqn:Hc;
    [|unfold cards in Hsl; rewrite Hc in Hsl; by apply elem_of_nil in Hsl].
  by rewrite (map_cards_no_hour st now 0 _ sl).
Qed.

(** What is under the tab bar is the same on the next render. *)
Lemma court_view_of_rendered st now now' :
  court_view_of (rendered_state st now) now' = court_view_of st now.
Proof.
  unfold court_view_of, rendered_state.
  change (render st now).1 with (render_courts (courts st) (selectedCourtKey st)).
  rewrite cards_render, (map_cards_frame st _ now' now).
  cbn [courts selectedCourtKey apply_update].
  rewrite selectedCourtData_render. by destruct (selectedCourtData _ _).
Qed.

End render.

(** ** The page of a state *)

(** C23: When the selected court exists and each of its slots has a start
    hour, the render returns the page: a tab per court, the selected key,
    a card per slot in sorted order with its position as index, and the
    drawer. *)
Theorem render_page st now c :
  selectedCourtData (courts st) (selectedCourtKey st) = Some c →
  Forall has_hour (time_slots c) →
  (render st now).2 =
  inl (Page (tabs st) (selectedCourtKey st)
         (CourtCards (imap (card_view_of st) (cards st))) (drawer st)).
Proof.
  intros Hc Hl. unfold render. simpl.
  by rewrite (court_view_of_has_hour st now c).
Qed.

(** C24: A slot without a start hour in the selected court makes the render
    throw: [dayjs]'s [hour] reads instead of writing when its argument is
    [undefined], and [.minute] of the number it returns is not a
    function.  No page is shown. *)
Theorem render_throws st now c sl :
  selectedCourtData (courts st) (selectedCourtKey st) = Some c →
  sl ∈ time_slots c → startHour sl = None →
  (render st now).2 = inr (not_a_function "dayjs(...).hour(...).minute").
Proof.
  intros Hc Hsl Hn. unfold render. simpl.
  by rewrite (court_view_of_no_hour st now c sl).
Qed.

(** C13: Both courts of the mock listing have an available slot, and the
    available slots of the listing have no start hour: once [fetchCourts]
    has stored the listing, the render throws whichever tab of [COURTS]
    is selected. *)
Theorem mockData_render_throws st now :
  courts st = mockData → selectedCourtKey st ∈ COURTS →
  (render st now).2 = inr (not_a_function "dayjs(...).hour(...).minute").
Proof.
  intros Hc Hk. unfold render. simpl.
  assert (∃ c sl, selectedCourtData mockData (selectedCourtKey st) = Some c ∧
                  sl ∈ time_slots c ∧ startHour sl = None) as (c & sl & H1 & H2 & H3).
  { unfold COURTS in Hk. rewrite !elem_of_cons, elem_of_nil in Hk.
    destruct Hk as [->|[->|[]]].
    - exists court_1, (Slot "slot_c1_12pm" "12:00" "available" None false None None None).
      split_and!; [done|set_solver|done].
    - exists court_2, (Slot "slot_c2_10am" "10:00" "available" None false None None None).
      split_and!; [done|set_solver|done]. }
  rewrite <- Hc in H1. by rewrite (court_view_of_no_hour st now c sl).
Qed.

(** When no court has the selected name, as before the listing is
    loaded, the page shows the tabs and the placeholder text, and the
    render leaves the courts as they are. *)
Theorem render_no_court st now :
  (∀ c, c ∈ courts st → name c ≠ selectedCourtKey st) →
  render st now =
  (courts st,
   inl (Page (tabs st) (selectedCourtKey st)
          (NoCourt "Select a court or no data available.") (drawer st))).
Proof.
  intros Hc%selectedCourtData_None.
  unfold render, court_view_of, render_courts. rewrite Hc.
  unfold selectedCourtData in Hc.
  by destruct (list_find _ (courts st)) as [[i c]|].
Qed.

(** C36: The cards of a page have distinct React keys when the slots of the
    court have distinct ids. *)
Theorem render_keys_NoDup st now pg cs c :
  (render st now).2 = inl pg → page_court pg = CourtCards cs →
  selectedCourtData (courts st) (selectedCourtKey st) = Some c →
  NoDup (slot_id <$> time_slots c) →
  NoDup (view_key <$> cs).
Proof.
  intros Hr Hcs Hc Hnd. rewrite (render_cards st now pg cs Hr Hcs).
  rewrite fmap_imap. unfold cards. rewrite Hc.
  rewrite (imap_ext _ (const slot_id)) by done.
  by rewrite imap_const, sort_slots_Permutation.
Qed.

(** At most one card of a page is framed: two cards with a border are
    the same card. *)
Theorem render_one_border st now pg cs i j v v' :
  (render st now).2 = inl pg → page_court pg = CourtCards cs →
  cs !! i = Some v → cs !! j = Some v' →
  is_Some (view_border v) → is_Some (view_border v') → i = j.
Proof.
  intros Hr Hcs Hi Hj Hv Hv'. rewrite (render_cards st now pg cs Hr Hcs) in Hi, Hj.
  apply list_lookup_imap_Some in Hi as (sl & _ & ->).
  apply list_lookup_imap_Some in Hj as (sl' & _ & ->).
  apply (isExpanded_unique st); simpl in Hv, Hv'; unfold card_border in Hv, Hv'.
  - by destruct (isExpanded st i); [|destruct Hv].
  - by destruct (isExpanded st j); [|destruct Hv'].
Qed.

(** C34: Every card of every page is coherent: it has a title, it shows
    the colours, the status and the booking lines of a booking or those of
    a free slot, and it has a footer only when it is a framed booking. *)
Theorem render_cards_wf st now pg cs :
  (render st now).2 = inl pg → page_court pg = CourtCards cs → Forall card_wf cs.
Proof.
  intros Hr Hcs. rewrite (render_cards st now pg cs Hr Hcs).
  apply Forall_forall. intros v (i & sl & -> & _)%elem_of_lookup_imap.
  apply card_view_of_wf.
Qed.

(** C33: The in-place sort of a render does not show: the next render,
    which reads the array the sort wrote, returns the same page and leaves
    the same array, whatever the time. *)
Theorem render_again st now now' :
  render (rendered_state st now) now' = render st now.
Proof.
  unfold render. rewrite court_view_of_rendered. unfold rendered_state, tabs.
  cbn [render fst courts selectedCourtKey apply_update].
  by rewrite render_courts_idempotent, render_courts_names.
Qed.

(** C22: When the dashboard goes blank.  A render that is mounted throws in
    two cases and no other: a card of the selected court has no start
    hour, and the render throws the [TypeError] of [.minute]; or the page
    renders and React throws for a child of the drawer that is not
    valid. *)
Theorem mount_throws st now e :
  mount st now = inr e ↔
  (¬ renders st ∧ e = not_a_function "dayjs(...).hour(...).minute") ∨
  (renders st ∧ drawer_texts st = inr e).
Proof.
  unfold mount. destruct (decide (renders st)) as [Hr|Hn].
  - destruct (proj1 (renders_render st now) Hr) as [pg ->].
    destruct (drawer_texts st); naive_solver.
  - rewrite render_not_renders by done. naive_solver.
Qed.

(** C30: The page does not depend on the engine: whichever sort meets the
    contract of [Array.prototype.sort], the cards of a page are the cards
    of the slots of the selected court in the order of that sort. *)
Theorem render_any_sort (sort : list slot → list slot) `{!ArraySort sort}
    st now pg c :
  (render st now).2 = inl pg →
  selectedCourtData (courts st) (selectedCourtKey st) = Some c →
  page_court pg = CourtCards (imap (card_view_of st) (sort (time_slots c))).
Proof.
  intros (Hv & _)%render_inl Hc.
  destruct (page_court pg) as [cs|text].
  - apply court_view_of_cards in Hv as [-> Hl]. do 2 f_equal.
    unfold cards. rewrite Hc. apply (array_sort_unique _ _).
    by eapply consistent_on_hours, cards_has_hour.
  - unfold court_view_of in Hv. rewrite Hc in Hv.
    by destruct (map_cards _ _ _ _).
Qed.

(** ** The theorems on concrete pages

    A listing of one court whose two bookings have their start hours, with
    the first card expanded; the mock listing as [fetchCourts] stores it;
    the first render, before any listing is stored. *)

Lemma render_page_witness :
  let st := apply_updates
              [SetCourts [Court "court_1" "Court 1" [slot_c1_10am; slot_c1_9am]];
               SetExpandedSlotIndex (Some 0)] (initial_state 0) in
  (render st 0).2 =
  inl (Page (tabs st) (selectedCourtKey st)
         (CourtCards (imap (card_view_of st) (cards st))) (drawer st)).
Proof.
  apply (render_page _ 0 (Court "court_1" "Court 1" [slot_c1_10am; slot_c1_9am]));
    [by vm_compute|repeat constructor; by eexists].
Defined.

Lemma render_throws_witness :
  (render (apply_update (SetCourts mockData) (initial_state 0)) 0).2 =
  inr (not_a_function "dayjs(...).hour(...).minute").
Proof.
  apply (render_throws _ 0 court_1
           (Slot "slot_c1_12pm" "12:00" "available" None false None None None));
    [by vm_compute|set_solver|done].
Defined.

Lemma mockData_render_throws_witness :
  (render (apply_updates [SetCourts mockData; SetSelectedCourtKey "Court 2"]
             (initial_state 0)) 0).2 =
  inr (not_a_function "dayjs(...).hour(...).minute").
Proof.
  apply (mockData_render_throws
           (apply_updates [SetCourts mockData; SetSelectedCourtKey "Court 2"]
              (initial_state 0)) 0); [done|set_solver].
Defined.

Lemma render_no_court_witness :
  render (initial_state 0) 0 =
  ([], inl (Page [] "Court 1" (NoCourt "Select a court or no data available.") None)).
Proof. apply (render_no_court (initial_state 0) 0). by intros c ?%elem_of_nil. Defined.

Lemma render_keys_NoDup_witness :
  let st := apply_updates
              [SetCourts [Court "court_1" "Court 1" [slot_c1_10am; slot_c1_9am]];
               SetExpandedSlotIndex (Some 0)] (initial_state 0) in
  NoDup (view_key <$> imap (card_view_of st) (cards st)).
Proof.
  intros st.
  apply (render_keys_NoDup st 0
           (Page (tabs st) (selectedCourtKey st)
              (CourtCards (imap (card_view_of st) (cards st))) (drawer st))
           _ (Court "court_1" "Court 1" [slot_c1_10am; slot_c1_9am]));
    [by vm_compute..|].
  apply (bool_decide_unpack _). by vm_compute.
Defined.

Lemma render_one_border_witness : 0 = 0.
Proof.
  pose (st := apply_updates
                [SetCourts [Court "court_1" "Court 1" [slot_c1_10am; slot_c1_9am]];
                 SetExpandedSlotIndex (Some 0)] (initial_state 0)).
  apply (render_one_border st 0
           (Page (tabs st) (selectedCourtKey st)
              (CourtCards (imap (card_view_of st) (cards st))) (drawer st))
           (imap (card_view_of st) (cards st)) 0 0
           (card_view_of st 0 slot_c1_9am) (card_view_of st 0 slot_c1_9am));
    [by vm_compute..|by eexists|by eexists].
Defined.

Lemma render_cards_wf_witness :
  let st := apply_updates
              [SetCourts [Court "court_1" "Court 1" [slot_c1_10am; slot_c1_9am]];
               SetExpandedSlotIndex (Some 0)] (initial_state 0) in
  Forall card_wf (imap (card_view_of st) (cards st)).
Proof.
  intros st.
  apply (render_cards_wf st 0
           (Page (tabs st) (selectedCourtKey st)
              (CourtCards (imap (card_view_of st) (cards st))) (drawer st)));
    by vm_compute.
Defined.

Lemma render_any_sort_witness :
  let c := Court "court_1" "Court 1" [slot_c1_10am; slot_c1_9am] in
  let st := apply_updates [SetCourts [c]; SetExpandedSlotIndex (Some 0)]
              (initial_state 0) in
  CourtCards (imap (card_view_of st) (cards st)) =
  CourtCards (imap (card_view_of st) (sort_backward (time_slots c))).
Proof.
  intros c st.
  apply (render_any_sort sort_backward st 0
           (Page (tabs st) (selectedCourtKey st)
              (CourtCards (imap (card_view_of st) (cards st))) (drawer st)) c);
    by vm_compute.
Defined.

Lemma mount_throws_witness :
  mount (apply_update (SetCourts mockData) (initial_state 0)) 0 =
  inr (not_a_function "dayjs(...).hour(...).minute").
Proof.
  apply (mount_throws (apply_update (SetCourts mockData) (initial_state 0)) 0).
  left. split; [|done]. apply (bool_decide_unpack _). by vm_compute.
Defined.
