(* ===== verification/Workflow.v ===== *)
(** * The analysis of one session, from the click to the drawer

    One call of [handleAnalyzeBooking] followed to its end, with the
    answers of the backend as parameters: that it terminates, that the
    session is released on every path, which requests it sends and in
    which order, and what the drawer shows when it has ended.  The
    handler runs here on its own ([drive]); what other handlers do in
    between is the subject of the event loop.  The file ends with the two
    invariants that every handler keeps: the coherence of the display
    focus and of the stored error. *)

From S2P Require Import Prelude JsValue Courts State Async Backend World.
From S2P Require Import Handlers Drawer.

(** The world right after the click, when the analysis starts. *)
Definition started (sl : slot) (w : world) : world :=
  MkWorld (apply_updates (start_updates (session_id sl)) (w_state w))
    (w_log w ++ [ERequest (analyze_booking (session_id sl))]).

(** The click is accepted: the slot has a session id and the rendered
    state does not show it in flight. *)
Definition accepted (snap : state) (sl : slot) : Prop :=
  truthy_str (session_id sl) = true ∧
  analyzing snap (prop_key (session_id sl)) = false.

#[export] Instance accepted_dec snap sl : Decision (accepted snap sl).
Proof. unfold accepted. apply _. Defined.

(** Everything that can run between two events: the four handlers, and
    the two continuations of an analysis in flight. *)
Definition handlers (snap : state) (index : nat) (sl : slot) (s : settled)
    : list (handler unit) :=
  [fetchCourts; handleAnalyzeBooking snap sl; handleCardClick snap index sl;
   handleDrawerClose;
   after_trigger (session_id sl) s; after_fetch (session_id sl) s].

Section workflow.
Implicit Types (snap : state) (sl : slot) (w : world) (s : settled).

(** After an accepted click, the answers go to the continuation of the
    trigger. *)
Lemma drive_accepted snap sl w s answers :
  accepted snap sl →
  drive (s :: answers) (handleAnalyzeBooking snap sl) w =
  drive answers (after_trigger (session_id sl) s) (started sl w).
Proof.
  intros [H1 H2]. simpl. by rewrite handleAnalyzeBooking_starts.
Qed.

(** However the trigger settles, one more answer ends the handler, with
    the session settled since the click or since the fetch was sent. *)
Lemma drive_after_trigger sid s1 s2 w :
  let r := drive [s2] (after_trigger sid s1) w in
  settled_outcome r.2 ∧
  isAnalyzing (w_state r.1) = <[prop_key sid := false]> (isAnalyzing (w_state w)) ∧
  analysisLoading (w_state r.1) = false ∧
  (requests (w_log r.1) = requests (w_log w) ∨
   (requests (w_log r.1) = requests (w_log w) ++ [analysis_results sid] ∧
    ∃ v message, s1 = Fulfilled v ∧ triggerMessage v = inl message)).
Proof.
  cbv zeta. destruct (after_trigger_step sid s1 w) as [(Hv & Ho & Hst & Hrq)|[Hd Hs]].
  - simpl. destruct (run (after_trigger sid s1) w) as [w1 o]. simpl in *. subst o.
    destruct (after_fetch_settles sid s2 w1) as [(Ht & Hl & Hr) Hs].
    rewrite Ht, Hl, Hr, Hst, Hrq. rewrite settled_outcome_iff. auto 10.
  - apply settled_outcome_iff in Hs. rewrite drive_settled by done.
    destruct Hd as (? & ? & ?). auto.
Qed.

(** C1: The [finally] block runs on every path: once the click is accepted,
    whatever the backend answers, the session ends up marked as not in
    flight and the loading flag is down. *)
Lemma analysis_releases_session snap sl w s1 s2 :
  accepted snap sl →
  let w' := (drive [s1; s2] (handleAnalyzeBooking snap sl) w).1 in
  isAnalyzing (w_state w') !! prop_key (session_id sl) = Some false ∧
  analysisLoading (w_state w') = false.
Proof.
  intros Ha. cbv zeta. rewrite drive_accepted by done.
  destruct (drive_after_trigger (session_id sl) s1 s2 (started sl w))
    as (_ & -> & -> & _).
  by rewrite lookup_insert_eq.
Qed.

(** C3: The requests of an accepted click: the trigger, and then the fetch
    when and only when the trigger was fulfilled with a readable answer.
    A failed trigger is never followed by a fetch. *)
Lemma analysis_requests_in_order snap sl w s1 s2 :
  accepted snap sl →
  let sent := requests (w_log (drive [s1; s2] (handleAnalyzeBooking snap sl) w).1) in
  sent = requests (w_log w) ++ [analyze_booking (session_id sl)] ∨
  (sent = requests (w_log w) ++
          [analyze_booking (session_id sl); analysis_results (session_id sl)] ∧
   ∃ v message, s1 = Fulfilled v ∧ triggerMessage v = inl message).
Proof.
  intros Ha. cbv zeta. rewrite drive_accepted by done.
  destruct (drive_after_trigger (session_id sl) s1 s2 (started sl w))
    as (_ & _ & _ & [->|[-> Hv]]); [left|right; split; [|done]];
    simpl; rewrite requests_app; simpl; by rewrite <- ?app_assoc.
Qed.

(** A click that is not accepted returns at once, with a toast. *)
Lemma handleAnalyzeBooking_refused snap sl w :
  ¬ accepted snap sl →
  ∃ m : toast_kind * jsval,
    run (handleAnalyzeBooking snap sl) w =
    (MkWorld (w_state w) (w_log w ++ [EToast m.1 m.2]), Finished tt).
Proof.
  intros Hn. destruct (truthy_str (session_id sl)) eqn:H1.
  - destruct (analyzing snap (prop_key (session_id sl))) eqn:H2;
      [|by destruct Hn].
    eexists (_, _). by apply handleAnalyzeBooking_in_progress.
  - eexists (_, _). by apply handleAnalyzeBooking_missing_id.
Qed.

(** C2: A click that is not accepted sends nothing and leaves the state as it
    was: it only toasts. *)
Lemma analysis_refused snap sl w answers :
  ¬ accepted snap sl →
  let r := drive answers (handleAnalyzeBooking snap sl) w in
  w_state r.1 = w_state w ∧ requests (w_log r.1) = requests (w_log w) ∧
  r.2 = Finished tt ∧ length (toasts (w_log r.1)) = S (length (toasts (w_log w))).
Proof.
  intros Hn. cbv zeta.
  destruct (handleAnalyzeBooking_refused snap sl w Hn) as [m Hrun].
  rewrite drive_settled by (by rewrite Hrun). rewrite Hrun. simpl.
  rewrite requests_app, toasts_app, length_app. simpl.
  rewrite app_nil_r. repeat split; [done..|lia].
Qed.

(** C7: Success: with the trigger fulfilled and the results fetched, the open
    drawer shows the results under the id of the slot that was clicked. *)
Lemma analysis_success snap sl w v1 message v2 data :
  accepted snap sl →
  triggerMessage v1 = inl message →
  get_prop v2 "data" = inl data → truthy data = true →
  let st' := w_state (drive [Fulfilled v1; Fulfilled v2]
                        (handleAnalyzeBooking snap sl) w).1 in
  analysisData st' = data ∧
  ∃ heatmap,
    drawer st' = Some (DrawerResults (session_id sl)
                         (get_opt data "total_shots") heatmap).
Proof.
  intros Ha Hm Hd Ht. cbv zeta. rewrite drive_accepted by done. simpl.
  rewrite after_trigger_run_ok with (message := message) by done.
  rewrite after_fetch_run_ok with (data := data) by done.
  unfold drawer, drawer_content_of. simpl. rewrite Ht. eauto.
Qed.

(** C9: Failure of the trigger: the drawer shows the normalised message of
    what was thrown, and the results are never asked for. *)
Lemma analysis_trigger_failure snap sl w err s2 :
  accepted snap sl → nullish err = false →
  let w' := (drive [Rejected err; s2] (handleAnalyzeBooking snap sl) w).1 in
  ∃ message,
    errorMessage err = inl message ∧
    drawer (w_state w') = Some (DrawerFailed message) ∧
    requests (w_log w') = requests (w_log w) ++ [analyze_booking (session_id sl)].
Proof.
  intros Ha Hn. cbv zeta.
  destruct (errorMessage err) as [m|e] eqn:Hm; last first.
  { assert (nullish err = true) by (apply errorMessage_throws; eauto).
    congruence. }
  exists m. split; [done|].
  rewrite drive_accepted by done.
  rewrite drive_settled; rewrite after_trigger_rejected, fail_analysis_run, Hm;
    [|done].
  unfold drawer, drawer_content_of. simpl.
  rewrite (errorMessage_truthy err m Hm). split; [done|].
  by dash.
Qed.

(** C10: Failure of the fetch: the trigger went through, the results did not;
    the drawer shows the normalised message and both requests were sent. *)
Lemma analysis_fetch_failure snap sl w v1 message err :
  accepted snap sl → triggerMessage v1 = inl message → nullish err = false →
  let w' := (drive [Fulfilled v1; Rejected err]
               (handleAnalyzeBooking snap sl) w).1 in
  ∃ shown,
    errorMessage err = inl shown ∧
    drawer (w_state w') = Some (DrawerFailed shown) ∧
    analysisData (w_state w') = JNull.
Proof.
  intros Ha Hv Hn. cbv zeta.
  destruct (errorMessage err) as [m|e] eqn:Hm; last first.
  { assert (nullish err = true) by (apply errorMessage_throws; eauto).
    congruence. }
  exists m. split; [done|].
  rewrite drive_accepted by done. simpl.
  rewrite after_trigger_run_ok with (message := message) by done.
  rewrite after_fetch_rejected, fail_analysis_run, Hm.
  unfold drawer, drawer_content_of. simpl.
  by rewrite (errorMessage_truthy err m Hm).
Qed.

(** C19: A failure that is not reported: when what was thrown is
    [undefined] or [null], the [catch] block itself throws on reading
    [err.response].  No error is stored and no toast is shown, the
    [finally] block still runs, the promise of the handler rejects, and
    the drawer shows its placeholder. *)
Theorem analysis_unreported_failure snap sl w err s2 :
  accepted snap sl → nullish err = true →
  let r := drive [Rejected err; s2] (handleAnalyzeBooking snap sl) w in
  (∃ e, r.2 = Uncaught e) ∧
  toasts (w_log r.1) = toasts (w_log w) ∧
  analysisError (w_state r.1) = JNull ∧
  drawer (w_state r.1) = Some DrawerPlaceholder ∧
  analyzing (w_state r.1) (prop_key (session_id sl)) = false.
Proof.
  intros Ha [e He]%errorMessage_throws. cbv zeta.
  rewrite drive_accepted by done.
  rewrite drive_settled; rewrite after_trigger_rejected, fail_analysis_run, He;
    [|done].
  split_and!; [by eexists|simpl; by dash|done..|].
  apply analyzing_false. simpl. by rewrite lookup_insert_eq.
Qed.

(** C20: A failure whose message is an object: when the service answers
    with an [error] that is a plain object, that object is stored as the
    error, the toast reads "[object Object]", and React throws when it
    mounts the drawer. *)
Theorem analysis_failure_object snap sl w err fields s2 :
  accepted snap sl → nullish err = false →
  get_opt (get_opt (get_opt err "response") "data") "error" = JObj fields →
  let w' := (drive [Rejected err; s2] (handleAnalyzeBooking snap sl) w).1 in
  analysisError (w_state w') = JObj fields ∧
  last (toasts (w_log w')) =
    Some (ToastError, JStr "Analysis failed: [object Object]") ∧
  drawer_texts (w_state w') = inr (invalid_child fields).
Proof.
  intros Ha Hn He. cbv zeta.
  assert (errorMessage err = inl (JObj fields)) as Hm
    by (by rewrite errorMessage_service, He by (done || by rewrite He)).
  rewrite drive_accepted by done.
  rewrite drive_settled; rewrite after_trigger_rejected, fail_analysis_run, Hm;
    [|done].
  split; [done|]. split; [|done]. simpl. dash. by rewrite last_snoc.
Qed.

(** C25: Results whose [data] is falsy (an empty body, [0], [null]) are stored
    but the drawer shows its placeholder, as if nothing had been analysed. *)
Lemma analysis_empty_result snap sl w v1 message v2 data :
  accepted snap sl → triggerMessage v1 = inl message →
  get_prop v2 "data" = inl data → truthy data = false →
  let r := drive [Fulfilled v1; Fulfilled v2] (handleAnalyzeBooking snap sl) w in
  r.2 = Finished tt ∧ drawer (w_state r.1) = Some DrawerPlaceholder.
Proof.
  intros Ha Hm Hd Ht. cbv zeta. rewrite drive_accepted by done. simpl.
  rewrite after_trigger_run_ok with (message := message) by done.
  rewrite after_fetch_run_ok with (data := data) by done.
  unfold drawer, drawer_content_of. simpl. by rewrite Ht.
Qed.

(** C16: The guard reads the state of the render that created the handler.  Two
    calls from the same render both pass it: the trigger is sent twice. *)
Lemma stale_render_double_submission snap sl w :
  accepted snap sl →
  let w1 := (run (handleAnalyzeBooking snap sl) w).1 in
  analyzing (w_state w1) (prop_key (session_id sl)) = true ∧
  requests (w_log (run (handleAnalyzeBooking snap sl) w1).1) =
  requests (w_log w) ++
  [analyze_booking (session_id sl); analyze_booking (session_id sl)].
Proof.
  intros [H1 H2]. cbv zeta. rewrite !handleAnalyzeBooking_starts by done.
  split.
  - apply analyzing_true. simpl. apply lookup_insert_eq.
  - simpl. rewrite !requests_app. simpl. by rewrite <- app_assoc.
Qed.


(** C14: Every handler keeps the display focus coherent: the drawer is open
    exactly when a session is selected. *)
Lemma handlers_keep_focus_ok snap index sl s w :
  focus_ok (w_state w) →
  Forall (λ p : handler unit, focus_ok (w_state (run p w).1))
    (handlers snap index sl s).
Proof.
  intros Hw.
  assert (∀ p : handler unit, all_acts (sets (λ u, touches_focus u = false)) p →
            focus_ok (w_state (run p w).1)) as Hp.
  { intros p Hp. unfold focus_ok. by destruct (run_keeps_focus p w Hp) as [-> ->]. }
  unfold handlers. repeat apply Forall_cons_2; [..|constructor].
  - apply Hp, fetchCourts_keeps_focus.
  - by apply handleAnalyzeBooking_focus_ok.
  - by apply handleCardClick_focus_ok.
  - apply handleDrawerClose_focus_ok.
  - apply Hp, after_trigger_keeps_focus.
  - apply Hp, after_fetch_keeps_focus.
Qed.

(** C15: What [analysisError] holds is [null] or a truthy message after
    every handler and every continuation of [handleAnalyzeBooking],
    whatever the backend answered, when it was before; the drawer then
    shows the failure exactly when an error is stored and nothing is
    loading. *)
Lemma handlers_keep_error_ok snap index sl s w :
  error_ok (w_state w) →
  Forall (λ p : handler unit,
            let st' := w_state (run p w).1 in
            error_ok st' ∧
            (drawer_content_of st' = DrawerFailed (analysisError st') ↔
             analysisLoading st' = false ∧ analysisError st' ≠ JNull))
    (handlers snap index sl s).
Proof.
  intros Hw.
  assert (∀ p : handler unit, all_acts (sets stores_error) p →
            error_ok (w_state (run p w).1) ∧
            (drawer_content_of (w_state (run p w).1) =
               DrawerFailed (analysisError (w_state (run p w).1)) ↔
             analysisLoading (w_state (run p w).1) = false ∧
             analysisError (w_state (run p w).1) ≠ JNull)) as Hp.
  { intros p Hp. pose proof (run_error_ok p w Hp Hw) as H.
    split; [done|by apply drawer_failed_error_ok]. }
  destruct (sync_handlers_store_error snap index sl) as (H1 & H2 & H3).
  unfold handlers. repeat (apply Forall_cons_2;
    [apply Hp;
     first [ apply handleAnalyzeBooking_stores_error
           | apply after_trigger_stores_error
           | apply after_fetch_stores_error | assumption ]|]).
  constructor.
Qed.

End workflow.

(** ** The theorems on the first booking of the mock listing

    Each theorem with a hypothesis, applied to [slot_c1_9am] clicked on
    the first render, with answers of the shapes of the service's
    interface. *)

Lemma analysis_releases_session_witness :
  let w' := (drive [Fulfilled (trigger_ok "Analysis complete");
                    Rejected (transport_error "Network Error")]
               (handleAnalyzeBooking (initial_state 0) slot_c1_9am)
               (MkWorld (initial_state 0) [])).1 in
  isAnalyzing (w_state w') !! "sess_xyz_mock_court1_9am" = Some false ∧
  analysisLoading (w_state w') = false.
Proof.
  apply (analysis_releases_session (initial_state 0) slot_c1_9am). by vm_compute.
Defined.

Lemma analysis_requests_in_order_witness :
  let sent :=
    requests (w_log (drive [Fulfilled (trigger_ok "Analysis complete");
                            Fulfilled (results_ok 5 JUndefined JUndefined)]
                       (handleAnalyzeBooking (initial_state 0) slot_c1_9am)
                       (MkWorld (initial_state 0) [])).1) in
  sent = [] ++ [analyze_booking (Some "sess_xyz_mock_court1_9am")] ∨
  (sent = [] ++ [analyze_booking (Some "sess_xyz_mock_court1_9am");
                 analysis_results (Some "sess_xyz_mock_court1_9am")] ∧
   ∃ v message, Fulfilled (trigger_ok "Analysis complete") = Fulfilled v ∧
                triggerMessage v = inl message).
Proof.
  apply (analysis_requests_in_order (initial_state 0) slot_c1_9am
           (MkWorld (initial_state 0) [])).
  by vm_compute.
Defined.

Lemma analysis_refused_witness :
  let snap := w_state (started slot_c1_9am (MkWorld (initial_state 0) [])) in
  let r := drive [] (handleAnalyzeBooking snap slot_c1_9am) (MkWorld snap []) in
  w_state r.1 = snap ∧ requests (w_log r.1) = [] ∧
  r.2 = Finished tt ∧ length (toasts (w_log r.1)) = 1.
Proof.
  apply (analysis_refused
           (w_state (started slot_c1_9am (MkWorld (initial_state 0) [])))
           slot_c1_9am
           (MkWorld (w_state (started slot_c1_9am (MkWorld (initial_state 0) []))) [])
           []).
  intros [_ H]. by vm_compute in H.
Defined.

Lemma analysis_success_witness :
  let st' := w_state (drive [Fulfilled (trigger_ok "Analysis complete");
                             Fulfilled (results_ok 5 JUndefined JUndefined)]
                        (handleAnalyzeBooking (initial_state 0) slot_c1_9am)
                        (MkWorld (initial_state 0) [])).1 in
  analysisData st' = JObj [("total_shots", JNum 5); ("heatmap_data", JUndefined);
                           ("video_dimensions", JUndefined)] ∧
  ∃ heatmap,
    drawer st' = Some (DrawerResults (Some "sess_xyz_mock_court1_9am") (JNum 5) heatmap).
Proof.
  apply (analysis_success (initial_state 0) slot_c1_9am (MkWorld (initial_state 0) [])
           (trigger_ok "Analysis complete") (JStr "Analysis complete")
           (results_ok 5 JUndefined JUndefined));
    by vm_compute.
Defined.

Lemma analysis_trigger_failure_witness :
  let w' := (drive [Rejected (job_error 503 "capacity exceeded");
                    Fulfilled (results_ok 5 JUndefined JUndefined)]
               (handleAnalyzeBooking (initial_state 0) slot_c1_9am)
               (MkWorld (initial_state 0) [])).1 in
  ∃ message,
    errorMessage (job_error 503 "capacity exceeded") = inl message ∧
    drawer (w_state w') = Some (DrawerFailed message) ∧
    requests (w_log w') = [] ++ [analyze_booking (Some "sess_xyz_mock_court1_9am")].
Proof.
  apply (analysis_trigger_failure (initial_state 0) slot_c1_9am
           (MkWorld (initial_state 0) [])); by vm_compute.
Defined.

Lemma analysis_fetch_failure_witness :
  let w' := (drive [Fulfilled (trigger_ok "Analysis complete");
                    Rejected (transport_error "Network Error")]
               (handleAnalyzeBooking (initial_state 0) slot_c1_9am)
               (MkWorld (initial_state 0) [])).1 in
  ∃ shown,
    errorMessage (transport_error "Network Error") = inl shown ∧
    drawer (w_state w') = Some (DrawerFailed shown) ∧
    analysisData (w_state w') = JNull.
Proof.
  apply (analysis_fetch_failure (initial_state 0) slot_c1_9am
           (MkWorld (initial_state 0) []) (trigger_ok "Analysis complete")
           (JStr "Analysis complete")); by vm_compute.
Defined.

Lemma analysis_empty_result_witness :
  let r := drive [Fulfilled (trigger_ok "Analysis complete");
                  Fulfilled (JObj [("status", JNum 200); ("data", JStr "")])]
             (handleAnalyzeBooking (initial_state 0) slot_c1_9am)
             (MkWorld (initial_state 0) []) in
  r.2 = Finished tt ∧ drawer (w_state r.1) = Some DrawerPlaceholder.
Proof.
  apply (analysis_empty_result (initial_state 0) slot_c1_9am
           (MkWorld (initial_state 0) []) (trigger_ok "Analysis complete")
           (JStr "Analysis complete")
           (JObj [("status", JNum 200); ("data", JStr "")]) (JStr ""));
    by vm_compute.
Defined.

Lemma stale_render_double_submission_witness :
  let w1 := (run (handleAnalyzeBooking (initial_state 0) slot_c1_9am)
               (MkWorld (initial_state 0) [])).1 in
  analyzing (w_state w1) "sess_xyz_mock_court1_9am" = true ∧
  requests (w_log (run (handleAnalyzeBooking (initial_state 0) slot_c1_9am) w1).1) =
  [] ++ [analyze_booking (Some "sess_xyz_mock_court1_9am");
         analyze_booking (Some "sess_xyz_mock_court1_9am")].
Proof.
  apply (stale_render_double_submission (initial_state 0) slot_c1_9am
           (MkWorld (initial_state 0) [])). by vm_compute.
Defined.

Lemma handlers_keep_focus_ok_witness :
  Forall (λ p : handler unit,
            focus_ok (w_state (run p (MkWorld (initial_state 0) [])).1))
    (handlers (initial_state 0) 0 slot_c1_9am
       (Fulfilled (trigger_ok "Analysis complete"))).
Proof.
  apply (handlers_keep_focus_ok (initial_state 0) 0 slot_c1_9am
           (Fulfilled (trigger_ok "Analysis complete"))
           (MkWorld (initial_state 0) [])).
  apply initial_focus_ok.
Defined.

Lemma handlers_keep_error_ok_witness :
  let w := MkWorld (initial_state 0) [] in
  Forall (λ p : handler unit,
            let st' := w_state (run p w).1 in
            error_ok st' ∧
            (drawer_content_of st' = DrawerFailed (analysisError st') ↔
             analysisLoading st' = false ∧ analysisError st' ≠ JNull))
    (handlers (initial_state 0) 0 slot_c1_9am
       (Rejected (transport_error "Network Error"))).
Proof.
  apply (handlers_keep_error_ok (initial_state 0) 0 slot_c1_9am
           (Rejected (transport_error "Network Error"))
           (MkWorld (initial_state 0) [])).
  by vm_compute.
Defined.

Lemma analysis_unreported_failure_witness :
  let r := drive [Rejected JUndefined; Rejected JUndefined]
             (handleAnalyzeBooking (initial_state 0) slot_c1_9am)
             (MkWorld (initial_state 0) []) in
  (∃ e, r.2 = Uncaught e) ∧
  toasts (w_log r.1) = [] ∧
  analysisError (w_state r.1) = JNull ∧
  drawer (w_state r.1) = Some DrawerPlaceholder ∧
  analyzing (w_state r.1) "sess_xyz_mock_court1_9am" = false.
Proof.
  apply (analysis_unreported_failure (initial_state 0) slot_c1_9am
           (MkWorld (initial_state 0) [])); by vm_compute.
Defined.

Lemma analysis_failure_object_witness :
  let fields := [("code", JNum 503); ("reason", JStr "capacity exceeded")] in
  let err := JObj [("message", JStr "Request failed with status code 503");
                   ("response",
                    JObj [("status", JNum 503);
                          ("data", JObj [("error", JObj fields)])])] in
  let w' := (drive [Rejected err; Rejected err]
               (handleAnalyzeBooking (initial_state 0) slot_c1_9am)
               (MkWorld (initial_state 0) [])).1 in
  analysisError (w_state w') = JObj fields ∧
  last (toasts (w_log w')) =
    Some (ToastError, JStr "Analysis failed: [object Object]") ∧
  drawer_texts (w_state w') = inr (invalid_child fields).
Proof.
  intros fields err.
  apply (analysis_failure_object (initial_state 0) slot_c1_9am
           (MkWorld (initial_state 0) []) err fields); by vm_compute.
Defined.
