(* ===== verification/Clicks.v ===== *)
(** * What a page lets the user do

    The props of the page that call a handler: [onChange] of the tab bar,
    [onClick] of a card and of its button, [onClose] of the drawer.  An
    event of the event loop is [offered] by a state when the page that
    state renders to carries the prop that raises it; a request settles
    whatever the page shows.

    The theorems relate the page to the handlers: of the three branches
    of [handleAnalyzeBooking] only two can be entered from the page; the
    analysis of a past booking can be started from any page that lists
    it; while it is in flight the page shows the spinner and the button
    in its loading state; closing the drawer discards what it showed. *)

From S2P Require Import Prelude JsValue Courts State Async Backend World.
From S2P Require Import Handlers Lts EventLoop Sorting Cards Drawer Page Workflow.

(** The events the page of a state offers.  The button of a card calls
    [handleAnalyzeBooking] with the slot of that card, and only the
    expanded card has one. *)
Definition offered (st : state) (e : event) : Prop :=
  match e with
  | SelectTab key => renders st ∧ key ∈ tabs st
  | ClickCard index sl => renders st ∧ cards st !! index = Some sl
  | ClickAnalyze sl =>
      renders st ∧
      expandedSlotIndex st ≫= (λ index, cards st !! index) = Some sl ∧
      showAnalyzeButton sl = true
  | CloseDrawer => renders st ∧ analysisDrawerOpen st = true
  | Settle _ _ => True
  end.

#[export] Instance offered_dec st e : Decision (offered st e).
Proof. destruct e; simpl; apply _. Defined.

(** ** The page and the handlers *)

Section clicks.
Implicit Types (st : state) (sl : slot) (w : world).

(** The button that raises the click is on the page, in the card of the
    slot. *)
Lemma offered_analyze_button st sl :
  offered st (ClickAnalyze sl) →
  ∃ index, cards st !! index = Some sl ∧
           analyze_button st sl ∈ card_footers st index sl.
Proof.
  intros (_ & Hi & Hb). destruct (expandedSlotIndex st) as [index|] eqn:He; [|done].
  exists index. split; [done|]. unfold card_footers, isExpanded.
  rewrite He, bool_decide_eq_true_2, Hb by done. set_solver.
Qed.

(** The card whose button raises the click. *)
Lemma offered_analyze_card st sl :
  offered st (ClickAnalyze sl) →
  ∃ index c, expandedSlotIndex st = Some index ∧ cards st !! index = Some sl ∧
             selectedCourtData (courts st) (selectedCourtKey st) = Some c.
Proof.
  intros (_ & Hi & _). destruct (expandedSlotIndex st) as [index|]; [|done].
  simpl in Hi. unfold cards in *.
  destruct (selectedCourtData _ _) as [c|]; [by eauto|done].
Qed.

(** The page of a state that renders and has a selected court. *)
Lemma renders_page st now c :
  renders st → selectedCourtData (courts st) (selectedCourtKey st) = Some c →
  (render st now).2 =
  inl (Page (tabs st) (selectedCourtKey st)
         (CourtCards (imap (card_view_of st) (cards st))) (drawer st)).
Proof.
  intros Hr Hc. unfold render. simpl.
  by rewrite (court_view_of_has_hour st now c)
    by (done || by apply (cards_has_hour st c)).
Qed.

End clicks.

(** C28: From the page, a click on the button enters one of two branches of
    [handleAnalyzeBooking]: the notice, when the state rendered shows the
    session in flight, or the start of an analysis.  The branch for a
    missing session id is never entered. *)
Theorem offered_analyze_run st sl w :
  offered st (ClickAnalyze sl) →
  run (handleAnalyzeBooking st sl) w =
  if analyzing st (prop_key (session_id sl)) then
    (MkWorld (w_state w)
       (w_log w ++
        [EToast ToastPlain (JStr "Analysis is already in progress for this session.")]),
     Finished tt)
  else
    (started sl w,
     Suspended (analyze_booking (session_id sl)) (after_trigger (session_id sl))).
Proof.
  intros (_ & _ & (_ & _ & Hs)%showAnalyzeButton_true).
  assert (truthy_str (session_id sl) = true) as Ht by by apply truthy_str_Some.
  destruct (analyzing st _) eqn:Ha.
  - by apply handleAnalyzeBooking_in_progress.
  - by apply handleAnalyzeBooking_starts.
Qed.

(** C27: The analysis of a past booking can be started from any page that
    lists it: when its card is collapsed and its session is not in
    flight, the click on the card is offered, after it the click on the
    button is offered, and that click sends the trigger. *)
Theorem analysis_reachable st index sl w :
  w_state w = st → renders st → cards st !! index = Some sl →
  showAnalyzeButton sl = true → expandedSlotIndex st ≠ Some index →
  analyzing st (prop_key (session_id sl)) = false →
  let w1 := (run (handleCardClick st index sl) w).1 in
  offered st (ClickCard index sl) ∧
  offered (w_state w1) (ClickAnalyze sl) ∧
  (run (handleAnalyzeBooking (w_state w1) sl) w1).2 =
    Suspended (analyze_booking (session_id sl)) (after_trigger (session_id sl)).
Proof.
  intros Hw Hr Hi Hb He Ha. cbv zeta.
  rewrite handleCardClick_run, decide_False by done. simpl. rewrite Hw.
  split; [done|]. split; [by split_and!|].
  pose proof Hb as (_ & _ & Hs%truthy_str_Some)%showAnalyzeButton_true.
  by rewrite handleAnalyzeBooking_starts.
Qed.

(** C29: While an analysis is in flight the page says so: after the click
    on the button the drawer shows the spinner, and the card of the
    booking ends with the button in its loading state, labelled
    "Analyzing...". *)
Theorem in_flight_page sl w now :
  offered (w_state w) (ClickAnalyze sl) →
  analyzing (w_state w) (prop_key (session_id sl)) = false →
  let w1 := (run (handleAnalyzeBooking (w_state w) sl) w).1 in
  ∃ pg index cs v,
    (render (w_state w1) now).2 = inl pg ∧
    page_drawer pg = Some DrawerLoading ∧
    page_court pg = CourtCards cs ∧ cs !! index = Some v ∧
    view_key v = slot_id sl ∧
    view_footers v = [AnalyzeButton true "Analyzing..."].
Proof.
  intros Ho Ha. cbv zeta.
  destruct (offered_analyze_card _ _ Ho) as (index & c & He & Hi & Hc).
  destruct Ho as (Hr & Hx & Hb).
  pose proof Hb as (_ & _ & Hs%truthy_str_Some)%showAnalyzeButton_true.
  rewrite handleAnalyzeBooking_starts by done. cbn [fst].
  set (st1 := apply_updates (start_updates (session_id sl)) (w_state w)).
  assert (analyzing st1 (prop_key (session_id sl)) = true) as Ha1
    by (apply analyzing_true, lookup_insert_eq).
  eexists _, index, _, (card_view_of st1 index sl).
  split; [by apply (renders_page st1 now c)|].
  split; [done|]. split; [done|].
  split; [|split; [done|]].
  { change (cards st1) with (cards (w_state w)).
    by rewrite list_lookup_imap, Hi. }
  cbn [view_footers card_view_of].
  rewrite card_footers_button by (done || by apply bool_decide_eq_true_2).
  unfold analyze_button. by rewrite Ha1.
Qed.

(** Closing the drawer forgets the result: what a finished analysis
    stored is gone, the bookkeeping of the analyses in flight is
    untouched, and the page no longer offers to close the drawer. *)
Theorem drawer_close_discards_result w :
  let st' := w_state (run handleDrawerClose w).1 in
  drawer st' = None ∧ analysisData st' = JNull ∧ analysisError st' = JNull ∧
  isAnalyzing st' = isAnalyzing (w_state w) ∧
  analysisLoading st' = analysisLoading (w_state w) ∧
  ¬ offered st' CloseDrawer.
Proof.
  cbv zeta. rewrite handleDrawerClose_run. split_and!; try done.
  by intros [_ ?].
Qed.

(** ** The theorems on a listing with a past booking *)

Lemma offered_analyze_run_witness :
  let sl := Slot "slot_1" "09:00" "Booked" (Some "sess_1") true
              (Some "John Doe") (Some 10%Z) (Some 9%Z) in
  let st := apply_updates
              [SetCourts [Court "court_1" "Court 1" [sl]];
               SetExpandedSlotIndex (Some 0)] (initial_state 0) in
  run (handleAnalyzeBooking st sl) (MkWorld st []) =
  (started sl (MkWorld st []),
   Suspended (analyze_booking (session_id sl)) (after_trigger (session_id sl))).
Proof.
  intros sl st. apply (offered_analyze_run st sl (MkWorld st [])).
  apply (bool_decide_unpack _). by vm_compute.
Defined.

Lemma analysis_reachable_witness :
  let sl := Slot "slot_1" "09:00" "Booked" (Some "sess_1") true
              (Some "John Doe") (Some 10%Z) (Some 9%Z) in
  let st := apply_update (SetCourts [Court "court_1" "Court 1" [sl]])
              (initial_state 0) in
  let w1 := (run (handleCardClick st 0 sl) (MkWorld st [])).1 in
  offered st (ClickCard 0 sl) ∧
  offered (w_state w1) (ClickAnalyze sl) ∧
  (run (handleAnalyzeBooking (w_state w1) sl) w1).2 =
    Suspended (analyze_booking (session_id sl)) (after_trigger (session_id sl)).
Proof.
  intros sl st.
  apply (analysis_reachable st 0 sl (MkWorld st [])); try done.
  apply (bool_decide_unpack _). by vm_compute.
Defined.

Lemma in_flight_page_witness :
  let sl := Slot "slot_1" "09:00" "Booked" (Some "sess_1") true
              (Some "John Doe") (Some 10%Z) (Some 9%Z) in
  let st := apply_updates
              [SetCourts [Court "court_1" "Court 1" [sl]];
               SetExpandedSlotIndex (Some 0)] (initial_state 0) in
  let w1 := (run (handleAnalyzeBooking st sl) (MkWorld st [])).1 in
  ∃ pg index cs v,
    (render (w_state w1) 0).2 = inl pg ∧
    page_drawer pg = Some DrawerLoading ∧
    page_court pg = CourtCards cs ∧ cs !! index = Some v ∧
    view_key v = slot_id sl ∧
    view_footers v = [AnalyzeButton true "Analyzing..."].
Proof.
  intros sl st. apply (in_flight_page sl (MkWorld st []) 0); [|done].
  apply (bool_decide_unpack _). by vm_compute.
Defined.
