(* ===== verification/Controller.v ===== *)
(** * The controller of the specification and the handler that implements it

    The specification describes the analysis of a session as a state
    machine, [Idle], [Triggering], [AwaitingResults], [Succeeded],
    [Failed], driven by a request of the caller and by the outcomes of the
    two backend operations.  This file holds that machine
    ([controller_step]), what a caller can observe of the lifecycle in the
    source ([observe]: the request a suspended handler waits on and, once
    it has ended, what the drawer shows), and the proof that one call of
    [handleAnalyzeBooking], on answers of the documented shapes, goes
    through the states of the machine and ends with the reported shot
    count on screen.

    The machine and the shapes of the answers come from the
    specification; the handler and the drawer are the code. *)

From S2P Require Import Prelude JsValue Courts State Async Backend World.
From S2P Require Import Handlers Drawer Workflow.

(** The lifecycle of a session. *)
Inductive phase : Type :=
| Idle
| Triggering
| AwaitingResults
| Succeeded (result : jsval)
| Failed (message : jsval).

(** A failure of a backend operation, with its message. *)
Inductive failure : Type :=
| JobError (status : Z) (message : string)
| NotFoundError (message : string)
| TransportError (message : string).

Definition failure_message (f : failure) : string :=
  match f with
  | JobError _ message => message
  | NotFoundError message => message
  | TransportError message => message
  end.

(** The result of an analysis: the shot count, the position samples and
    the frame they were captured against. *)
Record analysis_result : Type := AnalysisResult {
  result_shots : Z;
  result_heatmap : jsval;
  result_dimensions : jsval
}.

(** What happens to a session: the caller asks for its analysis, the
    trigger settles, the fetch settles. *)
Inductive input : Type :=
| RequestAnalysis
| TriggerDone (r : string + failure)
| FetchDone (r : analysis_result + failure).

Inductive notice : Type := AlreadyInProgress.

(** The payload of a result, as the drawer reads it. *)
Definition payload (r : analysis_result) : jsval :=
  JObj [("total_shots", JNum (result_shots r));
        ("heatmap_data", result_heatmap r);
        ("video_dimensions", result_dimensions r)].

(** One transition of the controller, with the notice it reports. *)
Definition controller_step (ph : phase) (i : input) : phase * option notice :=
  match i, ph with
  | RequestAnalysis, (Triggering | AwaitingResults) => (ph, Some AlreadyInProgress)
  | RequestAnalysis, _ => (Triggering, None)
  | TriggerDone (inl _), Triggering => (AwaitingResults, None)
  | TriggerDone (inr f), Triggering => (Failed (JStr (failure_message f)), None)
  | FetchDone (inl r), AwaitingResults => (Succeeded (payload r), None)
  | FetchDone (inr f), AwaitingResults => (Failed (JStr (failure_message f)), None)
  | _, _ => (ph, None)
  end.

Definition controller_run (inputs : list input) : phase :=
  foldl (λ ph i, (controller_step ph i).1) Idle inputs.

(** What axios settles a request with, for each outcome of an operation. *)
Definition encode_failure (f : failure) : jsval :=
  match f with
  | JobError status message => job_error status message
  | NotFoundError message => job_error 404 message
  | TransportError message => transport_error message
  end.

Definition settle_trigger (r : string + failure) : settled :=
  match r with
  | inl message => Fulfilled (trigger_ok message)
  | inr f => Rejected (encode_failure f)
  end.

Definition settle_fetch (r : analysis_result + failure) : settled :=
  match r with
  | inl r =>
      Fulfilled (results_ok (result_shots r) (result_heatmap r) (result_dimensions r))
  | inr f => Rejected (encode_failure f)
  end.

(** The failures the normalisation of the source passes on unchanged: those
    with a message. *)
Definition has_message (f : failure) : Prop := failure_message f ≠ "".

Definition trigger_wf (r : string + failure) : Prop :=
  match r with inl _ => True | inr f => has_message f end.

Definition fetch_wf (r : analysis_result + failure) : Prop :=
  match r with inl _ => True | inr f => has_message f end.

(** What the drawer shows of the session it is focused on, when no
    handler is running: a failure, results, or neither. *)
Definition shown (st : state) : phase :=
  match drawer st with
  | Some (DrawerFailed message) => Failed message
  | Some (DrawerResults _ _ _) => Succeeded (analysisData st)
  | _ => Idle
  end.

(** The lifecycle as the source shows it: a handler suspended on the POST
    is triggering, one suspended on the GET awaits the results, and once
    the handler has ended the drawer shows the outcome. *)
Definition observe (session_id : option string)
    (r : world * outcome action request unit) : phase :=
  match r.2 with
  | Suspended request _ =>
      if decide (request = analyze_booking session_id) then Triggering
      else AwaitingResults
  | _ => shown (w_state r.1)
  end.

Section controller.
Implicit Types (snap : state) (sl : slot) (w : world) (f : failure).

(** What is observed of a suspended handler and of one that returned. *)
Lemma observe_suspended sid w request k :
  observe sid (w, Suspended request k) =
  if decide (request = analyze_booking sid) then Triggering else AwaitingResults.
Proof. reflexivity. Qed.

Lemma observe_finished sid w : observe sid (w, Finished tt) = shown (w_state w).
Proof. reflexivity. Qed.

(** The normalised message of a documented failure is its message. *)
Lemma errorMessage_failure f :
  has_message f → errorMessage (encode_failure f) = inl (JStr (failure_message f)).
Proof.
  destruct f as [status message|message|message]; unfold has_message; simpl;
    intros Hm.
  - rewrite errorMessage_service; [done..|]. by apply truthy_JStr.
  - rewrite errorMessage_service; [done..|]. by apply truthy_JStr.
  - unfold errorMessage, transport_error, js_or. simpl.
    by rewrite bool_decide_eq_false_2.
Qed.

(** An answer [200 {message}] has a readable message. *)
Lemma triggerMessage_trigger_ok message :
  triggerMessage (trigger_ok message) =
  inl (js_or (JStr message) (JStr "Analysis triggered successfully.")).
Proof. reflexivity. Qed.

(** An analysis that failed with a documented failure: the drawer shows
    its message. *)
Lemma observe_failed sid f w :
  has_message f → analysisDrawerOpen (w_state w) = true →
  observe sid (run (fail_analysis sid (encode_failure f)) w) =
  Failed (JStr (failure_message f)).
Proof.
  intros Hf Ho. rewrite fail_analysis_run, errorMessage_failure by done.
  rewrite observe_finished. unfold shown, drawer, drawer_content_of. simpl.
  rewrite Ho. by rewrite bool_decide_eq_false_2.
Qed.

(** After the click the handler is triggering. *)
Lemma observe_started snap sl w :
  accepted snap sl →
  observe (session_id sl) (run (handleAnalyzeBooking snap sl) w) = Triggering.
Proof.
  intros [H1 H2]. rewrite handleAnalyzeBooking_starts by done.
  by rewrite observe_suspended, decide_True.
Qed.

(** When the trigger has settled, the handler awaits the results or has
    failed, as the controller does. *)
Lemma observe_triggered sl w r :
  trigger_wf r →
  observe (session_id sl)
    (run (after_trigger (session_id sl) (settle_trigger r)) (started sl w)) =
  (controller_step Triggering (TriggerDone r)).1.
Proof.
  destruct r as [message|f]; intros Hr; unfold settle_trigger.
  - erewrite after_trigger_run_ok by apply triggerMessage_trigger_ok.
    by rewrite observe_suspended, decide_False.
  - rewrite after_trigger_rejected. by apply observe_failed.
Qed.

(** When the fetch has settled, the drawer shows the results or the
    failure, as the controller stores them. *)
Lemma observe_fetched sid w r :
  fetch_wf r → analysisDrawerOpen (w_state w) = true →
  analysisError (w_state w) = JNull →
  observe sid (run (after_fetch sid (settle_fetch r)) w) =
  (controller_step AwaitingResults (FetchDone r)).1.
Proof.
  destruct r as [r|f]; intros Hr Ho He; unfold settle_fetch.
  - erewrite after_fetch_run_ok by done.
    rewrite observe_finished. unfold shown, drawer, drawer_content_of. simpl.
    by rewrite Ho, He.
  - rewrite after_fetch_rejected. by apply observe_failed.
Qed.

End controller.

(** C5: The handler implements the controller: after the click, after the
    trigger has settled and after the fetch has settled, what the source
    shows of the session is the state of the controller after the same
    inputs. *)
Theorem handler_refines_controller snap sl w t r :
  accepted snap sl → trigger_wf t → fetch_wf r →
  let h := handleAnalyzeBooking snap sl in
  let observed answers := observe (session_id sl) (drive answers h w) in
  observed [] = controller_run [RequestAnalysis] ∧
  observed [settle_trigger t] = controller_run [RequestAnalysis; TriggerDone t] ∧
  observed [settle_trigger t; settle_fetch r] =
    controller_run [RequestAnalysis; TriggerDone t; FetchDone r].
Proof.
  intros Ha Ht Hr. cbv zeta. split_and!.
  - by apply observe_started.
  - rewrite drive_accepted by done. by apply observe_triggered.
  - rewrite drive_accepted by done. destruct t as [message|f].
    + unfold settle_trigger at 1. cbn [drive].
      erewrite after_trigger_run_ok by apply triggerMessage_trigger_ok.
      by apply observe_fetched.
    + unfold settle_trigger at 1.
      rewrite after_trigger_rejected,
        drive_settled by apply settled_outcome_iff, fail_analysis_settles.
      rewrite observe_failed by done. by destruct r.
Qed.

(** C8: The shot count the service reports is the one on screen: it goes
    through the answer of the fetch, [analysisData] and the drawer, and
    React renders it in decimal beside the id of the session. *)
Theorem analysis_shows_shots snap sl w message r id :
  accepted snap sl → session_id sl = Some id →
  let st' := w_state (drive [settle_trigger (inl message); settle_fetch (inl r)]
                        (handleAnalyzeBooking snap sl) w).1 in
  get_opt (analysisData st') "total_shots" = JNum (result_shots r) ∧
  drawer_texts st' = inl [id; pretty (result_shots r)].
Proof.
  intros Ha Hid. cbv zeta. rewrite drive_accepted by done.
  unfold settle_trigger, settle_fetch. cbn [drive].
  erewrite after_trigger_run_ok by apply triggerMessage_trigger_ok.
  erewrite after_fetch_run_ok by done.
  split; [done|]. unfold drawer_texts, drawer, drawer_content_of. simpl.
  by rewrite Hid.
Qed.

(** ** The theorems on the first booking of the mock listing *)

Lemma handler_refines_controller_witness :
  let h := handleAnalyzeBooking (initial_state 0) slot_c1_9am in
  let t : string + failure := inl "Analysis complete" in
  let r : analysis_result + failure :=
    inl (AnalysisResult 5 JUndefined JUndefined) in
  let observed answers :=
    observe (session_id slot_c1_9am) (drive answers h (MkWorld (initial_state 0) [])) in
  observed [] = controller_run [RequestAnalysis] ∧
  observed [settle_trigger t] = controller_run [RequestAnalysis; TriggerDone t] ∧
  observed [settle_trigger t; settle_fetch r] =
    controller_run [RequestAnalysis; TriggerDone t; FetchDone r].
Proof.
  apply (handler_refines_controller (initial_state 0) slot_c1_9am
           (MkWorld (initial_state 0) []) (inl "Analysis complete")
           (inl (AnalysisResult 5 JUndefined JUndefined)));
    by vm_compute.
Defined.

Lemma analysis_shows_shots_witness :
  let r := AnalysisResult 5 JUndefined JUndefined in
  let st' := w_state (drive [settle_trigger (inl "Analysis complete");
                             settle_fetch (inl r)]
                        (handleAnalyzeBooking (initial_state 0) slot_c1_9am)
                        (MkWorld (initial_state 0) [])).1 in
  get_opt (analysisData st') "total_shots" = JNum 5 ∧
  drawer_texts st' = inl ["sess_xyz_mock_court1_9am"; "5"].
Proof.
  intros r.
  apply (analysis_shows_shots (initial_state 0) slot_c1_9am
           (MkWorld (initial_state 0) []) "Analysis complete" r
           "sess_xyz_mock_court1_9am"); by vm_compute.
Defined.
