(* ===== verification/Registry.v ===== *)
(** * The registry of the specification and the hooks of the component

    The specification keeps a table of sessions, each with its lifecycle
    and its result or error, and beside it a display focus: the session
    whose state is on screen.  Closing the display clears the focus and
    leaves the table alone.  The component keeps one result and one error
    for all sessions, in [analysisData] and [analysisError], and the
    session they belong to in [analysisSessionId].

    This file holds the controller of the specification as a record of
    the table and the focus ([controller], [command_step],
    [getSnapshot]), the operations of the component run one after the
    other, each to its end ([operation], [run_operation]), and the relation
    between the two ([agrees]): the drawer shows the snapshot of the
    focused session.  An analysis runs here with answers of the documented
    shapes and no other handler runs before it has ended; what
    interleaved handlers do is the subject of the event loop.

    The theorems: every sequence of operations keeps the relation, and
    the guard accepts exactly the session ids that are not empty and name
    no property of [Object.prototype]; the hooks forget a result the table
    keeps when the drawer is closed; the drawer never opens without a new
    trigger. *)

From S2P Require Import Prelude JsValue Courts State Async Backend World.
From S2P Require Import Handlers EventLoop Drawer Workflow Controller.

(** ** The controller of the specification *)

Record controller : Type := Controller {
  registry : gmap string phase;
  focus : option string
}.

Definition new_controller : controller := Controller ∅ None.

(** What a caller does to the controller: an input for a session, opening
    the display on a session, closing the display. *)
Inductive command : Type :=
| Session (id : string) (i : input)
| Display (id : string)
| ClearDisplayFocus.

Definition getSnapshot (c : controller) (id : string) : option phase :=
  registry c !! id.

(** The entry of a session after an input: a request creates the entry,
    an outcome for a session that was never requested is dropped. *)
Definition session_step (i : input) (entry : option phase) : option phase :=
  match i, entry with
  | RequestAnalysis, _ => Some (controller_step (default Idle entry) i).1
  | _, Some ph => Some (controller_step ph i).1
  | _, None => None
  end.

Definition command_step (c : controller) (cmd : command) : controller :=
  match cmd with
  | Session id i =>
      Controller (partial_alter (session_step i) id (registry c)) (focus c)
  | Display id => Controller (registry c) (Some id)
  | ClearDisplayFocus => Controller (registry c) None
  end.

Definition execute (cmds : list command) (c : controller) : controller :=
  foldl command_step c cmds.

(** What a display of the controller shows: the snapshot of the focused
    session. *)
Definition displayed (c : controller) : phase :=
  default Idle (focus c ≫= getSnapshot c).

Definition in_progress (ph : phase) : bool :=
  match ph with
  | Triggering | AwaitingResults => true
  | _ => false
  end.

(** ** The operations of the component *)

(** What the user does, with the outcomes of the two backend operations
    for an analysis. *)
Inductive operation : Type :=
| Analyse (sl : slot) (t : string + failure) (r : analysis_result + failure)
| ToggleCard (index : nat) (sl : slot)
| CloseDisplay
| ChangeTab (key : string).

(** An operation run to its end in the state of the last render. *)
Definition run_operation (op : operation) (w : world) : world :=
  match op with
  | Analyse sl t r =>
      (drive [settle_trigger t; settle_fetch r]
         (handleAnalyzeBooking (w_state w) sl) w).1
  | ToggleCard index sl => (run (handleCardClick (w_state w) index sl) w).1
  | CloseDisplay => (run handleDrawerClose w).1
  | ChangeTab key => (run (onTabChange (w_state w) key) w).1
  end.

Definition operation_wf (op : operation) : Prop :=
  match op with
  | Analyse _ t r => trigger_wf t ∧ fetch_wf r
  | _ => True
  end.

#[export] Instance operation_wf_dec op : Decision (operation_wf op).
Proof.
  destruct op as [sl [m|f] [r|f']| | |]; unfold operation_wf, trigger_wf,
    fetch_wf, has_message; apply _.
Defined.

(** What an analysis writes between its first and its last setters, and
    what it logs after the trigger, by the outcomes of the two requests. *)
Definition outcome_updates (t : string + failure)
    (r : analysis_result + failure) : list update :=
  match t, r with
  | inl _, inl r => [SetAnalysisData (payload r)]
  | inl _, inr f => [SetAnalysisError (JStr (failure_message f))]
  | inr f, _ => [SetAnalysisError (JStr (failure_message f))]
  end.

Definition outcome_log (session_id : option string) (t : string + failure)
    (r : analysis_result + failure) : list effect :=
  match t with
  | inl message =>
      EToast ToastSuccess
        (js_or (JStr message) (JStr "Analysis triggered successfully.")) ::
      ERequest (analysis_results session_id) ::
      match r with
      | inl _ => []
      | inr f => failure_log (encode_failure f) (JStr (failure_message f))
      end
  | inr f => failure_log (encode_failure f) (JStr (failure_message f))
  end.

(** The commands an operation amounts to for the controller, in the state
    of the last render.  A click on a slot without a session id, or with
    one that names a property of [Object.prototype], amounts to none: the
    guard of the handler answers it with a notice. *)
Definition commands (st : state) (op : operation) : list command :=
  match op with
  | Analyse sl t r =>
      let id := prop_key (session_id sl) in
      if truthy_str (session_id sl) && negb (inherited id) then
        [Display id; Session id RequestAnalysis; Session id (TriggerDone t);
         Session id (FetchDone r)]
      else []
  | ToggleCard index sl =>
      if decide (expandedSlotIndex st = Some index ∧
                 analysisSessionId st = session_id sl)
      then [ClearDisplayFocus] else []
  | CloseDisplay => [ClearDisplayFocus]
  | ChangeTab _ => []
  end.

(** The hooks agree with a controller: the display focus is the selected
    session, the drawer shows its snapshot and mounts, the in-flight table
    has the sessions of the registry, and nothing is in flight: a session
    reads as in flight only when the prototype of the table answers for
    it. *)
Record agrees (st : state) (c : controller) : Prop := Agrees {
  agrees_focus : analysisSessionId st = focus c;
  agrees_shown : shown st = displayed c;
  agrees_mounts : ∃ texts, drawer_texts st = inl texts;
  agrees_sessions : dom (isAnalyzing st) =@{gset string} dom (registry c);
  agrees_loading : analysisLoading st = false;
  agrees_idle : ∀ id, analyzing st id = inherited id;
  agrees_terminal : ∀ id ph, getSnapshot c id = Some ph → in_progress ph = false
}.

(** The component and the controller, side by side. *)
Definition replay_step (x : world * controller) (op : operation)
    : world * controller :=
  (run_operation op x.1, execute (commands (w_state x.1) op) x.2).

Definition replay (ops : list operation) (x : world * controller)
    : world * controller :=
  foldl replay_step x ops.

(** ** The controller *)

Section controller.
Implicit Types (c : controller) (id : string) (ph : phase).

Lemma getSnapshot_Session c id i id' :
  getSnapshot (command_step c (Session id i)) id' =
  if decide (id = id') then session_step i (getSnapshot c id)
  else getSnapshot c id'.
Proof. apply lookup_partial_alter. Qed.

(** A request on a session that is not in progress, followed by the two
    outcomes, leaves the entry a fresh session would have. *)
Lemma session_step_analysis t r entry :
  (∀ ph, entry = Some ph → in_progress ph = false) →
  session_step (FetchDone r)
    (session_step (TriggerDone t) (session_step RequestAnalysis entry)) =
  Some (controller_run [RequestAnalysis; TriggerDone t; FetchDone r]).
Proof.
  intros He. destruct entry as [ph|]; [|done].
  specialize (He ph eq_refl). by destruct ph.
Qed.

Lemma controller_run_terminal t r :
  in_progress (controller_run [RequestAnalysis; TriggerDone t; FetchDone r]) = false.
Proof. by destruct t, r. Qed.

(** The commands of an analysis: the display is on the session and its
    entry is that of one run of the state machine. *)
Lemma execute_analysis c id t r :
  (∀ ph, getSnapshot c id = Some ph → in_progress ph = false) →
  execute [Display id; Session id RequestAnalysis; Session id (TriggerDone t);
           Session id (FetchDone r)] c =
  Controller
    (<[id := controller_run [RequestAnalysis; TriggerDone t; FetchDone r]]>
       (registry c))
    (Some id).
Proof.
  intros Hc. unfold execute. cbn [foldl command_step registry focus].
  f_equal. apply map_eq. intros j.
  rewrite lookup_insert, !lookup_partial_alter.
  case_decide; [|done]. rewrite !decide_True by done.
  by apply session_step_analysis.
Qed.

End controller.

(** ** An analysis, from the click to its end *)

Section analysis.
Implicit Types (snap st : state) (sl : slot) (w : world).

(** The world an accepted click leaves when the backend has answered as
    documented: the setters of the start, of the outcome and of the
    [finally] block, and the log of the requests and the toasts. *)
Lemma analysis_documented snap sl t r w :
  accepted snap sl → trigger_wf t → fetch_wf r →
  (drive [settle_trigger t; settle_fetch r] (handleAnalyzeBooking snap sl) w).1 =
  MkWorld
    (apply_updates
       (start_updates (session_id sl) ++ outcome_updates t r ++
        finish_updates (session_id sl)) (w_state w))
    (w_log w ++ ERequest (analyze_booking (session_id sl)) ::
     outcome_log (session_id sl) t r).
Proof.
  intros Ha Ht Hr. rewrite drive_accepted by done.
  rewrite apply_updates_app. destruct t as [message|f]; unfold settle_trigger.
  - cbn [drive]. erewrite after_trigger_run_ok by apply triggerMessage_trigger_ok.
    destruct r as [r|f]; unfold settle_fetch.
    + erewrite after_fetch_run_ok by done. unfold started. simpl.
      by rewrite <- app_assoc.
    + rewrite after_fetch_rejected, fail_analysis_run, errorMessage_failure by done.
      unfold started. simpl. by rewrite <- !app_assoc.
  - rewrite after_trigger_rejected,
      drive_settled by apply settled_outcome_iff, fail_analysis_settles.
    rewrite fail_analysis_run, errorMessage_failure by done.
    unfold started. simpl. by rewrite <- !app_assoc.
Qed.

(** A click that is not accepted leaves the hooks as they are. *)
Lemma analysis_refused_state snap sl w answers :
  ¬ accepted snap sl →
  w_state (drive answers (handleAnalyzeBooking snap sl) w).1 = w_state w.
Proof.
  intros Hn. destruct (handleAnalyzeBooking_refused snap sl w Hn) as [m Hrun].
  rewrite drive_settled by (by rewrite Hrun). by rewrite Hrun.
Qed.

(** What the drawer shows when an analysis has ended is the state the
    controller's machine ends in. *)
Lemma shown_analysis sl t r st :
  trigger_wf t → fetch_wf r →
  shown (apply_updates
           (start_updates (session_id sl) ++ outcome_updates t r ++
            finish_updates (session_id sl)) st) =
  controller_run [RequestAnalysis; TriggerDone t; FetchDone r].
Proof.
  intros Ht Hr. unfold shown, drawer, drawer_content_of.
  destruct t as [message|f]; [destruct r as [r|f]|]; simpl; try done;
    rewrite bool_decide_eq_false_2 by done; by try destruct r.
Qed.

(** The hooks of the display and of the bookkeeping when an analysis has
    ended, whatever its outcome. *)
Lemma analysis_fields sl t r st :
  let st' := apply_updates
               (start_updates (session_id sl) ++ outcome_updates t r ++
                finish_updates (session_id sl)) st in
  analysisSessionId st' = session_id sl ∧ analysisDrawerOpen st' = true ∧
  analysisLoading st' = false ∧
  isAnalyzing st' =
    <[prop_key (session_id sl) := false]>
      (<[prop_key (session_id sl) := true]> (isAnalyzing st)).
Proof. by destruct t as [?|?], r as [?|?]. Qed.

(** With documented answers the drawer mounts when the analysis has
    ended: its children are the message of the failure, or the session
    id and the shot count. *)
Lemma drawer_texts_analysis sl t r st :
  trigger_wf t → fetch_wf r →
  ∃ texts,
    drawer_texts (apply_updates
                    (start_updates (session_id sl) ++ outcome_updates t r ++
                     finish_updates (session_id sl)) st) = inl texts.
Proof.
  intros Ht Hr. unfold drawer_texts, drawer, drawer_content_of.
  destruct t as [message|f]; [destruct r as [r|f]|]; simpl;
    rewrite ?bool_decide_eq_false_2 by done; simpl;
    try destruct (session_id sl); by eexists.
Qed.

Lemma shown_closed st : analysisDrawerOpen st = false → shown st = Idle.
Proof. intros H. unfold shown, drawer. by rewrite H. Qed.

End analysis.

(** ** Every operation keeps the relation *)

Section agrees.
Implicit Types (st : state) (c : controller) (w : world) (sl : slot).

Lemma agrees_initial now : agrees (initial_state now) new_controller.
Proof. split; first [done|by eexists]. Qed.

(** When nothing is in flight, the clicks the guard accepts are those on
    a slot with a session id that names no property of the prototype. *)
Lemma agrees_accepted st c sl :
  agrees st c →
  accepted st sl ↔
  truthy_str (session_id sl) = true ∧ inherited (prop_key (session_id sl)) = false.
Proof. intros Hc. unfold accepted. by rewrite (agrees_idle _ _ Hc). Qed.

Lemma commands_analyse st c sl t r :
  agrees st c →
  commands st (Analyse sl t r) =
  if decide (accepted st sl) then
    [Display (prop_key (session_id sl));
     Session (prop_key (session_id sl)) RequestAnalysis;
     Session (prop_key (session_id sl)) (TriggerDone t);
     Session (prop_key (session_id sl)) (FetchDone r)]
  else [].
Proof.
  intros Hc. unfold commands.
  case_decide as Ha; rewrite (agrees_accepted st c sl Hc) in Ha.
  - destruct Ha as [-> ->]. done.
  - destruct (truthy_str _), (inherited _); try done. by destruct Ha.
Qed.

(** Clearing the focus matches closing the drawer. *)
Lemma agrees_cleared st st' c :
  agrees st c → analysisDrawerOpen st' = false → analysisSessionId st' = None →
  analysisLoading st' = analysisLoading st → isAnalyzing st' = isAnalyzing st →
  agrees st' (command_step c ClearDisplayFocus).
Proof.
  intros [H1 H2 _ H3 H4 H5 H6] Ho Hs Hl Ha.
  split; simpl; [done| | |by rewrite Ha|by rewrite Hl| |done].
  - by rewrite shown_closed.
  - rewrite drawer_texts_closed by done. by eexists.
  - intros id. by rewrite (analyzing_ext st st').
Qed.

(** The relation does not read the hooks of the listing. *)
Lemma agrees_frame st st' c :
  agrees st c →
  analysisDrawerOpen st' = analysisDrawerOpen st →
  analysisSessionId st' = analysisSessionId st →
  analysisLoading st' = analysisLoading st →
  analysisData st' = analysisData st → analysisError st' = analysisError st →
  isAnalyzing st' = isAnalyzing st →
  agrees st' c.
Proof.
  intros [H1 H2 Hm H3 H4 H5 H6] Ho Hs Hl Hd He Ha.
  split; [congruence| | |by rewrite Ha|congruence| |done].
  - rewrite <- H2. unfold shown, drawer, drawer_content_of.
    by rewrite Ho, Hs, Hl, Hd, He.
  - destruct Hm as [texts Hm]. exists texts. rewrite <- Hm.
    unfold drawer_texts, drawer, drawer_content_of.
    by rewrite Ho, Hs, Hl, Hd, He.
  - intros id. by rewrite (analyzing_ext st st').
Qed.

Lemma agrees_analyse sl t r w c :
  agrees (w_state w) c → trigger_wf t → fetch_wf r →
  agrees (w_state (run_operation (Analyse sl t r) w))
         (execute (commands (w_state w) (Analyse sl t r)) c).
Proof.
  intros Hc Ht Hr. unfold run_operation.
  rewrite (commands_analyse _ c) by done.
  case_decide as Ha; [|by rewrite analysis_refused_state].
  rewrite analysis_documented, execute_analysis by (done || apply Hc).
  cbn [w_state].
  destruct (analysis_fields sl t r (w_state w)) as (Hf & _ & Hl & Hm).
  destruct Ha as [Hs Ha]. apply truthy_str_Some in Hs as (id & Hid & _).
  rewrite (prop_key_truthy _ id Hid) in *.
  split; [by rewrite Hf| |by apply drawer_texts_analysis| |done| |].
  - rewrite shown_analysis by done. unfold displayed, getSnapshot. simpl.
    by rewrite lookup_insert_eq.
  - rewrite Hm. cbn [registry].
    rewrite !dom_insert_L, (agrees_sessions _ _ Hc). set_solver.
  - intros id'. rewrite <- (agrees_idle _ _ Hc).
    by apply (analyzing_released _ _ id).
  - intros id' ph. unfold getSnapshot. simpl. rewrite lookup_insert.
    case_decide; [|apply Hc]. intros [= <-]. apply controller_run_terminal.
Qed.

Lemma agrees_toggle index sl w c :
  agrees (w_state w) c →
  agrees (w_state (run_operation (ToggleCard index sl) w))
         (execute (commands (w_state w) (ToggleCard index sl)) c).
Proof.
  intros Hc. unfold run_operation, commands. rewrite handleCardClick_run.
  cbn [fst w_state]. repeat case_decide; try (exfalso; tauto);
    first [by apply (agrees_cleared (w_state w))
          |by apply (agrees_frame (w_state w))].
Qed.

Lemma agrees_tab key w c :
  agrees (w_state w) c →
  agrees (w_state (run_operation (ChangeTab key) w)) c.
Proof.
  intros Hc. unfold run_operation, onTabChange.
  case_decide; by apply (agrees_frame (w_state w)).
Qed.

Lemma agrees_operation op w c :
  operation_wf op → agrees (w_state w) c →
  agrees (w_state (run_operation op w)) (execute (commands (w_state w) op) c).
Proof.
  destruct op as [sl t r|index sl| |key]; intros Hop Hc.
  - destruct Hop. by apply agrees_analyse.
  - by apply agrees_toggle.
  - by apply (agrees_cleared (w_state w)).
  - by apply agrees_tab.
Qed.

Lemma replay_agrees ops x :
  Forall operation_wf ops → agrees (w_state x.1) x.2 →
  agrees (w_state (replay ops x).1) (replay ops x).2.
Proof.
  intros Hops. revert x. induction Hops as [|op ops Hop _ IH]; intros x Hx; [done|].
  apply IH. by apply agrees_operation.
Qed.

End agrees.

(** ** The component against the specification *)

(** C6: The hooks implement the controller: after any sequence of
    operations from the first render, each run to its end with answers of
    the documented shapes, the selected session is the controller's focus,
    the drawer shows the snapshot of that session in the controller's
    table and React can mount it, the in-flight table has an entry for
    every session of the controller's table and for no other, and the
    slots that can be analysed are those with a session id that names no
    property of [Object.prototype]. *)
Theorem operations_refine_registry now ops :
  Forall operation_wf ops →
  let x := replay ops (MkWorld (initial_state now) [], new_controller) in
  analysisSessionId (w_state x.1) = focus x.2 ∧
  shown (w_state x.1) = displayed x.2 ∧
  (∃ texts, drawer_texts (w_state x.1) = inl texts) ∧
  dom (isAnalyzing (w_state x.1)) =@{gset string} dom (registry x.2) ∧
  ∀ sl, accepted (w_state x.1) sl ↔
        truthy_str (session_id sl) = true ∧
        inherited (prop_key (session_id sl)) = false.
Proof.
  intros Hops x.
  assert (agrees (w_state x.1) x.2) as Hx
    by (by apply replay_agrees, agrees_initial).
  split_and!; [apply Hx..|]. intros sl. by apply (agrees_accepted _ x.2).
Qed.

(** C17: Closing the drawer forgets what the table keeps: after an analysis
    and the closing of the drawer the hooks are the same whatever the
    results were, while the snapshot of the session in the controller's
    table is still the outcome of the analysis. *)
Theorem close_forgets_result sl t r r' x :
  agrees (w_state x.1) x.2 → accepted (w_state x.1) sl →
  trigger_wf t → fetch_wf r → fetch_wf r' →
  let y := replay [Analyse sl t r; CloseDisplay] x in
  let y' := replay [Analyse sl t r'; CloseDisplay] x in
  w_state y.1 = w_state y'.1 ∧
  getSnapshot y.2 (prop_key (session_id sl)) =
    Some (controller_run [RequestAnalysis; TriggerDone t; FetchDone r]).
Proof.
  intros Hx Ha Ht Hr Hr'.
  unfold replay, replay_step. cbn [foldl fst snd run_operation].
  rewrite (commands_analyse _ x.2), decide_True by done.
  rewrite !analysis_documented, !handleDrawerClose_run by done.
  rewrite execute_analysis by apply Hx. split.
  - cbn [fst w_state]. rewrite !apply_updates_app.
    by destruct t as [?|?], r as [?|?], r' as [?|?].
  - unfold execute, getSnapshot. simpl. by rewrite lookup_insert_eq.
Qed.

(** C18: The drawer opens only with a new trigger: an operation that finds
    the drawer closed and leaves it open is an accepted analysis, and it
    has sent the trigger of its session.  What the specification allows,
    to open the display again on a session and see its state, no
    operation of the component does. *)
Theorem display_opens_by_trigger op w :
  analysisDrawerOpen (w_state w) = false →
  analysisDrawerOpen (w_state (run_operation op w)) = true →
  ∃ sl t r, op = Analyse sl t r ∧ accepted (w_state w) sl ∧
    requests (w_log w) ++ [analyze_booking (session_id sl)]
      `prefix_of` requests (w_log (run_operation op w)).
Proof.
  intros Hc Ho. destruct op as [sl t r|index sl| |key]; cbn [run_operation] in *.
  - destruct (decide (accepted (w_state w) sl)) as [Ha|Hn]; last first.
    { rewrite analysis_refused_state in Ho by done. congruence. }
    exists sl, t, r. split_and!; [done..|]. rewrite drive_accepted by done.
    destruct (drive_after_trigger (session_id sl) (settle_trigger t)
                (settle_fetch r) (started sl w)) as (_ & _ & _ & [->|[-> _]]);
      simpl; rewrite requests_app; simpl; [done|by apply prefix_app_r].
  - rewrite handleCardClick_run in Ho. simpl in Ho.
    repeat case_decide; simpl in Ho; congruence.
  - done.
  - unfold onTabChange in Ho. case_decide; simpl in Ho; congruence.
Qed.

(** ** The theorems on the mock bookings *)

Lemma operations_refine_registry_witness :
  let named_constructor :=
    Slot "slot_c1_1pm" "13:00" "booked" (Some "constructor") false
      (Some "Eve Stone") (Some 10%Z) (Some 13%Z) in
  let ops :=
    [Analyse slot_c1_9am (inl "Analysis complete")
       (inl (AnalysisResult 5 JUndefined JUndefined));
     CloseDisplay;
     Analyse named_constructor (inl "Analysis complete")
       (inl (AnalysisResult 7 JUndefined JUndefined));
     Analyse slot_c1_10am (inr (JobError 503 "capacity exceeded"))
       (inr (TransportError "Network Error"));
     ToggleCard 1 slot_c1_10am] in
  let x := replay ops (MkWorld (initial_state 0) [], new_controller) in
  analysisSessionId (w_state x.1) = focus x.2 ∧
  shown (w_state x.1) = displayed x.2 ∧
  (∃ texts, drawer_texts (w_state x.1) = inl texts) ∧
  dom (isAnalyzing (w_state x.1)) =@{gset string} dom (registry x.2) ∧
  accepted (w_state x.1) slot_c1_9am ∧
  analyzing (w_state x.1) "constructor" = true.
Proof.
  intros named_constructor ops.
  destruct (operations_refine_registry 0 ops) as (Hf & Hs & Hm & Hd & Ha);
    [apply (bool_decide_unpack _); by vm_compute|].
  split_and!; [exact Hf|exact Hs|exact Hm|exact Hd|by apply Ha|].
  apply not_false_iff_true. intros Hn.
  by destruct (proj1 (Ha named_constructor) (conj eq_refl Hn)).
Defined.

Lemma close_forgets_result_witness :
  let x := (MkWorld (initial_state 0) [], new_controller) in
  let t : string + failure := inl "Analysis complete" in
  let r : analysis_result + failure :=
    inl (AnalysisResult 5 JUndefined JUndefined) in
  let r' : analysis_result + failure :=
    inl (AnalysisResult 7 JUndefined JUndefined) in
  let y := replay [Analyse slot_c1_9am t r; CloseDisplay] x in
  let y' := replay [Analyse slot_c1_9am t r'; CloseDisplay] x in
  w_state y.1 = w_state y'.1 ∧
  getSnapshot y.2 (prop_key (session_id slot_c1_9am)) =
    Some (controller_run [RequestAnalysis; TriggerDone t; FetchDone r]).
Proof.
  intros x t r r'.
  apply (close_forgets_result slot_c1_9am t r r' x);
    [apply agrees_initial|by vm_compute|done..].
Defined.

Lemma display_opens_by_trigger_witness :
  let w := MkWorld (initial_state 0) [] in
  let op := Analyse slot_c1_9am (inl "Analysis complete")
              (inl (AnalysisResult 5 JUndefined JUndefined)) in
  ∃ sl t r, op = Analyse sl t r ∧ accepted (w_state w) sl ∧
    requests (w_log w) ++ [analyze_booking (session_id sl)]
      `prefix_of` requests (w_log (run_operation op w)).
Proof.
  intros w op. apply (display_opens_by_trigger op w); by vm_compute.
Defined.
