(* ===== verification/Scenarios.v ===== *)
(** * Sessions side by side

    Sequences of events on the event loop: two clicks on the same
    booking, two bookings analysed at the same time, and how the drawer
    can come to open.  The first is what the guard of
    [handleAnalyzeBooking] is for; the second shows what the shared result
    hooks ([analysisData], [analysisError], [analysisLoading]) do when two
    analyses overlap. *)

From S2P Require Import Prelude JsValue Courts State Async Backend World.
From S2P Require Import Handlers Lts EventLoop Drawer Workflow.

(** Run a sequence of events. *)
Fixpoint dispatch_all (es : list event) (c : config) : option config :=
  match es with
  | [] => Some c
  | e :: es' => dispatch e c ≫= dispatch_all es'
  end.

Section scenarios.
Implicit Types (c : config) (sl : slot).

Lemma dispatch_all_cons e es c c1 :
  dispatch e c = Some c1 → dispatch_all (e :: es) c = dispatch_all es c1.
Proof. simpl. by intros ->. Qed.

(** A click the guard accepts starts the analysis and adds its handler to
    the pending ones. *)
Lemma dispatch_click_accepted c sl :
  accepted (rendered c) sl →
  dispatch (ClickAnalyze sl) c =
  Some (Config (started sl (c_world c))
          (c_pending c ++ [trigger_task (session_id sl)])).
Proof.
  intros [H1 H2]. simpl. unfold spawn.
  by rewrite handleAnalyzeBooking_starts.
Qed.

(** Once started, the session is shown in flight by the next render. *)
Lemma started_analyzing sl w :
  analyzing (w_state (started sl w)) (prop_key (session_id sl)) = true.
Proof. apply analyzing_true. simpl. apply lookup_insert_eq. Qed.

Lemma started_analyzing_other sl w id :
  id ≠ prop_key (session_id sl) →
  analyzing (w_state (started sl w)) id = analyzing (w_state w) id.
Proof.
  intros Hne. unfold analyzing. simpl. by rewrite lookup_insert_ne.
Qed.

(** A click on a session in flight only toasts. *)
Lemma dispatch_click_in_flight c sl :
  truthy_str (session_id sl) = true →
  analyzing (rendered c) (prop_key (session_id sl)) = true →
  dispatch (ClickAnalyze sl) c =
  Some (Config
          (MkWorld (rendered c)
             (w_log (c_world c) ++
              [EToast ToastPlain
                 (JStr "Analysis is already in progress for this session.")]))
          (c_pending c)).
Proof.
  intros H1 H2. simpl. unfold spawn.
  rewrite handleAnalyzeBooking_in_progress by done. simpl.
  by rewrite app_nil_r.
Qed.

(** C11: Two clicks on the same booking, one after the other: one trigger is
    sent, one handler is pending, and the second click is answered by the
    notice. *)
Lemma double_click_one_trigger c sl :
  accepted (rendered c) sl →
  ∃ c',
    dispatch_all [ClickAnalyze sl; ClickAnalyze sl] c = Some c' ∧
    requests (w_log (c_world c')) =
      requests (w_log (c_world c)) ++ [analyze_booking (session_id sl)] ∧
    c_pending c' = c_pending c ++ [trigger_task (session_id sl)] ∧
    last (toasts (w_log (c_world c'))) =
      Some (ToastPlain, JStr "Analysis is already in progress for this session.").
Proof.
  intros Ha. eexists.
  rewrite (dispatch_all_cons _ _ _ _ (dispatch_click_accepted c sl Ha)).
  rewrite (dispatch_all_cons _ _ _ _
    (dispatch_click_in_flight (Config (started sl (c_world c)) _) sl
       (proj1 Ha) (started_analyzing sl (c_world c)))).
  split; [done|]. simpl. dash. by rewrite last_snoc.
Qed.

(** The trigger of a pending handler is fulfilled: it moves on to the
    fetch. *)
Lemma dispatch_settle_trigger_ok c i sid v message :
  c_pending c !! i = Some (trigger_task sid) →
  triggerMessage v = inl message →
  dispatch (Settle i (Fulfilled v)) c =
  Some (Config
          (MkWorld (rendered c)
             (w_log (c_world c) ++
              [EToast ToastSuccess message; ERequest (analysis_results sid)]))
          (delete i (c_pending c) ++ [fetch_task sid])).
Proof.
  intros Hi Hm. simpl. rewrite Hi. simpl. unfold spawn. simpl.
  by rewrite after_trigger_run_ok with (message := message).
Qed.

(** The results of a pending handler arrive: they are stored and the
    handler ends. *)
Lemma dispatch_settle_fetch_ok c i sid v data :
  c_pending c !! i = Some (fetch_task sid) →
  get_prop v "data" = inl data →
  dispatch (Settle i (Fulfilled v)) c =
  Some (Config
          (MkWorld
             (apply_updates (SetAnalysisData data :: finish_updates sid) (rendered c))
             (w_log (c_world c)))
          (delete i (c_pending c))).
Proof.
  intros Hi Hd. simpl. rewrite Hi. simpl. unfold spawn. simpl.
  rewrite after_fetch_run_ok with (data := data) by done. simpl.
  by rewrite app_nil_r.
Qed.

(** C12: Two bookings analysed at the same time.  The second click moves the
    drawer to the second session; when the results of the first arrive,
    the drawer shows them under the id of the second, without a spinner,
    while the second analysis is still in flight. *)
Lemma cross_session_leak c slA slB vA message rA dataA :
  accepted (rendered c) slA → accepted (rendered c) slB →
  prop_key (session_id slA) ≠ prop_key (session_id slB) →
  c_pending c = [] →
  triggerMessage vA = inl message →
  get_prop rA "data" = inl dataA → truthy dataA = true →
  ∃ c' heatmap,
    dispatch_all [ClickAnalyze slA; ClickAnalyze slB;
                  Settle 0 (Fulfilled vA); Settle 1 (Fulfilled rA)] c = Some c' ∧
    c_pending c' = [trigger_task (session_id slB)] ∧
    analyzing (rendered c') (prop_key (session_id slB)) = true ∧
    drawer (rendered c') =
      Some (DrawerResults (session_id slB) (get_opt dataA "total_shots") heatmap).
Proof.
  intros HA [HB1 HB2] Hne Hp Hm Hd Ht. eexists _, _.
  rewrite (dispatch_all_cons _ _ _ _ (dispatch_click_accepted c slA HA)).
  rewrite Hp. simpl app.
  assert (accepted (rendered (Config (started slA (c_world c))
                                [trigger_task (session_id slA)])) slB) as HB.
  { split; [done|]. unfold rendered. simpl c_world.
    by rewrite started_analyzing_other. }
  rewrite (dispatch_all_cons _ _ _ _ (dispatch_click_accepted _ slB HB)).
  simpl app.
  erewrite dispatch_all_cons;
    last by eapply dispatch_settle_trigger_ok; [reflexivity|exact Hm].
  erewrite dispatch_all_cons;
    last by eapply dispatch_settle_fetch_ok; [reflexivity|exact Hd].
  split; [done|]. split; [done|]. split.
  - apply analyzing_true. unfold rendered. simpl.
    rewrite lookup_insert_ne by done. apply lookup_insert_eq.
  - unfold drawer, drawer_content_of, rendered. simpl. by rewrite Ht.
Qed.

End scenarios.

(** ** The scenarios on the mock listing, from the first render *)

Lemma double_click_one_trigger_witness :
  ∃ c',
    dispatch_all [ClickAnalyze slot_c1_9am; ClickAnalyze slot_c1_9am]
      (initial_config 0) = Some c' ∧
    requests (w_log (c_world c')) =
      [] ++ [analyze_booking (Some "sess_xyz_mock_court1_9am")] ∧
    c_pending c' = [] ++ [trigger_task (Some "sess_xyz_mock_court1_9am")] ∧
    last (toasts (w_log (c_world c'))) =
      Some (ToastPlain, JStr "Analysis is already in progress for this session.").
Proof.
  apply (double_click_one_trigger (initial_config 0) slot_c1_9am). by vm_compute.
Defined.

Lemma cross_session_leak_witness :
  ∃ c' heatmap,
    dispatch_all [ClickAnalyze slot_c1_9am; ClickAnalyze slot_c1_10am;
                  Settle 0 (Fulfilled (trigger_ok "Analysis complete"));
                  Settle 1 (Fulfilled (results_ok 5 JUndefined JUndefined))]
      (initial_config 0) = Some c' ∧
    c_pending c' = [trigger_task (Some "sess_abc_mock_court1_10am")] ∧
    analyzing (rendered c') "sess_abc_mock_court1_10am" = true ∧
    drawer (rendered c') =
      Some (DrawerResults (Some "sess_abc_mock_court1_10am") (JNum 5) heatmap).
Proof.
  apply (cross_session_leak (initial_config 0) slot_c1_9am slot_c1_10am
           (trigger_ok "Analysis complete") (JStr "Analysis complete")
           (results_ok 5 JUndefined JUndefined)
           (JObj [("total_shots", JNum 5); ("heatmap_data", JUndefined);
                  ("video_dimensions", JUndefined)]));
    by vm_compute.
Defined.
